(** * myfin-api: the category and user services

    A shallow embedding of [src/services/categoryService.ts] and of the user
    service, over a model of the pieces they run on: JavaScript template
    strings and [Date], the MySQL operators the raw queries use, and the
    Prisma client calls ([findMany], [create], [update], [delete],
    [$transaction], [$queryRaw]).

    Layout: the model comes first (modules [Js], [MySql], [Prisma],
    [CategoryService], [UserService]), then the notions the claims speak of
    and sample data, then the lemmas. *)

From Stdlib Require Import ZArith List String Ascii Bool Lia DecimalString QArith
  Sorted.
Import ListNotations.

Local Open Scope string_scope.
Local Open Scope Z_scope.

(* ================================================================== *)
(** * JavaScript values                                                 *)
(* ================================================================== *)

Module Js.

(** [`${n}`] for an integral [number] or a [bigint]: its decimal digits. *)
Definition toString (n : Z) : string := NilZero.string_of_int (Z.to_int n).

(** ** [Date]

    A [Date] is its time value, the milliseconds since the epoch, or it is
    an Invalid Date, whose time value is [NaN].  The conversion from local
    time to UTC depends on the host's time zone and is a parameter, [UTC],
    of everything that builds a date. *)

Inductive Date : Type :=
| InvalidDate
| TimeValue (t : Z).

Definition msPerDay : Z := 86400000.

(** The greatest time value: 100,000,000 days, 8.64e15 ms, on either side
    of the epoch. *)
Definition maxTime : Z := 8640000000000000.

(** ECMAScript's TimeClip: a time beyond [maxTime] is [NaN]. *)
Definition TimeClip (time : Z) : Date :=
  if Z.abs time <=? maxTime then TimeValue time else InvalidDate.

(** ECMAScript's DaysInYear, decided by the Gregorian leap year rule. *)
Definition isLeapYear (y : Z) : bool :=
  ((y mod 4 =? 0) && negb (y mod 100 =? 0)) || (y mod 400 =? 0).

(** ECMAScript's DayFromYear: the day number of January 1 of year [y],
    counted from January 1, 1970. *)
Definition DayFromYear (y : Z) : Z :=
  365 * (y - 1970) + (y - 1969) / 4 - (y - 1901) / 100 + (y - 1601) / 400.

Definition DaysInMonth (y : Z) (monthIndex : Z) : Z :=
  match monthIndex with
  | 0 => 31
  | 1 => if isLeapYear y then 29 else 28
  | 2 => 31
  | 3 => 30
  | 4 => 31
  | 5 => 30
  | 6 => 31
  | 7 => 31
  | 8 => 30
  | 9 => 31
  | 10 => 30
  | _ => 31
  end.

(** The days of year [y] that precede its month [monthIndex] (0 = January). *)
Fixpoint daysBefore (y : Z) (monthIndex : nat) : Z :=
  match monthIndex with
  | O => 0
  | S k => daysBefore y k + DaysInMonth y (Z.of_nat k)
  end.

(** ECMAScript's MakeDay(year, month, date): months outside 0..11 carry
    into the year. *)
Definition MakeDay (year month date : Z) : Z :=
  let ym := year + month / 12 in
  let mn := month mod 12 in
  DayFromYear ym + daysBefore ym (Z.to_nat mn) + date - 1.

(** [new Date(year, monthIndex, day)], the three of them integers: the
    first instant of that local day, clipped.  As the Date constructor
    prescribes, a year in 0..99 stands for 1900 + year. *)
Definition fullYear (year : Z) : Z :=
  if (0 <=? year) && (year <=? 99) then 1900 + year else year.

Definition newDate (UTC : Z -> Z) (year monthIndex day : Z) : Date :=
  TimeClip (UTC (MakeDay (fullYear year) monthIndex day * msPerDay)).

End Js.

(* ================================================================== *)
(** * MySQL scalar operators                                            *)
(* ================================================================== *)

Module MySql.

(** What a bound parameter or an expression can hold: [NULL], an integer, or
    a character string. *)
Inductive SqlValue : Type :=
| SqlNull
| SqlInt (z : Z)
| SqlStr (s : string).

(** ** A string read as a number

    Where an integer meets a string in a comparison, MySQL reads the string
    as a number: leading blanks are skipped, then an optional sign and the
    digits that follow are taken, and whatever comes next is dropped; a
    string with no such prefix reads as 0.  (Only the integer part is
    modelled: none of the strings the services bind has a fraction.) *)

Definition isBlank (c : ascii) : bool :=
  let n := nat_of_ascii c in
  (n =? 32)%nat || ((9 <=? n)%nat && (n <=? 13)%nat).

Definition isDigit (c : ascii) : bool :=
  let n := nat_of_ascii c in (48 <=? n)%nat && (n <=? 57)%nat.

Definition digitValue (c : ascii) : Z := Z.of_nat (nat_of_ascii c) - 48.

Fixpoint skipBlanks (s : string) : string :=
  match s with
  | String c rest => if isBlank c then skipBlanks rest else s
  | EmptyString => s
  end.

Fixpoint readDigits (s : string) (acc : Z) : Z :=
  match s with
  | String c rest =>
      if isDigit c then readDigits rest (10 * acc + digitValue c) else acc
  | EmptyString => acc
  end.

Definition stringToNumber (s : string) : Z :=
  match skipBlanks s with
  | String "-" rest => - readDigits rest 0
  | String "+" rest => readDigits rest 0
  | rest => readDigits rest 0
  end.

(** ** Three-valued logic: a truth value is [NULL], 0 or 1. *)

Definition sqlBool (b : bool) : SqlValue := SqlInt (if b then 1 else 0).

(** The truth of a value in a condition: [None] for [NULL]. *)
Definition truth (v : SqlValue) : option bool :=
  match v with
  | SqlNull => None
  | SqlInt z => Some (negb (z =? 0))
  | SqlStr s => Some (negb (stringToNumber s =? 0))
  end.

(** A condition holds when it is neither false nor [NULL]. *)
Definition holds (v : SqlValue) : bool :=
  match truth v with Some true => true | _ => false end.

Definition sqlEq (a b : SqlValue) : SqlValue :=
  match a, b with
  | SqlNull, _ | _, SqlNull => SqlNull
  | SqlInt x, SqlInt y => sqlBool (x =? y)
  | SqlStr x, SqlStr y => sqlBool (String.eqb x y)
  | SqlInt x, SqlStr y => sqlBool (x =? stringToNumber y)
  | SqlStr x, SqlInt y => sqlBool (stringToNumber x =? y)
  end.

Definition sqlLe (a b : SqlValue) : SqlValue :=
  match a, b with
  | SqlNull, _ | _, SqlNull => SqlNull
  | SqlInt x, SqlInt y => sqlBool (x <=? y)
  | SqlStr x, SqlStr y => sqlBool (negb (String.ltb y x))
  | SqlInt x, SqlStr y => sqlBool (x <=? stringToNumber y)
  | SqlStr x, SqlInt y => sqlBool (stringToNumber x <=? y)
  end.

Definition sqlAnd (a b : SqlValue) : SqlValue :=
  match truth a, truth b with
  | Some false, _ | _, Some false => sqlBool false
  | Some true, Some true => sqlBool true
  | _, _ => SqlNull
  end.

Definition sqlOr (a b : SqlValue) : SqlValue :=
  match truth a, truth b with
  | Some true, _ | _, Some true => sqlBool true
  | Some false, Some false => sqlBool false
  | _, _ => SqlNull
  end.

Definition sqlNot (a : SqlValue) : SqlValue :=
  match truth a with
  | Some b => sqlBool (negb b)
  | None => SqlNull
  end.

(** [x IN (v1, ..., vn)] is [x = v1 OR ... OR x = vn]. *)
Fixpoint sqlIn (x : SqlValue) (vs : list SqlValue) : SqlValue :=
  match vs with
  | [] => sqlBool false
  | v :: rest => sqlOr (sqlEq x v) (sqlIn x rest)
  end.

Definition sqlNotIn (x : SqlValue) (vs : list SqlValue) : SqlValue :=
  sqlNot (sqlIn x vs).

(** [x BETWEEN lo AND hi] is [lo <= x AND x <= hi]. *)
Definition sqlBetween (x lo hi : SqlValue) : SqlValue :=
  sqlAnd (sqlLe lo x) (sqlLe x hi).

(** [if(c, a, b)]: [a] when [c] holds, [b] when it is false or [NULL]. *)
Definition sqlIf (c a b : SqlValue) : SqlValue := if holds c then a else b.

Definition sqlCoalesce (a b : SqlValue) : SqlValue :=
  match a with SqlNull => b | _ => a end.

(** The number an operand of an arithmetic operator stands for. *)
Definition toNumber (v : SqlValue) : option Z :=
  match v with
  | SqlNull => None
  | SqlInt z => Some z
  | SqlStr s => Some (stringToNumber s)
  end.

(** [sum(e)] over the rows of a group: [NULL] values are skipped, and the
    sum of no value at all is [NULL]. *)
Definition sqlAdd (acc : option Z) (v : SqlValue) : option Z :=
  match toNumber v with
  | None => acc
  | Some z => Some (match acc with Some a => a + z | None => z end)
  end.

Definition sqlSum (vs : list SqlValue) : SqlValue :=
  match fold_left sqlAdd vs None with
  | Some z => SqlInt z
  | None => SqlNull
  end.

(** ** Exact decimals

    [a / b] on integers is a DECIMAL with four fraction digits (the default
    [div_precision_increment]), rounded half away from zero, and [NULL] when
    [b] is 0.  [truncate(d, n)] cuts a decimal to [n] fraction digits,
    towards zero. *)
Record Decimal : Type := mkDecimal { unscaled : Z; scale : nat }.

Definition roundedQuot (a b : Z) : Z :=
  let q := Z.quot a b in
  let r := Z.rem a b in
  if 2 * Z.abs r >=? Z.abs b then q + Z.sgn a * Z.sgn b else q.

Definition sqlDiv (a b : SqlValue) : option Decimal :=
  match toNumber a, toNumber b with
  | Some x, Some y =>
      if y =? 0 then None
      else Some (mkDecimal (roundedQuot (x * 10 ^ 4) y) 4)
  | _, _ => None
  end.

Definition sqlTruncate (d : option Decimal) (n : nat) : option Decimal :=
  match d with
  | None => None
  | Some d =>
      if (n <=? scale d)%nat
      then Some (mkDecimal (Z.quot (unscaled d) (10 ^ Z.of_nat (scale d - n))) n)
      else Some d
  end.

(** The rational a decimal stands for. *)
Definition decimalValue (d : Decimal) : Q :=
  Qmake (unscaled d) (Z.to_pos (10 ^ Z.of_nat (scale d))).

End MySql.

(* ================================================================== *)
(** * The Prisma client                                                 *)
(* ================================================================== *)

Module Prisma.
Import MySql.

(** ** The tables, with the columns the two services read or write. *)

Module users.
Record row : Type := mk {
  user_id : Z;
  username : string;
  password : string;
  email : string;
  sessionkey : option string;
  sessionkey_mobile : option string;
  trustlimit : option Z;
  trustlimit_mobile : option Z;
  last_update_timestamp : Z
}.
End users.

Module accounts.
Record row : Type := mk {
  account_id : Z;
  name : string;
  exclude_from_budgets : bool;
  current_balance : option Z;
  users_user_id : Z
}.
End accounts.

Module categories.
Record row : Type := mk {
  category_id : Z;
  name : string;
  type : string;
  description : option string;
  color_gradient : option string;
  status : string;
  exclude_from_budgets : bool;
  users_user_id : Z
}.
End categories.

Module budgets_has_categories.
Record row : Type := mk {
  budgets_budget_id : Z;
  budgets_users_user_id : Z;
  categories_category_id : Z;
  planned_amount_credit : option Z;
  planned_amount_debit : option Z;
  current_amount : option Z
}.
End budgets_has_categories.

(** The [type] column of a transaction holds one of three one-letter codes. *)
Inductive TrxType : Type := Income | Expense | Transfer.

Definition trxTypeCode (t : TrxType) : string :=
  match t with
  | Income => "I"
  | Expense => "E"
  | Transfer => "T"
  end.

Module transactions.
Record row : Type := mk {
  transaction_id : Z;
  date_timestamp : Z;
  amount : Z;
  type : TrxType;
  accounts_account_from_id : option Z;
  accounts_account_to_id : option Z;
  categories_category_id : option Z
}.
End transactions.

Record Database : Type := mkDatabase {
  users_rows : list users.row;
  accounts_rows : list accounts.row;
  categories_rows : list categories.row;
  budgets_has_categories_rows : list budgets_has_categories.row;
  transactions_rows : list transactions.row
}.

(** A column's value as an SQL value. *)
Definition intCol (z : Z) : SqlValue := SqlInt z.
Definition nullableIntCol (o : option Z) : SqlValue :=
  match o with Some z => SqlInt z | None => SqlNull end.
Definition strCol (s : string) : SqlValue := SqlStr s.

(** ** Errors a call can throw. *)
Inductive Error : Type :=
| NotAuthorized (message : string)     (* APIError.notAuthorized(message) *)
| RecordNotFound                       (* Prisma: no row matches the filter *)
| UniqueConstraintFailed (field : string).

Inductive Result (A : Type) : Type :=
| Ok (a : A)
| Err (e : Error).
Arguments Ok {A} a.
Arguments Err {A} e.

(** ** Tagged templates

    [$queryRaw`...${v1}...${vn}...`] receives the template's literal pieces
    and the values between them apart.  It sends the pieces joined by one
    placeholder per value as the statement's text, and the values as the
    statement's bound parameters. *)
Record Sql : Type := mkSql {
  strings : list string;
  values : list SqlValue
}.

Definition sqlText (q : Sql) : string := String.concat "?" (strings q).

(** What a raw query comes to: the statement that was sent and the rows the
    database answered. *)
Record RawQuery (R : Type) : Type := mkRawQuery {
  sent : Sql;
  answer : R
}.
Arguments mkRawQuery {R} sent answer.
Arguments sent {R} r.
Arguments answer {R} r.

(** [$queryRaw]: [meaning] is what the statement's text computes from its
    bound parameters and the database. *)
Definition queryRaw {R : Type} (pieces : list string)
    (meaning : list SqlValue -> Database -> R)
    (vals : list SqlValue) (db : Database) : RawQuery R :=
  mkRawQuery (mkSql pieces vals) (meaning vals db).

(** ** Model calls *)

(** [findMany({where})]. *)
Definition findMany {A : Type} (where_ : A -> bool) (table : list A) : list A :=
  filter where_ table.

(** [findUnique({where})] on a unique column: the row, if there is one. *)
Definition findUnique {A : Type} (where_ : A -> bool) (table : list A)
  : option A :=
  find where_ table.

(** What a write answers: the number of rows [deleteMany] removed, or the
    row [delete] removed. *)
Inductive WriteResult : Type :=
| Count (n : nat)
| DeletedCategory (c : categories.row).

(** A write that has been built and not yet run: Prisma runs a call when it
    is awaited or handed to [$transaction]. *)
Definition PendingWrite : Type :=
  Database -> Result (WriteResult * Database).

(** [budgets_has_categories.deleteMany({where})]: removes every matching
    row and answers their number. *)
Definition budgets_has_categories_deleteMany
    (where_ : budgets_has_categories.row -> bool) : PendingWrite :=
  fun db =>
    Ok (Count (List.length (filter where_ (budgets_has_categories_rows db))),
        mkDatabase (users_rows db) (accounts_rows db) (categories_rows db)
          (filter (fun r => negb (where_ r)) (budgets_has_categories_rows db))
          (transactions_rows db)).

(** [categories.delete({where})]: removes the matching row and answers it;
    throws when no row matches. *)
Definition categories_delete (where_ : categories.row -> bool) : PendingWrite :=
  fun db =>
    match find where_ (categories_rows db) with
    | None => Err RecordNotFound
    | Some c =>
        Ok (DeletedCategory c,
            mkDatabase (users_rows db) (accounts_rows db)
              (filter (fun r => negb (where_ r)) (categories_rows db))
              (budgets_has_categories_rows db) (transactions_rows db))
    end.

(** Runs the writes in order, each on the database the one before left. *)
Fixpoint runWrites (ws : list PendingWrite) (db : Database)
  : Result (list WriteResult * Database) :=
  match ws with
  | [] => Ok ([], db)
  | w :: rest =>
      match w db with
      | Err e => Err e
      | Ok (r, db1) =>
          match runWrites rest db1 with
          | Err e => Err e
          | Ok (rs, db2) => Ok (r :: rs, db2)
          end
      end
  end.

(** [$transaction([w1, ..., wn])]: all the writes are committed, or, when
    one of them throws, none is and the error is thrown on. *)
Definition transaction (ws : list PendingWrite) (db : Database)
  : Result (list WriteResult) * Database :=
  match runWrites ws db with
  | Ok (rs, db') => (Ok rs, db')
  | Err e => (Err e, db)
  end.

End Prisma.

(* ================================================================== *)
(** * src/services/categoryService.ts                                   *)
(* ================================================================== *)

Module CategoryService.
Import MySql Prisma.

(** What the service imports and the sources do not hold: the host's time
    zone (behind [new Date]), [DateTimeUtils.getUnixTimestampFromDate], taken
    on the time value of a valid [Date], and the constant
    [MYFIN.CATEGORY_STATUS.ACTIVE]. *)
Class Imports : Type := mkImports {
  UTC : Z -> Z;
  getUnixTimestampFromDate : Z -> Z;
  CATEGORY_STATUS_ACTIVE : string
}.

(** Modelled from the spec: [performDatabaseRequest] of [config/prisma.js] is
    not among the sources.  The spec has the services delegate their queries
    to the database, so the callback is run on the client it is given. *)
Definition performDatabaseRequest {A : Type} (request : Database -> A)
    (dbClient : Database) : A :=
  request dbClient.

(** ** [buildSqlForExcludedAccountsList] *)

(** The [for] loop, [fuel] bounding its iterations: [cnt] is the loop
    counter and [sql] the string built so far. *)
Fixpoint buildSqlLoop (excludedAccs : list accounts.row) (fuel cnt : nat)
    (sql : string) : string :=
  match fuel with
  | O => sql
  | S fuel' =>
      if (cnt <? List.length excludedAccs)%nat then
        match nth_error excludedAccs cnt with
        | Some a =>
            let acc := accounts.account_id a in
            let sql := sql ++ (" '" ++ Js.toString acc ++ "' ") in
            let sql :=
              if negb (cnt =? List.length excludedAccs - 1)%nat
              then sql ++ ", " else sql in
            buildSqlLoop excludedAccs fuel' (S cnt) sql
        | None => sql
        end
      else sql
  end.

(** [None] stands for a [null] or [undefined] argument. *)
Definition buildSqlForExcludedAccountsList
    (excludedAccs : option (list accounts.row)) : string :=
  match excludedAccs with
  | None => " -1 "
  | Some l =>
      if (List.length l =? 0)%nat then " -1 "
      else buildSqlLoop l (List.length l) 0 "" ++ ""
  end.

(** ** The aggregate statements

    Each statement is given by the literal pieces of its template (runs of
    blanks and line breaks written as one blank) and by what its text
    computes from the bound parameters. *)

Record CalculatedCategoryAmounts : Type := mkAmounts {
  category_balance_credit : SqlValue;
  category_balance_debit : SqlValue
}.

Definition typeIs (t : transactions.row) (code : string) : SqlValue :=
  sqlEq (strCol (trxTypeCode (transactions.type t))) (SqlStr code).

(** [WHERE date_timestamp between ? AND ? AND categories_category_id = ?] *)
Definition inPeriodOfCategory (fromDate toDate categoryId : SqlValue)
    (t : transactions.row) : bool :=
  holds (sqlAnd
           (sqlBetween (intCol (transactions.date_timestamp t)) fromDate toDate)
           (sqlEq (nullableIntCol (transactions.categories_category_id t))
                  categoryId)).

Definition periodWithTransfersPieces : list string :=
  [ "SELECT sum(if(type = 'I' OR (type = 'T' AND accounts_account_to_id NOT IN (";
    ")), amount, 0)) as 'category_balance_credit', sum(if(type = 'E' OR (type = 'T' AND accounts_account_from_id NOT IN (";
    ")), amount, 0)) as 'category_balance_debit' FROM transactions WHERE date_timestamp between ";
    " AND ";
    " AND categories_category_id = ";
    " " ].

Definition periodWithTransfers (vals : list SqlValue) (db : Database)
  : list CalculatedCategoryAmounts :=
  match vals with
  | [toList; fromList; fromDate; toDate; categoryId] =>
      let rows :=
        filter (inPeriodOfCategory fromDate toDate categoryId)
               (transactions_rows db) in
      [ mkAmounts
          (sqlSum (map (fun t =>
             sqlIf (sqlOr (typeIs t "I")
                          (sqlAnd (typeIs t "T")
                                  (sqlNotIn
                                     (nullableIntCol
                                        (transactions.accounts_account_to_id t))
                                     [toList])))
                   (intCol (transactions.amount t)) (SqlInt 0)) rows))
          (sqlSum (map (fun t =>
             sqlIf (sqlOr (typeIs t "E")
                          (sqlAnd (typeIs t "T")
                                  (sqlNotIn
                                     (nullableIntCol
                                        (transactions.accounts_account_from_id t))
                                     [fromList])))
                   (intCol (transactions.amount t)) (SqlInt 0)) rows)) ]
  | _ => []
  end.

Definition periodWithoutTransfersPieces : list string :=
  [ "SELECT sum(if(type = 'I', amount, 0)) as 'category_balance_credit', sum(if(type = 'E', amount, 0)) as 'category_balance_debit' FROM transactions WHERE date_timestamp between ";
    " AND ";
    " AND categories_category_id = ";
    " " ].

Definition periodWithoutTransfers (vals : list SqlValue) (db : Database)
  : list CalculatedCategoryAmounts :=
  match vals with
  | [fromDate; toDate; categoryId] =>
      let rows :=
        filter (inPeriodOfCategory fromDate toDate categoryId)
               (transactions_rows db) in
      [ mkAmounts
          (sqlSum (map (fun t =>
             sqlIf (typeIs t "I") (intCol (transactions.amount t)) (SqlInt 0))
             rows))
          (sqlSum (map (fun t =>
             sqlIf (typeIs t "E") (intCol (transactions.amount t)) (SqlInt 0))
             rows)) ]
  | _ => []
  end.

(** ** [getAmountForCategoryInPeriod] *)
Definition getAmountForCategoryInPeriod (categoryId fromDate toDate : Z)
    (includeTransfers : bool) (dbClient : Database)
  : RawQuery (list CalculatedCategoryAmounts) :=
  performDatabaseRequest (fun prismaTx =>
    let listOfAccountsToExclude :=
      findMany accounts.exclude_from_budgets (accounts_rows prismaTx) in
    let accountsToExcludeListInSQL :=
      buildSqlForExcludedAccountsList (Some listOfAccountsToExclude) in
    if includeTransfers then
      queryRaw periodWithTransfersPieces periodWithTransfers
        [ SqlStr accountsToExcludeListInSQL;
          SqlStr accountsToExcludeListInSQL;
          SqlInt fromDate; SqlInt toDate; SqlInt categoryId ] prismaTx
    else
      queryRaw periodWithoutTransfersPieces periodWithoutTransfers
        [ SqlInt fromDate; SqlInt toDate; SqlInt categoryId ] prismaTx)
    dbClient.

(** ** [getAverageAmountForCategoryInLast12Months]

    The statement the function hands to [$queryRaw]; the rows it answers
    are not modelled. *)
Definition last12MonthsPieces : list string :=
  [ "SELECT avg(category_balance_credit) as 'category_balance_credit', avg(category_balance_debit) as 'category_balance_debit' FROM (SELECT sum(if(type = 'I' OR (type = 'T' AND ";
    "), amount, 0)) as 'category_balance_credit', sum(if(type = 'E' OR (type = 'T' AND ";
    "), amount, 0)) as 'category_balance_debit', MONTH(FROM_UNIXTIME(date_timestamp)) as 'month', YEAR(FROM_UNIXTIME(date_timestamp)) as 'year' FROM transactions WHERE categories_category_id = ";
    " AND date_timestamp > UNIX_TIMESTAMP(DATE_SUB(DATE_FORMAT(NOW(), '%Y-%m-01'), INTERVAL 12 month)) GROUP BY month, year) a" ].

Definition getAverageAmountForCategoryInLast12Months (categoryId : Z)
    (dbClient : Database) : Sql :=
  let listOfAccountsToExclude :=
    findMany accounts.exclude_from_budgets (accounts_rows dbClient) in
  let '(accsExclusionSqlExcerptAccountsTo,
        accsExclusionSqlExcerptAccountsFrom) :=
    if (List.length listOfAccountsToExclude <? 1)%nat then
      (" 1 == 1 ", " 1 == 1 ")
    else
      let accountsToExcludeListInSQL :=
        buildSqlForExcludedAccountsList (Some listOfAccountsToExclude) in
      ("accounts_account_to_id NOT IN " ++ accountsToExcludeListInSQL ++ " ",
       "accounts_account_from_id NOT IN " ++ accountsToExcludeListInSQL ++ " ")
  in
  mkSql last12MonthsPieces
    [ SqlStr accsExclusionSqlExcerptAccountsTo;
      SqlStr accsExclusionSqlExcerptAccountsFrom;
      SqlInt categoryId ].

(** What a call that reads its window off two dates answers.  The
    timestamp [DateTimeUtils] makes of an Invalid Date, and what the client
    binds for it, are not in the sources: a call that builds an Invalid Date
    is followed up to there, and ends as [OfInvalidDate]. *)
Inductive OrInvalidDate (A : Type) : Type :=
| OfInvalidDate
| Answered (a : A).
Arguments OfInvalidDate {A}.
Arguments Answered {A} a.

Section WithImports.
Context {imports : Imports}.

(** ** [getAmountForCategoryInMonth] *)
Definition getAmountForCategoryInMonth (categoryId month year : Z)
    (includeTransfers : bool) (dbClient : Database)
  : OrInvalidDate (option CalculatedCategoryAmounts) :=
  performDatabaseRequest (fun prismaTx =>
    let nextMonth := if month <? 12 then month + 1 else 1 in
    let nextMonthsYear := if month <? 12 then year else year + 1 in
    match Js.newDate UTC nextMonthsYear (nextMonth - 1) 1,
          Js.newDate UTC year (month - 1) 1 with
    | Js.TimeValue maxDate, Js.TimeValue minDate =>
        let maxDate := getUnixTimestampFromDate maxDate in
        let minDate := getUnixTimestampFromDate minDate in
        let amounts :=
          getAmountForCategoryInPeriod categoryId minDate maxDate
            includeTransfers prismaTx in
        Answered (nth_error (answer amounts) 0)
    | _, _ => OfInvalidDate
    end)
    dbClient.

(** ** [getAmountForCategoryInYear] *)
Definition getAmountForCategoryInYear (categoryId year : Z)
    (includeTransfers : bool) (dbClient : Database)
  : OrInvalidDate (option CalculatedCategoryAmounts) :=
  match Js.newDate UTC year 11 31, Js.newDate UTC year 0 1 with
  | Js.TimeValue maxDate, Js.TimeValue minDate =>
      let maxDate := getUnixTimestampFromDate maxDate in
      let minDate := getUnixTimestampFromDate minDate in
      let amounts :=
        getAmountForCategoryInPeriod categoryId minDate maxDate
          includeTransfers dbClient in
      Answered (nth_error (answer amounts) 0)
  | _, _ => OfInvalidDate
  end.

(** ** [getAllCategoriesForBudget] *)

Record BudgetCategory : Type := mkBudgetCategory {
  bc_users_user_id : Z;
  bc_category_id : Z;
  bc_name : string;
  bc_status : string;
  bc_type : string;
  bc_description : option string;
  bc_color_gradient : option string;
  bc_budgets_budget_id : option Z;
  bc_exclude_from_budgets : bool;
  bc_planned_amount_credit : option Decimal;
  bc_planned_amount_debit : option Decimal;
  bc_current_amount : option Decimal
}.

Definition budgetCategoriesPieces : list string :=
  [ "SELECT users_user_id, category_id, name, status, type, description, color_gradient, budgets_budget_id, exclude_from_budgets, truncate((coalesce(planned_amount_credit, 0) / 100), 2) as planned_amount_credit, truncate((coalesce(planned_amount_debit, 0) / 100), 2) as planned_amount_debit, truncate((coalesce(current_amount, 0) / 100), 2) as current_amount FROM (SELECT * FROM budgets_has_categories WHERE budgets_users_user_id = ";
    " AND (budgets_budget_id = ";
    ")) b RIGHT JOIN categories ON categories.category_id = b.categories_category_id WHERE users_user_id = ";
    " AND status = ";
    "" ].

(** [b RIGHT JOIN categories ON ...]: every category with each row of [b]
    that refers to it, and with no row ([None], all of [b]'s columns
    [NULL]) when none does. *)
Definition rightJoinCategories (b : list budgets_has_categories.row)
    (cats : list categories.row)
  : list (option budgets_has_categories.row * categories.row) :=
  flat_map (fun c =>
    match
      filter (fun r =>
        holds (sqlEq (intCol (categories.category_id c))
                     (intCol (budgets_has_categories.categories_category_id r))))
        b
    with
    | [] => [(None, c)]
    | matches => map (fun r => (Some r, c)) matches
    end) cats.

(** A column of [b] in a joined row. *)
Definition bCol (column : budgets_has_categories.row -> option Z)
    (b : option budgets_has_categories.row) : SqlValue :=
  match b with
  | Some r => nullableIntCol (column r)
  | None => SqlNull
  end.

(** [truncate((coalesce(amount, 0) / 100), 2)] *)
Definition amountColumn (amount : SqlValue) : option Decimal :=
  sqlTruncate (sqlDiv (sqlCoalesce amount (SqlInt 0)) (SqlInt 100)) 2.

Definition budgetCategories (vals : list SqlValue) (db : Database)
  : list BudgetCategory :=
  match vals with
  | [userId; budgetId; userId'; status] =>
      let b :=
        filter (fun r =>
          holds (sqlAnd
                   (sqlEq (intCol (budgets_has_categories.budgets_users_user_id r))
                          userId)
                   (sqlEq (intCol (budgets_has_categories.budgets_budget_id r))
                          budgetId)))
          (budgets_has_categories_rows db) in
      let joined := rightJoinCategories b (categories_rows db) in
      let kept :=
        filter (fun bc =>
          holds (sqlAnd
                   (sqlEq (intCol (categories.users_user_id (snd bc))) userId')
                   (sqlEq (strCol (categories.status (snd bc))) status)))
          joined in
      map (fun bc =>
        let c := snd bc in
        mkBudgetCategory
          (categories.users_user_id c)
          (categories.category_id c)
          (categories.name c)
          (categories.status c)
          (categories.type c)
          (categories.description c)
          (categories.color_gradient c)
          (option_map budgets_has_categories.budgets_budget_id (fst bc))
          (categories.exclude_from_budgets c)
          (amountColumn
             (bCol budgets_has_categories.planned_amount_credit (fst bc)))
          (amountColumn
             (bCol budgets_has_categories.planned_amount_debit (fst bc)))
          (amountColumn (bCol budgets_has_categories.current_amount (fst bc))))
        kept
  | _ => []
  end.

Definition getAllCategoriesForBudget (userId budgetId : Z)
    (dbClient : Database) : RawQuery (list BudgetCategory) :=
  queryRaw budgetCategoriesPieces budgetCategories
    [ SqlInt userId; SqlInt budgetId; SqlInt userId;
      SqlStr CATEGORY_STATUS_ACTIVE ] dbClient.

End WithImports.

(** ** [deleteCategory]

    Both calls are built on the default client, the one [$transaction] runs
    on. *)
Definition deleteCategory (userId categoryId : Z) (dbClient : Database)
  : Result (list WriteResult) * Database :=
  let deleteBudgetHasCategoriesRefs :=
    budgets_has_categories_deleteMany (fun r =>
      (budgets_has_categories.categories_category_id r =? categoryId)
      && (budgets_has_categories.budgets_users_user_id r =? userId)) in
  let deleteCat :=
    categories_delete (fun c =>
      (categories.users_user_id c =? userId)
      && (categories.category_id c =? categoryId)) in
  transaction [deleteBudgetHasCategoriesRefs; deleteCat] dbClient.

End CategoryService.

(* ================================================================== *)
(** * The user service                                                  *)
(* ================================================================== *)

Module UserService.
Import MySql Prisma.

(** What [SessionManager.generateNewSessionKeyForUser] answers. *)
Record NewSessionData : Type := mkNewSessionData {
  sessionkey : string;
  trustlimit : Z
}.

(** What the service imports and the sources do not hold: [CryptoUtils],
    [SessionManager] (whose call may write to the database),
    [AccountService.getAccountsForUser] and
    [ConvertUtils.convertBigIntegerToFloat], whose result is a JavaScript
    number, kept abstract as [Float]. *)
Class Imports : Type := mkImports {
  hashPassword : string -> string;
  verifyPassword : string -> string -> bool;
  generateNewSessionKeyForUser :
    string -> bool -> Database -> NewSessionData * Database;
  getAccountsForUser : Z -> Database -> list accounts.row;
  Float : Type;
  convertBigIntegerToFloat : Z -> Float
}.

(** ** The state a call runs in, and the monad of calls

    Beside the database, the world keeps the list of the session keys that
    were asked for, as (username, mobile), latest first. *)
Record World : Type := mkWorld {
  database : Database;
  sessionKeyRequests : list (string * bool)
}.

Definition M (A : Type) : Type := World -> Result A * World.

Definition ret {A : Type} (a : A) : M A := fun w => (Ok a, w).

Definition throw {A : Type} (e : Error) : M A := fun w => (Err e, w).

Definition bind {A B : Type} (m : M A) (k : A -> M B) : M B :=
  fun w =>
    match m w with
    | (Ok a, w') => k a w'
    | (Err e, w') => (Err e, w')
    end.

(** [promise.catch(handler)] *)
Definition catch {A : Type} (m : M A) (handler : Error -> M A) : M A :=
  fun w =>
    match m w with
    | (Ok a, w') => (Ok a, w')
    | (Err e, w') => handler e w'
    end.

Notation "x <- m ;; k" := (bind m (fun x => k))
  (at level 61, m at next level, right associativity).

(** ** The [users] model *)

Record usersCreateInput : Type := mkUsersCreateInput {
  new_username : string;
  new_password : string;
  new_email : string
}.

Definition withUsers (db : Database) (us : list users.row) : Database :=
  mkDatabase us (accounts_rows db) (categories_rows db)
    (budgets_has_categories_rows db) (transactions_rows db).

(** [users.create({data})]: [user_id] and [username] are unique columns
    (the service looks users up by either with [findUniqueOrThrow]); the new
    row gets its id from the table and the columns' defaults.

    The id is the table's AUTO_INCREMENT: a counter the server keeps beside
    the rows and does not wind back when rows are deleted.  It is no
    function of the rows, and is taken as the server hands it out for the
    call, as [AUTO_INCREMENT]. *)
Definition users_create (AUTO_INCREMENT : Z) (data : usersCreateInput)
  : M users.row :=
  fun w =>
    let us := users_rows (database w) in
    if existsb (fun u => users.user_id u =? AUTO_INCREMENT) us
    then (Err (UniqueConstraintFailed "PRIMARY"), w)
    else if existsb (fun u => String.eqb (users.username u) (new_username data))
              us
    then (Err (UniqueConstraintFailed "username"), w)
    else
      let row :=
        users.mk AUTO_INCREMENT (new_username data) (new_password data)
          (new_email data) None None None None 0 in
      (Ok row,
       mkWorld (withUsers (database w) (us ++ [row])) (sessionKeyRequests w)).

(** [users.findUniqueOrThrow({where})] *)
Definition users_findUniqueOrThrow (where_ : users.row -> bool) : M users.row :=
  fun w =>
    match findUnique where_ (users_rows (database w)) with
    | Some u => (Ok u, w)
    | None => (Err RecordNotFound, w)
    end.

(** The table with its first row matching [where_] replaced by its image
    under [data]; [None] when no row matches. *)
Fixpoint updateFirst (where_ : users.row -> bool)
    (data : users.row -> users.row) (us : list users.row)
  : option (list users.row) :=
  match us with
  | [] => None
  | u :: rest =>
      if where_ u then Some (data u :: rest)
      else option_map (cons u) (updateFirst where_ data rest)
  end.

(** [users.update({where, data})] on a unique column. *)
Definition users_update (where_ : users.row -> bool)
    (data : users.row -> users.row) : M users.row :=
  fun w =>
    match findUnique where_ (users_rows (database w)),
          updateFirst where_ data (users_rows (database w)) with
    | Some u, Some us =>
        (Ok (data u), mkWorld (withUsers (database w) us) (sessionKeyRequests w))
    | _, _ => (Err RecordNotFound, w)
    end.

Definition setPassword (p : string) (u : users.row) : users.row :=
  users.mk (users.user_id u) (users.username u) p (users.email u)
    (users.sessionkey u) (users.sessionkey_mobile u) (users.trustlimit u)
    (users.trustlimit_mobile u) (users.last_update_timestamp u).

(** An object is truthy. *)
Definition truthy {A : Type} (object : A) : bool := true.

Section WithImports.
Context {imports : Imports}.

(** The call of [SessionManager.generateNewSessionKeyForUser], noted in the
    world's list of requests. *)
Definition SessionManager_generateNewSessionKeyForUser (username : string)
    (mobile : bool) : M NewSessionData :=
  fun w =>
    let '(newSessionData, db) :=
      generateNewSessionKeyForUser username mobile (database w) in
    (Ok newSessionData,
     mkWorld db ((username, mobile) :: sessionKeyRequests w)).

Definition AccountService_getAccountsForUser (userId : Z)
  : M (list accounts.row) :=
  fun w => (Ok (getAccountsForUser userId (database w)), w).

(** ** [createUser]

    [AUTO_INCREMENT] is the id the [users] table hands out for the call. *)
Definition createUser (AUTO_INCREMENT : Z) (user : usersCreateInput)
  : M users.row :=
  let user :=
    mkUsersCreateInput (new_username user) (hashPassword (new_password user))
      (new_email user) in
  users_create AUTO_INCREMENT user.

(** ** [attemptLogin] *)
Record LoginResponse : Type := mkLoginResponse {
  res_user_id : Z;
  res_username : string;
  res_email : string;
  res_sessionkey : option string;
  res_sessionkey_mobile : option string;
  res_last_update_timestamp : Z;
  res_accounts : list (accounts.row * Float)   (* {...account, balance} *)
}.

Definition attemptLogin (username password : string) (mobile : bool)
  : M LoginResponse :=
  data <- catch
            (users_findUniqueOrThrow
               (fun u => String.eqb (users.username u) username))
            (fun _ => throw (NotAuthorized "User Not Found")) ;;
  if truthy data then
    let isValid := verifyPassword password (users.password data) in
    if isValid then
      newSessionData <-
        SessionManager_generateNewSessionKeyForUser username mobile ;;
      let data :=
        if mobile then
          users.mk (users.user_id data) (users.username data)
            (users.password data) (users.email data) (users.sessionkey data)
            (Some (sessionkey newSessionData)) (users.trustlimit data)
            (Some (trustlimit newSessionData))
            (users.last_update_timestamp data)
        else
          users.mk (users.user_id data) (users.username data)
            (users.password data) (users.email data)
            (Some (sessionkey newSessionData)) (users.sessionkey_mobile data)
            (Some (trustlimit newSessionData)) (users.trustlimit_mobile data)
            (users.last_update_timestamp data) in
      userAccounts <- AccountService_getAccountsForUser (users.user_id data) ;;
      ret (mkLoginResponse
             (users.user_id data)
             (users.username data)
             (users.email data)
             (users.sessionkey data)
             (users.sessionkey_mobile data)
             (users.last_update_timestamp data)
             (map (fun account =>
                     (account,
                      convertBigIntegerToFloat
                        (match accounts.current_balance account with
                         | Some balance => balance
                         | None => 0
                         end)))
                  userAccounts))
    else throw (NotAuthorized "Wrong Credentials")
  else throw (NotAuthorized "User Not Found").

(** ** [changeUserPassword] *)
Definition changeUserPassword (userId : Z)
    (currentPassword newPassword : string) (mobile : bool) : M unit :=
  data <- catch
            (users_findUniqueOrThrow (fun u => users.user_id u =? userId))
            (fun _ => throw (NotAuthorized "User Not Found")) ;;
  let isValid := verifyPassword currentPassword (users.password data) in
  if negb isValid then throw (NotAuthorized "Wrong credentials")
  else
    let hashedPassword := hashPassword newPassword in
    _ <- users_update (fun u => users.user_id u =? userId)
           (setPassword hashedPassword) ;;
    _ <- SessionManager_generateNewSessionKeyForUser (users.username data)
           mobile ;;
    ret tt.

End WithImports.

End UserService.

(* ================================================================== *)
(** * MySQL: grouping, averages and the server's clock                  *)
(* ================================================================== *)

Module MySqlGroups.
Import MySql.

(** [a > b] *)
Definition sqlGt (a b : SqlValue) : SqlValue := sqlNot (sqlLe a b).

(** The values [avg] and [count] take into account: those that are not
    [NULL]. *)
Definition notNull (v : SqlValue) : bool :=
  match toNumber v with Some _ => true | None => false end.

(** [avg(e)] over the rows of a group: the sum of the values that are not
    [NULL] over their number, a decimal of four fraction digits, and [NULL]
    when there is no such value. *)
Definition sqlAvg (vs : list SqlValue) : option Decimal :=
  match sqlSum vs with
  | SqlNull => None
  | total => sqlDiv total (SqlInt (Z.of_nat (List.length (filter notNull vs))))
  end.

(** The keys of [keys], each once, in the order they first come. *)
Fixpoint distinct {K : Type} (eqb : K -> K -> bool) (keys : list K) : list K :=
  match keys with
  | [] => []
  | k :: rest => k :: filter (fun k' => negb (eqb k' k)) (distinct eqb rest)
  end.

(** [GROUP BY key]: one group per key that occurs, holding the rows of that
    key. *)
Definition groupBy {A K : Type} (eqb : K -> K -> bool) (key : A -> K)
    (rows : list A) : list (list A) :=
  map (fun k => filter (fun r => eqb (key r) k) rows)
      (distinct eqb (map key rows)).

(** What a statement reads of the server: the month and the year
    [FROM_UNIXTIME] gives a timestamp in the session's time zone, and the
    timestamp of the first day of the month twelve months before the present
    one,
    [UNIX_TIMESTAMP(DATE_SUB(DATE_FORMAT(NOW(), '%Y-%m-01'), INTERVAL 12 month))]. *)
Class Server : Type := mkServer {
  monthAndYearOf : Z -> Z * Z;
  twelveMonthsBeforeThisMonth : Z
}.

Definition sameMonth (a b : Z * Z) : bool :=
  (fst a =? fst b) && (snd a =? snd b).

End MySqlGroups.

(* ================================================================== *)
(** * The Prisma client: more calls on [categories]                     *)
(* ================================================================== *)

Module PrismaCategories.
Import MySql Prisma.

(** [category_id] is the primary key of [categories]: the calls that need
    one row name it.  The other unique constraints of the table are set in
    the Prisma schema, which is not among the sources: [categoriesAdmit rows
    row] tells whether they let [row] stand beside the rows [rows]. *)
Class Schema : Type := mkSchema {
  categoriesAdmit : list categories.row -> categories.row -> bool
}.

Definition withCategories (db : Database) (cs : list categories.row)
  : Database :=
  mkDatabase (users_rows db) (accounts_rows db) cs
    (budgets_has_categories_rows db) (transactions_rows db).

Definition hasCategoryId (categoryId : Z) (c : categories.row) : bool :=
  categories.category_id c =? categoryId.

Definition orKeep {A : Type} (new : option A) (old : A) : A :=
  match new with Some a => a | None => old end.

(** The data of a new row: its attributes, and its id when the caller
    names one ([None] when it is left out, as [undefined]). *)
Record categoriesCreateInput : Type := mkCategoriesCreateInput {
  new_category_id : option Z;
  new_name : string;
  new_type : string;
  new_description : option string;
  new_color_gradient : option string;
  new_status : string;
  new_exclude_from_budgets : bool;
  new_users_user_id : Z
}.

(** [categories.create({data})].  An id that is left out is the table's
    AUTO_INCREMENT: a counter the server keeps beside the rows and does not
    wind back when rows are deleted.  It is no function of the rows, and is
    taken as the server hands it out for the call, as [AUTO_INCREMENT].  The
    call throws when the id is that of a row of the table, or when a unique
    constraint refuses the row. *)
Definition categories_create {schema : Schema} (AUTO_INCREMENT : Z)
    (data : categoriesCreateInput) (db : Database)
  : Result categories.row * Database :=
  let cs := categories_rows db in
  let row :=
    categories.mk (orKeep (new_category_id data) AUTO_INCREMENT)
      (new_name data) (new_type data)
      (new_description data) (new_color_gradient data) (new_status data)
      (new_exclude_from_budgets data) (new_users_user_id data) in
  if existsb (hasCategoryId (categories.category_id row)) cs
  then (Err (UniqueConstraintFailed "PRIMARY"), db)
  else if categoriesAdmit cs row
  then (Ok row, withCategories db (cs ++ [row]))
  else (Err (UniqueConstraintFailed "categories"), db).

(** The data of an update: for each attribute of the row, the id and the
    owner among them, the value it is set to, or [None] when the attribute
    is left out ([undefined]), which the update leaves as it is. *)
Record categoriesUpdateInput : Type := mkCategoriesUpdateInput {
  set_category_id : option Z;
  set_name : option string;
  set_type : option string;
  set_description : option (option string);
  set_color_gradient : option (option string);
  set_status : option string;
  set_exclude_from_budgets : option bool;
  set_users_user_id : option Z
}.

Definition applyUpdate (data : categoriesUpdateInput) (c : categories.row)
  : categories.row :=
  categories.mk (orKeep (set_category_id data) (categories.category_id c))
    (orKeep (set_name data) (categories.name c))
    (orKeep (set_type data) (categories.type c))
    (orKeep (set_description data) (categories.description c))
    (orKeep (set_color_gradient data) (categories.color_gradient c))
    (orKeep (set_status data) (categories.status c))
    (orKeep (set_exclude_from_budgets data) (categories.exclude_from_budgets c))
    (orKeep (set_users_user_id data) (categories.users_user_id c)).

(** The table with its first row under [where_] replaced by its image, and
    the table without that row. *)
Fixpoint replaceFirst {A : Type} (where_ : A -> bool) (data : A -> A)
    (l : list A) : list A :=
  match l with
  | [] => []
  | x :: rest =>
      if where_ x then data x :: rest
      else x :: replaceFirst where_ data rest
  end.

Fixpoint removeFirst {A : Type} (where_ : A -> bool) (l : list A) : list A :=
  match l with
  | [] => []
  | x :: rest => if where_ x then rest else x :: removeFirst where_ rest
  end.

(** [categories.update({where, data})] on a unique column: answers the
    updated row; throws when no row matches, when the updated row takes the
    id of another row, or when a unique constraint refuses it beside the
    others. *)
Definition categories_update {schema : Schema} (where_ : categories.row -> bool)
    (data : categoriesUpdateInput) (db : Database)
  : Result categories.row * Database :=
  let cs := categories_rows db in
  match find where_ cs with
  | None => (Err RecordNotFound, db)
  | Some c =>
      let others := removeFirst where_ cs in
      let row := applyUpdate data c in
      if existsb (hasCategoryId (categories.category_id row)) others
      then (Err (UniqueConstraintFailed "PRIMARY"), db)
      else if categoriesAdmit others row
      then (Ok row, withCategories db (replaceFirst where_ (applyUpdate data) cs))
      else (Err (UniqueConstraintFailed "categories"), db)
  end.

(** [categories.count({where})] *)
Definition categories_count (where_ : categories.row -> bool) (db : Database)
  : nat :=
  List.length (filter where_ (categories_rows db)).

(** [select]: the attributes a query answers, and a row cut to them, an
    attribute that was not selected being [undefined] ([None]).  The client
    refuses a [select] that names no attribute; the queries are modelled
    for the others. *)
Record categoriesSelect : Type := mkCategoriesSelect {
  select_category_id : bool;
  select_name : bool;
  select_type : bool;
  select_description : bool;
  select_color_gradient : bool;
  select_status : bool;
  select_exclude_from_budgets : bool;
  select_users_user_id : bool
}.

Record selectedCategory : Type := mkSelectedCategory {
  the_category_id : option Z;
  the_name : option string;
  the_type : option string;
  the_description : option (option string);
  the_color_gradient : option (option string);
  the_status : option string;
  the_exclude_from_budgets : option bool;
  the_users_user_id : option Z
}.

Definition whenSelected {A : Type} (selected : bool) (a : A) : option A :=
  if selected then Some a else None.

(** [select: undefined] answers every attribute. *)
Definition selectAll : categoriesSelect :=
  mkCategoriesSelect true true true true true true true true.

Definition selectFrom (select : option categoriesSelect) (c : categories.row)
  : selectedCategory :=
  let s := match select with Some s => s | None => selectAll end in
  mkSelectedCategory
    (whenSelected (select_category_id s) (categories.category_id c))
    (whenSelected (select_name s) (categories.name c))
    (whenSelected (select_type s) (categories.type c))
    (whenSelected (select_description s) (categories.description c))
    (whenSelected (select_color_gradient s) (categories.color_gradient c))
    (whenSelected (select_status s) (categories.status c))
    (whenSelected (select_exclude_from_budgets s)
       (categories.exclude_from_budgets c))
    (whenSelected (select_users_user_id s) (categories.users_user_id c)).

End PrismaCategories.

(* ================================================================== *)
(** * src/services/categoryService.ts: the other functions              *)
(* ================================================================== *)

Module CategoryServiceRest.
Import MySql Prisma MySqlGroups PrismaCategories CategoryService.

(** ** [getAllCategoriesForUser] *)
Definition getAllCategoriesForUser (userId : Z)
    (selectAttributes : option categoriesSelect) (dbClient : Database)
  : list selectedCategory :=
  map (selectFrom selectAttributes)
      (findMany (fun c => categories.users_user_id c =? userId)
                (categories_rows dbClient)).

(** ** [getCountOfUserCategories] *)
Definition getCountOfUserCategories (userId : Z) (dbClient : Database) : nat :=
  categories_count (fun c => categories.users_user_id c =? userId) dbClient.

Section WithSchema.
Context {schema : Schema}.

(** ** [createCategory]

    [AUTO_INCREMENT] is the id the [categories] table hands out for the
    call. *)
Definition createCategory (AUTO_INCREMENT : Z) (category : categoriesCreateInput)
    (dbClient : Database) : Result categories.row * Database :=
  categories_create AUTO_INCREMENT category dbClient.

(** ** [updateCategory] *)
Definition updateCategory (userId categoryId : Z)
    (category : categoriesUpdateInput) (dbClient : Database)
  : Result categories.row * Database :=
  categories_update
    (fun c => (categories.users_user_id c =? userId)
              && (categories.category_id c =? categoryId))
    category dbClient.

End WithSchema.

(** ** The statements of the averages *)

Module averages.
Record row : Type := mk {
  category_balance_credit : option Decimal;
  category_balance_debit : option Decimal
}.
End averages.

Section WithServer.
Context {server : Server}.

(** [SELECT sum(if(type = 'I' OR (type = 'T' AND ?), amount, 0)), sum(if(type =
    'E' OR (type = 'T' AND ?), amount, 0)), MONTH(..), YEAR(..) FROM rows GROUP
    BY month, year]: the two sums of each group. *)
Definition monthlySums (toCondition fromCondition : SqlValue)
    (rows : list transactions.row) : list (SqlValue * SqlValue) :=
  map (fun group =>
         (sqlSum (map (fun t =>
            sqlIf (sqlOr (typeIs t "I") (sqlAnd (typeIs t "T") toCondition))
                  (intCol (transactions.amount t)) (SqlInt 0)) group),
          sqlSum (map (fun t =>
            sqlIf (sqlOr (typeIs t "E") (sqlAnd (typeIs t "T") fromCondition))
                  (intCol (transactions.amount t)) (SqlInt 0)) group)))
      (groupBy sameMonth
         (fun t => monthAndYearOf (transactions.date_timestamp t)) rows).

(** [SELECT avg(category_balance_credit), avg(category_balance_debit) FROM
    (...) a] *)
Definition averageOfMonths (sums : list (SqlValue * SqlValue))
  : list averages.row :=
  [ averages.mk (sqlAvg (map fst sums)) (sqlAvg (map snd sums)) ].

Definition lifetimePieces : list string :=
  [ "SELECT avg(category_balance_credit) as 'category_balance_credit', avg(category_balance_debit) as 'category_balance_debit' FROM (SELECT sum(if(type = 'I' OR (type = 'T' AND ";
    "), amount, 0)) as 'category_balance_credit', sum(if(type = 'E' OR (type = 'T' AND ";
    "), amount, 0)) as 'category_balance_debit', MONTH(FROM_UNIXTIME(date_timestamp)) as 'month', YEAR(FROM_UNIXTIME(date_timestamp)) as 'year' FROM transactions WHERE categories_category_id = ";
    " GROUP BY month, year) a" ].

Definition lifetimeAverages (vals : list SqlValue) (db : Database)
  : list averages.row :=
  match vals with
  | [toCondition; fromCondition; categoryId] =>
      averageOfMonths
        (monthlySums toCondition fromCondition
           (filter (fun t =>
              holds (sqlEq (nullableIntCol (transactions.categories_category_id t))
                           categoryId))
              (transactions_rows db)))
  | _ => []
  end.

(** ** [getAverageAmountForCategoryInLifetime] *)
Definition getAverageAmountForCategoryInLifetime (categoryId : Z)
    (dbClient : Database) : RawQuery (list averages.row) :=
  let listOfAccountsToExclude :=
    findMany accounts.exclude_from_budgets (accounts_rows dbClient) in
  let '(accsExclusionSqlExcerptAccountsTo,
        accsExclusionSqlExcerptAccountsFrom) :=
    if (List.length listOfAccountsToExclude <? 1)%nat then
      (" 1 == 1 ", " 1 == 1 ")
    else
      let accountsToExcludeListInSQL :=
        buildSqlForExcludedAccountsList (Some listOfAccountsToExclude) in
      ("accounts_account_to_id NOT IN " ++ accountsToExcludeListInSQL ++ " ",
       "accounts_account_from_id NOT IN " ++ accountsToExcludeListInSQL ++ " ")
  in
  queryRaw lifetimePieces lifetimeAverages
    [ SqlStr accsExclusionSqlExcerptAccountsTo;
      SqlStr accsExclusionSqlExcerptAccountsFrom;
      SqlInt categoryId ] dbClient.

(** ** The rows [getAverageAmountForCategoryInLast12Months] is answered

    The statement is that of the lifetime with one more condition,
    [date_timestamp > UNIX_TIMESTAMP(...)]. *)
Definition last12MonthsAverages (vals : list SqlValue) (db : Database)
  : list averages.row :=
  match vals with
  | [toCondition; fromCondition; categoryId] =>
      averageOfMonths
        (monthlySums toCondition fromCondition
           (filter (fun t =>
              holds (sqlAnd
                       (sqlEq (nullableIntCol
                                 (transactions.categories_category_id t))
                              categoryId)
                       (sqlGt (intCol (transactions.date_timestamp t))
                              (SqlInt twelveMonthsBeforeThisMonth))))
              (transactions_rows db)))
  | _ => []
  end.

Definition answerOfLast12Months (categoryId : Z) (dbClient : Database)
  : list averages.row :=
  last12MonthsAverages
    (values (getAverageAmountForCategoryInLast12Months categoryId dbClient))
    dbClient.

End WithServer.

End CategoryServiceRest.

(* ================================================================== *)
(** * The user service: the other functions                             *)
(* ================================================================== *)

Module UserServiceRest.
Import MySql Prisma MySqlGroups PrismaCategories UserService.

(** What a function that only reads comes to: the value it returns, or the
    TypeError thrown on reading a property of [null]. *)
Inductive OrTypeError (A : Type) : Type :=
| Returned (a : A)
| TypeError.
Arguments Returned {A} a.
Arguments TypeError {A}.

(** ** [getUserIdFromUsername]

    [findUnique] answers [null] when no user has the username, and the
    function reads [user_id] of what it was answered. *)
Definition getUserIdFromUsername (username : string) (w : World)
  : OrTypeError Z :=
  let user :=
    findUnique (fun u => String.eqb (users.username u) username)
      (users_rows (database w)) in
  match user with
  | Some u => Returned (users.user_id u)
  | None => TypeError
  end.

(** ** [setupLastUpdateTimestamp] *)
Definition setLastUpdateTimestamp (timestamp : Z) (u : users.row) : users.row :=
  users.mk (users.user_id u) (users.username u) (users.password u)
    (users.email u) (users.sessionkey u) (users.sessionkey_mobile u)
    (users.trustlimit u) (users.trustlimit_mobile u) timestamp.

Definition setupLastUpdateTimestamp (userId timestamp : Z) : M users.row :=
  users_update (fun u => users.user_id u =? userId)
    (setLastUpdateTimestamp timestamp).

(** ** [getUserCategoriesEntitiesTags]

    [EntityService.getAllEntitiesForUser] and [TagService.getAllTagsForUser]
    are not among the sources: they are taken with the attributes the
    function selects, each [undefined] ([None]) or a value. *)
Record entityAttributes : Type := mkEntityAttributes {
  entity_id : option Z;
  entity_name : option string
}.

Record tagAttributes : Type := mkTagAttributes {
  tag_id : option Z;
  tag_name : option string;
  tag_description : option string
}.

Class Directory : Type := mkDirectory {
  getAllEntitiesForUser : Z -> Database -> list entityAttributes;
  getAllTagsForUser : Z -> Database -> list tagAttributes
}.

Record categoryEntry : Type := mkCategoryEntry {
  entry_category_id : option Z;
  entry_name : option string;
  entry_type : option string
}.

Record CategoriesEntitiesTagsOutput : Type := mkOutput {
  out_categories : list categoryEntry;
  out_entities : list entityAttributes;
  out_tags : list tagAttributes
}.

Definition getUserCategoriesEntitiesTags {directory : Directory} (userId : Z)
    (dbClient : Database) : CategoriesEntitiesTagsOutput :=
  let categories :=
    CategoryServiceRest.getAllCategoriesForUser userId
      (Some (mkCategoriesSelect true true true false false false false false))
      dbClient in
  let entities := getAllEntitiesForUser userId dbClient in
  let tags := getAllTagsForUser userId dbClient in
  mkOutput
    (map (fun cat =>
            mkCategoryEntry (the_category_id cat) (the_name cat) (the_type cat))
         categories)
    (map (fun ent => mkEntityAttributes (entity_id ent) (entity_name ent))
         entities)
    (map (fun tag =>
            mkTagAttributes (tag_id tag) (tag_name tag) (tag_description tag))
         tags).

(** ** [getFirstUserTransactionDate]

    The statement joins [transactions] to [entities], which the other
    functions do not read: a ledger holds each transaction with its
    [entities_entity_id] column, and the [entities] table. *)
Module entities.
Record row : Type := mk {
  entity_id : Z;
  name : string;
  users_user_id : Z
}.
End entities.

Record Ledger : Type := mkLedger {
  transactions_with_entity : list (transactions.row * option Z);
  entities_rows : list entities.row
}.

Record FirstTransactionDate : Type := mkFirstTransactionDate {
  date_timestamp : Z;
  month : Z;
  year : Z;
  users_user_id : option Z
}.

(** [transactions left join entities ON entities_entity_id =
    entities.entity_id]: every transaction with each entity it names, and
    with none ([None], the entity's columns [NULL]) when it names none. *)
Definition leftJoinEntities (ledger : Ledger)
  : list (transactions.row * option entities.row) :=
  flat_map (fun te =>
    match
      filter (fun e =>
        holds (sqlEq (nullableIntCol (snd te)) (intCol (entities.entity_id e))))
        (entities_rows ledger)
    with
    | [] => [(fst te, None)]
    | matches => map (fun e => (fst te, Some e)) matches
    end) (transactions_with_entity ledger).

(** [ORDER BY date_timestamp ASC], by insertion. *)
Fixpoint insertByDate {B : Type} (x : transactions.row * B)
    (sorted : list (transactions.row * B)) : list (transactions.row * B) :=
  match sorted with
  | [] => [x]
  | y :: rest =>
      if transactions.date_timestamp (fst x)
         <=? transactions.date_timestamp (fst y)
      then x :: sorted
      else y :: insertByDate x rest
  end.

Definition orderByDate {B : Type} (rows : list (transactions.row * B))
  : list (transactions.row * B) :=
  fold_right insertByDate [] rows.

Section WithServer.
Context {server : Server}.

Definition firstTransactionDates (vals : list SqlValue) (ledger : Ledger)
  : list FirstTransactionDate :=
  match vals with
  | [userId] =>
      let kept :=
        filter (fun te =>
          holds (sqlEq (match snd te with
                        | Some e => intCol (entities.users_user_id e)
                        | None => SqlNull
                        end) userId))
          (leftJoinEntities ledger) in
      map (fun te =>
             let timestamp := transactions.date_timestamp (fst te) in
             mkFirstTransactionDate timestamp
               (fst (monthAndYearOf timestamp))
               (snd (monthAndYearOf timestamp))
               (option_map entities.users_user_id (snd te)))
          (firstn 1 (orderByDate kept))
  | _ => []
  end.

(** [Array.isArray(data)] holds of what [$queryRaw] answers, and [data[0]]
    is [undefined] ([None]) when no row was answered. *)
Definition getFirstUserTransactionDate (userId : Z) (dbClient : Ledger)
  : option FirstTransactionDate :=
  let data := firstTransactionDates [SqlInt userId] dbClient in
  nth_error data 0.

End WithServer.

End UserServiceRest.

(* ================================================================== *)
(** * What the claims speak of *)
(* ================================================================== *)

(** The notions the lemmas below are stated with: the claims' own words as
    definitions, and names for what the services compute. *)

Section CategorySpecification.
Import MySql Prisma CategoryService.
Context {imports : Imports}.

(** One entry of the list: the account's id between single quotes, with a
    blank on either side. *)
Definition quotedAccountId (a : accounts.row) : string :=
  " '" ++ Js.toString (accounts.account_id a) ++ "' ".

(** The list as the claim words it: the entries in order, [", "] between
    consecutive ones. *)
Definition excludedAccountsListSpec (l : list accounts.row) : string :=
  String.concat ", " (map quotedAccountId l).

(** The accounts marked [exclude_from_budgets], and the string the service
    binds for them. *)
Definition excludedAccounts (db : Database) : list accounts.row :=
  findMany accounts.exclude_from_budgets (accounts_rows db).

Definition excludedAccountIds (db : Database) : list Z :=
  map accounts.account_id (excludedAccounts db).

Definition boundExclusionList (db : Database) : string :=
  buildSqlForExcludedAccountsList (Some (excludedAccounts db)).

(** The number the bound list is read as: -1 when no account is excluded,
    0 otherwise. *)
Definition exclusionNumber (db : Database) : Z :=
  match excludedAccounts db with
  | [] => -1
  | _ => 0
  end.

(** The rows the [WHERE] clause keeps: those of the category whose date is
    in the window, both bounds included. *)
Definition inWindow (categoryId fromDate toDate : Z) (t : transactions.row)
  : bool :=
  (fromDate <=? transactions.date_timestamp t)
  && (transactions.date_timestamp t <=? toDate)
  && match transactions.categories_category_id t with
     | Some c => c =? categoryId
     | None => false
     end.

(** The sum of the amounts of the rows that [counts] selects. *)
Definition sumAmounts (counts : transactions.row -> bool)
    (rows : list transactions.row) : Z :=
  fold_right
    (fun t total => (if counts t then transactions.amount t else 0) + total)
    0 rows.

(** [sum(if(counts, amount, 0))] over [rows]. *)
Definition sqlTotal (counts : transactions.row -> bool)
    (rows : list transactions.row) : SqlValue :=
  match rows with
  | [] => SqlNull
  | _ => SqlInt (sumAmounts counts rows)
  end.

(** What the statement's conditions select once the list is bound as one
    string that reads as the number [k]. *)
Definition countedAsCredit (k : Z) (t : transactions.row) : bool :=
  match transactions.type t with
  | Income => true
  | Expense => false
  | Transfer =>
      match transactions.accounts_account_to_id t with
      | Some id => negb (id =? k)
      | None => false
      end
  end.

Definition countedAsDebit (k : Z) (t : transactions.row) : bool :=
  match transactions.type t with
  | Income => false
  | Expense => true
  | Transfer =>
      match transactions.accounts_account_from_id t with
      | Some id => negb (id =? k)
      | None => false
      end
  end.

(** What the claim selects: income, or a transfer whose destination is not
    one of the excluded accounts (and the like for the debit). *)
Definition claimedAsCredit (excluded : list Z) (t : transactions.row) : bool :=
  match transactions.type t with
  | Income => true
  | Expense => false
  | Transfer =>
      match transactions.accounts_account_to_id t with
      | Some id => negb (existsb (Z.eqb id) excluded)
      | None => true
      end
  end.

Definition claimedAsDebit (excluded : list Z) (t : transactions.row) : bool :=
  match transactions.type t with
  | Income => false
  | Expense => true
  | Transfer =>
      match transactions.accounts_account_from_id t with
      | Some id => negb (existsb (Z.eqb id) excluded)
      | None => true
      end
  end.

(** What the statement without transfers selects. *)
Definition isIncome (t : transactions.row) : bool :=
  match transactions.type t with Income => true | _ => false end.

Definition isExpense (t : transactions.row) : bool :=
  match transactions.type t with Expense => true | _ => false end.

(** The day number of the first day of month [m] (1 = January) of year
    [y], counted from January 1, 1970. *)
Definition firstDayOfMonth (y m : Z) : Z :=
  Js.DayFromYear y + Js.daysBefore y (Z.to_nat (m - 1)).

(** The month after month [m] of year [y]: January of [y + 1] after
    December. *)
Definition followingMonth (y m : Z) : Z * Z :=
  if m =? 12 then (y + 1, 1) else (y, m + 1).

(** The first instant of month [m] of year [y], as a timestamp. *)
Definition firstInstantOfMonth (y m : Z) : Z :=
  getUnixTimestampFromDate (UTC (firstDayOfMonth y m * Js.msPerDay)).

(** The first instant of local day [day] is a time a [Date] can hold: it
    lies, in UTC, within 8.64e15 ms of the epoch. *)
Definition validDay (day : Z) : Prop :=
  Z.abs (UTC (day * Js.msPerDay)) <= Js.maxTime.

(** A month whose first day is one. *)
Definition validMonth (y m : Z) : Prop := validDay (firstDayOfMonth y m).

(** What the claim has [getAmountForCategoryInMonth] answer: the first row
    of the period from the first instant of the month to the first instant
    of the following month. *)
Definition monthByClaim (categoryId month year : Z) (includeTransfers : bool)
    (db : Database) : option CalculatedCategoryAmounts :=
  nth_error
    (answer
       (getAmountForCategoryInPeriod categoryId
          (firstInstantOfMonth year month)
          (firstInstantOfMonth (fst (followingMonth year month))
                               (snd (followingMonth year month)))
          includeTransfers db))
    0.

(** The first instant of December 31 of year [y], as a timestamp. *)
Definition firstInstantOfDecember31 (y : Z) : Z :=
  getUnixTimestampFromDate (UTC ((firstDayOfMonth y 12 + 30) * Js.msPerDay)).

(** [q] cut to two decimal places, towards zero. *)
Definition truncate2 (q : Q) : Q :=
  (inject_Z (Z.quot (Qnum (q * 100)) (Zpos (Qden (q * 100)))) / 100)%Q.

(** A monetary field as the claim words it: the stored amount, 0 when it is
    null, divided by 100 and cut to two decimal places. *)
Definition amountByClaim (stored : option Z) : Q :=
  truncate2 (inject_Z (match stored with Some z => z | None => 0 end) / 100)%Q.

(** The stored amount behind a field of a joined row. *)
Definition storedAmount (column : budgets_has_categories.row -> option Z)
    (b : option budgets_has_categories.row) : option Z :=
  match b with
  | Some r => column r
  | None => None
  end.

(** A field of the answer holds the claim's value for [stored], as a decimal
    of two fraction digits. *)
Definition monetary (field : option Decimal) (stored : option Z) : Prop :=
  exists d : Decimal,
    field = Some d /\ scale d = 2%nat /\ (decimalValue d == amountByClaim stored)%Q.

(** What a row of the answer was joined with: a [budgets_has_categories]
    row of the user, the budget and the category, or none, there being no
    such row. *)
Definition plansFor (userId budgetId : Z) (c : categories.row)
    (r : budgets_has_categories.row) : Prop :=
  budgets_has_categories.budgets_users_user_id r = userId
  /\ budgets_has_categories.budgets_budget_id r = budgetId
  /\ budgets_has_categories.categories_category_id r = categories.category_id c.

Definition joinedWith (userId budgetId : Z) (db : Database) (c : categories.row)
    (b : option budgets_has_categories.row) : Prop :=
  match b with
  | Some r =>
      In r (budgets_has_categories_rows db) /\ plansFor userId budgetId c r
  | None =>
      forall r, In r (budgets_has_categories_rows db) ->
        ~ plansFor userId budgetId c r
  end.

(** The rows the two calls of [deleteCategory] select. *)
Definition refersToCategory (userId categoryId : Z)
    (r : budgets_has_categories.row) : bool :=
  (budgets_has_categories.categories_category_id r =? categoryId)
  && (budgets_has_categories.budgets_users_user_id r =? userId).

Definition isCategoryOf (userId categoryId : Z) (c : categories.row) : bool :=
  (categories.users_user_id c =? userId)
  && (categories.category_id c =? categoryId).

End CategorySpecification.

Section UserSpecification.
Import MySql Prisma UserService.
Context {imports : Imports}.

(** The user a call names, by id or by username. *)
Definition userById (userId : Z) (w : World) : option users.row :=
  findUnique (fun u => users.user_id u =? userId) (users_rows (database w)).

Definition userByName (username : string) (w : World) : option users.row :=
  findUnique (fun u => String.eqb (users.username u) username)
    (users_rows (database w)).

(** The world after [SessionManager.generateNewSessionKeyForUser] ran. *)
Definition afterNewSessionKey (username : string) (mobile : bool) (w : World)
  : World :=
  mkWorld (snd (generateNewSessionKeyForUser username mobile (database w)))
    ((username, mobile) :: sessionKeyRequests w).

(** The key that call answered. *)
Definition newSessionKey (username : string) (mobile : bool) (w : World)
  : string :=
  sessionkey (fst (generateNewSessionKeyForUser username mobile (database w))).

(** The accounts of the answer: each account of the user with its balance,
    a null balance counting as 0. *)
Definition accountsWithBalance (userAccounts : list accounts.row)
  : list (accounts.row * Float) :=
  map (fun account =>
         (account,
          convertBigIntegerToFloat
            (match accounts.current_balance account with
             | Some balance => balance
             | None => 0
             end)))
      userAccounts.

End UserSpecification.

(* ================================================================== *)
(** * Sample hosts and data *)
(* ================================================================== *)

Section CategorySamples.
Import MySql Prisma CategoryService.

(** A host in UTC, with timestamps in whole seconds. *)
Definition utcHost : CategoryService.Imports :=
  CategoryService.mkImports (fun t => t) (fun date => date / 1000) "Ativa".

(** One income of 100 in category 1, dated at the timestamp given. *)
Definition oneIncomeAt (timestamp : Z) : Database :=
  mkDatabase [] [] [] []
    [ transactions.mk 1 timestamp 100 Income None (Some 2) (Some 1) ].

(** Account 5 is excluded from budgets, and 100 were transferred to it from
    account 3 at timestamp 10, in category 1. *)
Definition transferToExcluded : Database :=
  mkDatabase []
    [ accounts.mk 3 "current" false None 1;
      accounts.mk 5 "savings" true None 1 ]
    [] []
    [ transactions.mk 1 10 100 Transfer (Some 3) (Some 5) (Some 1) ].

(** User 1 has two active categories and budget 1 plans amounts for the
    first of them; the third category is another user's. *)
Definition budgetOfUser1 : Database :=
  mkDatabase [] []
    [ categories.mk 10 "Food" "D" None None "Ativa" false 1;
      categories.mk 11 "Rent" "D" None None "Ativa" false 1;
      categories.mk 12 "Wages" "C" None None "Ativa" false 2 ]
    [ budgets_has_categories.mk 1 1 10 (Some 12345) None (Some (-250)) ]
    [].

Definition foodOfBudget1 : BudgetCategory :=
  mkBudgetCategory 1 10 "Food" "Ativa" "D" None None (Some 1) false
    (Some (mkDecimal 12345 2)) (Some (mkDecimal 0 2))
    (Some (mkDecimal (-250) 2)).

End CategorySamples.

Section UserSamples.
Import MySql Prisma UserService.

(** Services to run the user service with: a hash that tags the plaintext,
    a session manager that answers a key named after the user and leaves
    the database alone, the accounts of a user by their owner column, and
    balances kept as integers. *)
Definition sampleServices : Imports :=
  mkImports
    (fun plaintext => "hash:" ++ plaintext)
    (fun plaintext hash => String.eqb hash ("hash:" ++ plaintext))
    (fun username mobile db => (mkNewSessionData ("key-of-" ++ username) 3600, db))
    (fun userId db =>
       filter (fun a => accounts.users_user_id a =? userId) (accounts_rows db))
    Z
    (fun balance => balance).

Definition alice : users.row :=
  users.mk 1 "alice" "hash:secret" "alice@example.org" (Some "old-key") None
    None None 0.

Definition aliceWorld : World :=
  mkWorld
    (mkDatabase [alice] [accounts.mk 3 "current" false (Some 1500) 1] [] [] [])
    [].

End UserSamples.

(* ================================================================== *)
(** * Notions for the other functions, and sample data                  *)
(* ================================================================== *)

Section CategoryRestSpecification.
Import MySql Prisma MySqlGroups PrismaCategories CategoryService
  CategoryServiceRest.

(** The categories of a user, as the table holds them. *)
Definition categoriesOf (userId : Z) (db : Database) : list categories.row :=
  filter (fun c => categories.users_user_id c =? userId) (categories_rows db).

(** An attribute after a write that may name it: the value named, or the
    value it had. *)
Definition setOrKept {A : Type} (named : option A) (before after : A) : Prop :=
  match named with
  | Some a => after = a
  | None => after = before
  end.

(** A [select] the client takes: none, or one that names an attribute. *)
Definition namesAnAttribute (select : option categoriesSelect) : bool :=
  match select with
  | None => true
  | Some s =>
      select_category_id s || select_name s || select_type s
      || select_description s || select_color_gradient s || select_status s
      || select_exclude_from_budgets s || select_users_user_id s
  end.

(** The row a new category is, handed the id [AUTO_INCREMENT]. *)
Definition createdCategory (AUTO_INCREMENT : Z) (category : categoriesCreateInput)
  : categories.row :=
  categories.mk
    (match new_category_id category with
     | Some categoryId => categoryId
     | None => AUTO_INCREMENT
     end)
    (new_name category) (new_type category) (new_description category)
    (new_color_gradient category) (new_status category)
    (new_exclude_from_budgets category) (new_users_user_id category).

(** One more category for the count of its owner. *)
Definition oneIfOwner (c : categories.row) (userId : Z) : nat :=
  if categories.users_user_id c =? userId then 1%nat else 0%nat.

End CategoryRestSpecification.

Section CategoryRestSamples.
Import MySql Prisma MySqlGroups PrismaCategories CategoryService
  CategoryServiceRest.

(** A schema that lets a user have one category of a name and type. *)
Definition nameTypePerUser : Schema :=
  mkSchema (fun rows row =>
    negb (existsb (fun c =>
            (categories.users_user_id c =? categories.users_user_id row)
            && String.eqb (categories.name c) (categories.name row)
            && String.eqb (categories.type c) (categories.type row)) rows)).

End CategoryRestSamples.

Section AverageSpecification.
Import MySql Prisma MySqlGroups PrismaCategories CategoryService
  CategoryServiceRest.
Context {server : Server}.

(** The transactions of a category. *)
Definition ofCategory (categoryId : Z) (t : transactions.row) : bool :=
  match transactions.categories_category_id t with
  | Some c => c =? categoryId
  | None => false
  end.

(** The rows by the month they are dated in, one list per month that has
    any. *)
Definition monthsOf (rows : list transactions.row)
  : list (list transactions.row) :=
  groupBy sameMonth (fun t => monthAndYearOf (transactions.date_timestamp t))
    rows.

(** What a month's sum takes: for the credit, income, and for the debit,
    expense; and transfers on both sides, or on neither. *)
Definition countedInAverage (transfers credit : bool) (t : transactions.row)
  : bool :=
  match transactions.type t with
  | Income => credit
  | Expense => negb credit
  | Transfer => transfers
  end.

(** The average over the months of a sum per month: the total over the
    number of months, with four fraction digits, and [NULL] when there is no
    month. *)
Definition averageOver (counts : transactions.row -> bool)
    (months : list (list transactions.row)) : option Decimal :=
  match months with
  | [] => None
  | _ =>
      Some (mkDecimal
              (roundedQuot
                 (fold_right (fun m total => sumAmounts counts m + total) 0
                    months * 10 ^ 4)
                 (Z.of_nat (List.length months)))
              4)
  end.

(** No account is marked [exclude_from_budgets]. *)
Definition noneExcluded (db : Database) : bool :=
  match excludedAccounts db with
  | [] => true
  | _ => false
  end.

End AverageSpecification.

Section UserRestSpecification.
Import MySql Prisma UserService UserServiceRest.
Context {imports : Imports}.

(** What identifies a user and lets them in. *)
Definition credentials (u : users.row) : Z * string * string :=
  (users.user_id u, users.username u, users.password u).

(** The session manager writes no user's id, username or password. *)
Definition keepsCredentials : Prop :=
  forall (username : string) (mobile : bool) (db : Database),
    map credentials
      (users_rows (snd (generateNewSessionKeyForUser username mobile db)))
    = map credentials (users_rows db).

End UserRestSpecification.

Section FirstTransactionSpecification.
Import MySql Prisma MySqlGroups UserService UserServiceRest.

(** A transaction of the ledger is the user's when the entity it names is
    an entity of the user; one that names no entity is no user's. *)
Definition belongsTo (ledger : Ledger) (userId : Z)
    (te : transactions.row * option Z) : Prop :=
  exists e, In e (entities_rows ledger)
            /\ snd te = Some (entities.entity_id e)
            /\ entities.users_user_id e = userId.

(** The order of [ORDER BY date_timestamp ASC]. *)
Definition notAfter {B : Type} (x y : transactions.row * B) : Prop :=
  transactions.date_timestamp (fst x) <= transactions.date_timestamp (fst y).

End FirstTransactionSpecification.

Section WindowSpecification.
Import MySql Prisma CategoryService.

(** A database with one more transaction. *)
Definition withTransaction (db : Database) (t : transactions.row) : Database :=
  mkDatabase (users_rows db) (accounts_rows db) (categories_rows db)
    (budgets_has_categories_rows db) (transactions_rows db ++ [t]).

(** A sum with one more amount, a [NULL] sum being that of no row. *)
Definition plusAmount (total : SqlValue) (amount : Z) : SqlValue :=
  match total with
  | SqlInt z => SqlInt (z + amount)
  | _ => SqlInt amount
  end.

(** An income of a category. *)
Definition incomeOf (categoryId timestamp amount : Z) (t : transactions.row)
  : Prop :=
  transactions.type t = Income
  /\ transactions.categories_category_id t = Some categoryId
  /\ transactions.date_timestamp t = timestamp
  /\ transactions.amount t = amount.

(** What either statement of the period selects, by [includeTransfers]. *)
Definition creditOf (includeTransfers : bool) (db : Database)
    (t : transactions.row) : bool :=
  if includeTransfers then countedAsCredit (exclusionNumber db) t
  else isIncome t.

Definition debitOf (includeTransfers : bool) (db : Database)
    (t : transactions.row) : bool :=
  if includeTransfers then countedAsDebit (exclusionNumber db) t
  else isExpense t.

End WindowSpecification.

Section RestSamples.
Import MySql Prisma PrismaCategories CategoryService UserService.

(** The Rent category of user 1, for which budget 1 plans nothing. *)
Definition rentOfUser1 : categories.row :=
  categories.mk 11 "Rent" "D" None None "Ativa" false 1.

(** A category to be, of user 1, and two updates: a new name, and a new
    owner. *)
Definition savingsOfUser1 : categoriesCreateInput :=
  mkCategoriesCreateInput None "Savings" "C" None None "Ativa" false 1.

Definition renamedGroceries : categoriesUpdateInput :=
  mkCategoriesUpdateInput None (Some "Groceries") None None None None None None.

Definition handedToUser2 : categoriesUpdateInput :=
  mkCategoriesUpdateInput None None None None None None None (Some 2).

(** A second user to be. *)
Definition bob : usersCreateInput :=
  mkUsersCreateInput "bob" "hunter2" "bob@example.org".

(** An income of 250 in category 1, dated at the first instant of 2024. *)
Definition newYearIncome : transactions.row :=
  transactions.mk 7 1704067200 250 Income None (Some 2) (Some 1).

End RestSamples.

(* ================================================================== *)
(** * Lemmas: strings                                                   *)
(* ================================================================== *)

Section StringFacts.

Lemma append_empty_r (s : string) : s ++ "" = s.
Proof.
  induction s as [|c s IH]; simpl; [reflexivity | now rewrite IH].
Qed.

Lemma append_assoc (s1 s2 s3 : string) : (s1 ++ s2) ++ s3 = s1 ++ (s2 ++ s3).
Proof.
  induction s1 as [|c s1 IH]; simpl; [reflexivity | now rewrite IH].
Qed.

End StringFacts.

(* ================================================================== *)
(** * Lemmas: [buildSqlForExcludedAccountsList]                         *)
(* ================================================================== *)

Section ExcludedAccountsList.
Import MySql Prisma CategoryService.

(** The loop from any counter on: with [done] already visited and [rest]
    still to come, it appends the entries of [rest], separated.  It stops by
    its own test: fuel beyond the length of [rest] changes nothing. *)
Lemma buildSqlLoop_from (rest done : list accounts.row) (sql : string)
    (spare : nat) :
  buildSqlLoop (done ++ rest) (List.length rest + spare) (List.length done) sql
  = sql ++ excludedAccountsListSpec rest.
Proof.
  revert done sql.
  induction rest as [|a rest IH]; intros done sql.
  - rewrite app_nil_r. cbn [List.length Nat.add].
    unfold excludedAccountsListSpec. cbn [map String.concat].
    rewrite append_empty_r.
    destruct spare as [|spare]; cbn [buildSqlLoop]; [reflexivity |].
    now rewrite Nat.ltb_irrefl.
  - cbn [List.length Nat.add buildSqlLoop].
    assert (Hlt : (List.length done <? List.length (done ++ a :: rest))%nat = true).
    { apply Nat.ltb_lt. rewrite length_app. simpl. lia. }
    rewrite Hlt.
    rewrite nth_error_app2 by lia.
    rewrite Nat.sub_diag. cbn [nth_error].
    fold (quotedAccountId a).
    specialize (IH (done ++ [a])%list).
    rewrite <- app_assoc in IH. cbn [app] in IH.
    rewrite length_app in IH. cbn [List.length] in IH.
    rewrite Nat.add_1_r in IH.
    destruct rest as [|b rest].
    + assert (Hlast : (List.length done =? List.length (done ++ [a]) - 1)%nat = true).
      { apply Nat.eqb_eq. rewrite length_app. simpl. lia. }
      rewrite Hlast. cbn [negb].
      rewrite IH.
      unfold excludedAccountsListSpec. cbn [map String.concat].
      now rewrite append_empty_r.
    + assert (Hmid : (List.length done =? List.length (done ++ a :: b :: rest) - 1)%nat
                     = false).
      { apply Nat.eqb_neq. rewrite length_app. simpl. lia. }
      rewrite Hmid. cbn [negb].
      rewrite IH.
      unfold excludedAccountsListSpec. cbn [map String.concat].
      now rewrite !append_assoc.
Qed.

(** For a list that is not empty the function is its loop, which is the
    list as the claim words it. *)
Lemma buildSqlForExcludedAccountsList_cons (a : accounts.row)
    (l : list accounts.row) :
  buildSqlForExcludedAccountsList (Some (a :: l))
  = excludedAccountsListSpec (a :: l).
Proof.
  unfold buildSqlForExcludedAccountsList.
  cbn [List.length Nat.eqb].
  rewrite append_empty_r.
  change (S (List.length l)) with (List.length (a :: l)).
  rewrite <- (Nat.add_0_r (List.length (a :: l))).
  apply (buildSqlLoop_from (a :: l) [] "" 0).
Qed.

(** C8.  [buildSqlForExcludedAccountsList] answers [" -1 "] for a null or
    undefined argument and for the empty list; for a list that is not empty
    it answers the accounts' ids in order, each between single quotes with a
    blank on either side, and [", "] between consecutive entries; two
    accounts with ids 1 and 2 give [" '1' ,  '2' "]. *)
Theorem buildSqlForExcludedAccountsList_spec :
  buildSqlForExcludedAccountsList None = " -1 "
  /\ buildSqlForExcludedAccountsList (Some []) = " -1 "
  /\ (forall (a : accounts.row) (l : list accounts.row),
        buildSqlForExcludedAccountsList (Some (a :: l))
        = excludedAccountsListSpec (a :: l))
  /\ (forall a1 a2 : accounts.row,
        excludedAccountsListSpec [a1; a2]
        = " '" ++ Js.toString (accounts.account_id a1) ++ "' "
          ++ ", "
          ++ " '" ++ Js.toString (accounts.account_id a2) ++ "' ")
  /\ buildSqlForExcludedAccountsList
       (Some [accounts.mk 1 "a1" true None 1; accounts.mk 2 "a2" true None 1])
     = " '1' ,  '2' ".
Proof.
  split; [reflexivity |].
  split; [reflexivity |].
  split; [exact buildSqlForExcludedAccountsList_cons |].
  split; [| reflexivity].
  intros a1 a2. unfold excludedAccountsListSpec, quotedAccountId.
  cbn [map String.concat].
  now rewrite !append_assoc.
Qed.

End ExcludedAccountsList.

(* ================================================================== *)
(** * Lemmas: the aggregate statements                                  *)
(* ================================================================== *)

Section AggregateStatements.
Import MySql Prisma CategoryService.

(** C4.  The text of the statement [getAmountForCategoryInPeriod] sends
    depends on [includeTransfers] alone, and the text
    [getAverageAmountForCategoryInLast12Months] sends on nothing: two runs
    that differ in the category id, the date bounds or the excluded accounts
    send the same text.  Those values are the statement's bound parameters,
    the excluded accounts' ids inside a bound string: the list itself in
    the first statement, the condition built around it in the second. *)
Theorem aggregate_statements_parameterized :
  (forall (includeTransfers : bool)
          (categoryId1 fromDate1 toDate1 : Z) (db1 : Database)
          (categoryId2 fromDate2 toDate2 : Z) (db2 : Database),
     sqlText (sent (getAmountForCategoryInPeriod categoryId1 fromDate1 toDate1
                      includeTransfers db1))
     = sqlText (sent (getAmountForCategoryInPeriod categoryId2 fromDate2 toDate2
                        includeTransfers db2)))
  /\ (forall (categoryId1 : Z) (db1 : Database)
             (categoryId2 : Z) (db2 : Database),
        sqlText (getAverageAmountForCategoryInLast12Months categoryId1 db1)
        = sqlText (getAverageAmountForCategoryInLast12Months categoryId2 db2))
  /\ (forall (categoryId fromDate toDate : Z) (db : Database),
        values (sent (getAmountForCategoryInPeriod categoryId fromDate toDate
                        true db))
        = [ SqlStr (boundExclusionList db); SqlStr (boundExclusionList db);
            SqlInt fromDate; SqlInt toDate; SqlInt categoryId ]
        /\ values (sent (getAmountForCategoryInPeriod categoryId fromDate toDate
                           false db))
           = [ SqlInt fromDate; SqlInt toDate; SqlInt categoryId ])
  /\ (forall (categoryId : Z) (db : Database),
        values (getAverageAmountForCategoryInLast12Months categoryId db)
        = match excludedAccounts db with
          | [] => [ SqlStr " 1 == 1 "; SqlStr " 1 == 1 "; SqlInt categoryId ]
          | _ =>
              [ SqlStr ("accounts_account_to_id NOT IN "
                        ++ boundExclusionList db ++ " ");
                SqlStr ("accounts_account_from_id NOT IN "
                        ++ boundExclusionList db ++ " ");
                SqlInt categoryId ]
          end).
Proof.
  split; [| split; [| split]].
  - intros includeTransfers c1 f1 t1 db1 c2 f2 t2 db2.
    unfold getAmountForCategoryInPeriod, performDatabaseRequest, queryRaw.
    destruct includeTransfers; reflexivity.
  - intros c1 db1 c2 db2.
    unfold getAverageAmountForCategoryInLast12Months.
    destruct (List.length (findMany accounts.exclude_from_budgets
                (accounts_rows db1)) <? 1)%nat;
      destruct (List.length (findMany accounts.exclude_from_budgets
                  (accounts_rows db2)) <? 1)%nat;
      reflexivity.
  - intros c f t db. split; reflexivity.
  - intros c db.
    unfold getAverageAmountForCategoryInLast12Months, boundExclusionList.
    fold (excludedAccounts db).
    destruct (excludedAccounts db) as [|a l]; reflexivity.
Qed.

(** ** What the bound list compares to *)

(** A list of at least one account opens with a blank and a quote, so read
    as a number it is 0. *)
Lemma stringToNumber_quoted_list (a : accounts.row) (l : list accounts.row) :
  stringToNumber (buildSqlForExcludedAccountsList (Some (a :: l))) = 0.
Proof.
  rewrite buildSqlForExcludedAccountsList_cons.
  unfold excludedAccountsListSpec. cbn [map].
  assert (Hhead : forall rest : list string,
             exists tail : string,
               String.concat ", " (quotedAccountId a :: rest)
               = String " " (String "'" tail)).
  { intros [|s rest]; cbn [String.concat]; unfold quotedAccountId;
      eexists; cbn [append]; reflexivity. }
  destruct (Hhead (map quotedAccountId l)) as [tail ->].
  reflexivity.
Qed.

Lemma stringToNumber_boundExclusionList (db : Database) :
  stringToNumber (boundExclusionList db) = exclusionNumber db.
Proof.
  unfold boundExclusionList, exclusionNumber.
  destruct (excludedAccounts db) as [|a l].
  - reflexivity.
  - apply stringToNumber_quoted_list.
Qed.

(** [account NOT IN (?)] with the list bound as one string: it holds for an
    account id that differs from the number the string is read as, whichever
    accounts the list names. *)
Lemma notIn_boundExclusionList (db : Database) (account : option Z) :
  holds (sqlNotIn (nullableIntCol account) [SqlStr (boundExclusionList db)])
  = match account with
    | Some id => negb (id =? exclusionNumber db)
    | None => false
    end.
Proof.
  destruct account as [id|]; [| reflexivity].
  unfold sqlNotIn. cbn [sqlIn nullableIntCol sqlEq].
  rewrite stringToNumber_boundExclusionList.
  destruct (id =? exclusionNumber db); reflexivity.
Qed.

End AggregateStatements.

(* ================================================================== *)
(** * Lemmas: [getAmountForCategoryInPeriod]                            *)
(* ================================================================== *)

Section AmountInPeriod.
Import MySql Prisma CategoryService.

Lemma inPeriodOfCategory_inWindow (categoryId fromDate toDate : Z)
    (t : transactions.row) :
  inPeriodOfCategory (SqlInt fromDate) (SqlInt toDate) (SqlInt categoryId) t
  = inWindow categoryId fromDate toDate t.
Proof.
  unfold inPeriodOfCategory, inWindow, sqlBetween, intCol.
  cbn [sqlLe].
  destruct (fromDate <=? transactions.date_timestamp t);
    destruct (transactions.date_timestamp t <=? toDate);
    destruct (transactions.categories_category_id t) as [c|];
    cbn [nullableIntCol sqlEq]; try destruct (c =? categoryId); reflexivity.
Qed.

Lemma fold_sqlAdd_ints (f : transactions.row -> Z)
    (rows : list transactions.row) (acc : Z) :
  fold_left sqlAdd (map (fun t => SqlInt (f t)) rows) (Some acc)
  = Some (acc + fold_right (fun t total => f t + total) 0 rows).
Proof.
  revert acc.
  induction rows as [|t rows IH]; intros acc; cbn [map fold_left fold_right].
  - f_equal. lia.
  - cbn [sqlAdd toNumber]. rewrite IH. f_equal. lia.
Qed.

Lemma sqlSum_if (cond : transactions.row -> SqlValue)
    (rows : list transactions.row) :
  sqlSum (map (fun t => sqlIf (cond t) (intCol (transactions.amount t))
                          (SqlInt 0)) rows)
  = sqlTotal (fun t => holds (cond t)) rows.
Proof.
  assert (Hint : forall t,
             sqlIf (cond t) (intCol (transactions.amount t)) (SqlInt 0)
             = SqlInt (if holds (cond t) then transactions.amount t else 0)).
  { intros t. unfold sqlIf, intCol. destruct (holds (cond t)); reflexivity. }
  rewrite (map_ext _ _ Hint).
  destruct rows as [|t rows]; [reflexivity |].
  unfold sqlSum, sqlTotal, sumAmounts.
  cbn [map fold_left sqlAdd toNumber].
  rewrite (fold_sqlAdd_ints
             (fun t => if holds (cond t) then transactions.amount t else 0)).
  reflexivity.
Qed.

Lemma sqlTotal_ext (p q : transactions.row -> bool)
    (rows : list transactions.row) :
  (forall t, p t = q t) -> sqlTotal p rows = sqlTotal q rows.
Proof.
  intros Hpq. destruct rows as [|t0 rows]; [reflexivity |].
  unfold sqlTotal, sumAmounts. f_equal.
  induction (t0 :: rows) as [|t l IH]; cbn [fold_right];
    [reflexivity | now rewrite Hpq, IH].
Qed.

Lemma holds_or_false_and_true (v : SqlValue) :
  holds (sqlOr (sqlBool false) (sqlAnd (sqlBool true) v)) = holds v.
Proof.
  unfold holds, sqlOr, sqlAnd. cbn [sqlBool truth Z.eqb negb].
  destruct (truth v) as [[|]|]; reflexivity.
Qed.

(** X1.  With [includeTransfers], the statement answers one row: over the rows
    of the category in the window, the sum of the amounts of income and of
    the transfers whose destination account differs from the number the
    bound list reads as (expense and source account for the debit), and
    [NULL] for both when no row is in the window. *)
Lemma getAmountForCategoryInPeriod_with_transfers
    (categoryId fromDate toDate : Z) (db : Database) :
  answer (getAmountForCategoryInPeriod categoryId fromDate toDate true db)
  = let rows :=
      filter (inWindow categoryId fromDate toDate) (transactions_rows db) in
    [ mkAmounts (sqlTotal (countedAsCredit (exclusionNumber db)) rows)
                (sqlTotal (countedAsDebit (exclusionNumber db)) rows) ].
Proof.
  unfold getAmountForCategoryInPeriod, performDatabaseRequest, queryRaw.
  cbn [answer periodWithTransfers].
  fold (excludedAccounts db). fold (boundExclusionList db).
  rewrite (filter_ext _ _ (inPeriodOfCategory_inWindow categoryId fromDate toDate)).
  cbv zeta. rewrite !sqlSum_if.
  f_equal. f_equal; apply sqlTotal_ext; intros t.
  - unfold countedAsCredit, typeIs.
    destruct (transactions.type t); cbn [trxTypeCode strCol sqlEq String.eqb];
      try reflexivity.
    rewrite holds_or_false_and_true. apply notIn_boundExclusionList.
  - unfold countedAsDebit, typeIs.
    destruct (transactions.type t); cbn [trxTypeCode strCol sqlEq String.eqb];
      try reflexivity.
    rewrite holds_or_false_and_true. apply notIn_boundExclusionList.
Qed.

(** X2.  Without [includeTransfers], the statement answers one row: over
    the rows of the category in the window, the sum of the amounts of
    income and the sum of those of expense, transfers left out, and [NULL]
    for both when no row is in the window. *)
Lemma getAmountForCategoryInPeriod_without_transfers
    (categoryId fromDate toDate : Z) (db : Database) :
  answer (getAmountForCategoryInPeriod categoryId fromDate toDate false db)
  = let rows :=
      filter (inWindow categoryId fromDate toDate) (transactions_rows db) in
    [ mkAmounts (sqlTotal isIncome rows) (sqlTotal isExpense rows) ].
Proof.
  unfold getAmountForCategoryInPeriod, performDatabaseRequest, queryRaw.
  cbn [answer periodWithoutTransfers].
  rewrite (filter_ext _ _ (inPeriodOfCategory_inWindow categoryId fromDate toDate)).
  cbv zeta. rewrite !sqlSum_if.
  f_equal. f_equal; apply sqlTotal_ext; intros t.
  - unfold isIncome, typeIs. destruct (transactions.type t); reflexivity.
  - unfold isExpense, typeIs. destruct (transactions.type t); reflexivity.
Qed.

End AmountInPeriod.

(* ================================================================== *)
(** * Lemmas: the month and the year                                    *)
(* ================================================================== *)

Section Calendar.

Lemma MakeDay_first_of_month (y m : Z) :
  1 <= m <= 12 -> Js.MakeDay y (m - 1) 1 = firstDayOfMonth y m.
Proof.
  intros Hm. unfold Js.MakeDay, firstDayOfMonth.
  rewrite (Z.div_small (m - 1) 12) by lia.
  rewrite (Z.mod_small (m - 1) 12) by lia.
  rewrite Z.add_0_r. lia.
Qed.

Lemma fullYear_outside_two_digits (y : Z) :
  ~ (0 <= y <= 99) -> Js.fullYear y = y.
Proof.
  intros Hy. unfold Js.fullYear.
  destruct (0 <=? y) eqn:H0; destruct (y <=? 99) eqn:H99; cbn [andb];
    try reflexivity.
  apply Z.leb_le in H0. apply Z.leb_le in H99. lia.
Qed.

(** A year has 365 days, and one more when it is a leap year. *)
Lemma DayFromYear_succ (y : Z) :
  Js.DayFromYear (y + 1)
  = Js.DayFromYear y + (if Js.isLeapYear y then 366 else 365).
Proof.
  unfold Js.DayFromYear, Js.isLeapYear.
  destruct (y mod 4 =? 0) eqn:H4; destruct (y mod 100 =? 0) eqn:H100;
    destruct (y mod 400 =? 0) eqn:H400; cbn [andb orb negb];
    rewrite ?Z.eqb_eq, ?Z.eqb_neq in *;
    Z.div_mod_to_equations; lia.
Qed.

Lemma daysBefore_december (y : Z) :
  Js.daysBefore y 11 = if Js.isLeapYear y then 335 else 334.
Proof.
  cbn. destruct (Js.isLeapYear y); reflexivity.
Qed.

(** From the first day of a month to the first day of the following one
    there are as many days as the month has. *)
Lemma firstDayOfMonth_following (y m : Z) :
  1 <= m <= 12 ->
  firstDayOfMonth (fst (followingMonth y m)) (snd (followingMonth y m))
  = firstDayOfMonth y m + Js.DaysInMonth y (m - 1).
Proof.
  intros Hm. unfold followingMonth, firstDayOfMonth.
  destruct (m =? 12) eqn:H12; cbn [fst snd].
  - apply Z.eqb_eq in H12. subst m.
    change (Z.to_nat (1 - 1)) with 0%nat.
    change (Z.to_nat (12 - 1)) with 11%nat.
    rewrite DayFromYear_succ, daysBefore_december.
    cbn [Js.daysBefore]. change (12 - 1) with 11. cbn [Js.DaysInMonth].
    destruct (Js.isLeapYear y); lia.
  - apply Z.eqb_neq in H12.
    replace (Z.to_nat (m + 1 - 1)) with (S (Z.to_nat (m - 1))) by lia.
    cbn [Js.daysBefore].
    rewrite Z2Nat.id by lia. lia.
Qed.

(** The day numbers of some first days: January 1, 1970 is day 0, and
    March 1, 2024 comes 19783 days later. *)
Lemma firstDayOfMonth_samples :
  firstDayOfMonth 1970 1 = 0
  /\ firstDayOfMonth 2000 1 = 10957
  /\ firstDayOfMonth 2024 3 = 19783
  /\ firstDayOfMonth 1969 12 = -31.
Proof.
  repeat split.
Qed.

Lemma MakeDay_december_31 (y : Z) :
  Js.MakeDay y 11 31 = firstDayOfMonth y 12 + 30.
Proof.
  unfold Js.MakeDay, firstDayOfMonth.
  change (11 / 12) with 0. change (11 mod 12) with 11.
  change (Z.to_nat (12 - 1)) with (Z.to_nat 11).
  rewrite Z.add_0_r. lia.
Qed.

End Calendar.

Section AmountInMonth.
Import MySql Prisma CategoryService.
Context {imports : Imports}.

Lemma TimeClip_valid (time : Z) :
  Z.abs time <= Js.maxTime -> Js.TimeClip time = Js.TimeValue time.
Proof.
  intros H. unfold Js.TimeClip.
  apply Z.leb_le in H. now rewrite H.
Qed.

Lemma TimeClip_invalid (time : Z) :
  ~ Z.abs time <= Js.maxTime -> Js.TimeClip time = Js.InvalidDate.
Proof.
  intros H. unfold Js.TimeClip.
  destruct (Z.abs time <=? Js.maxTime) eqn:E; [| reflexivity].
  apply Z.leb_le in E. contradiction.
Qed.

(** The date of the first day of a month, for a year that is taken as it is
    written. *)
Lemma newDate_first_of_month (y m : Z) :
  1 <= m <= 12 ->
  ~ (0 <= y <= 99) ->
  Js.newDate UTC y (m - 1) 1
  = Js.TimeClip (UTC (firstDayOfMonth y m * Js.msPerDay)).
Proof.
  intros Hm Hy. unfold Js.newDate.
  now rewrite (fullYear_outside_two_digits y Hy), (MakeDay_first_of_month y m Hm).
Qed.

(** The two dates [getAmountForCategoryInMonth] builds, and what it makes of
    them. *)
Lemma getAmountForCategoryInMonth_dates (categoryId month year : Z)
    (includeTransfers : bool) (db : Database) :
  1 <= month <= 12 ->
  ~ (0 <= year <= 99) ->
  ~ (month = 12 /\ year = -1) ->
  getAmountForCategoryInMonth categoryId month year includeTransfers db
  = match
      Js.TimeClip
        (UTC (firstDayOfMonth (fst (followingMonth year month))
                              (snd (followingMonth year month))
              * Js.msPerDay)),
      Js.TimeClip (UTC (firstDayOfMonth year month * Js.msPerDay))
    with
    | Js.TimeValue maxDate, Js.TimeValue minDate =>
        Answered
          (nth_error
             (answer
                (getAmountForCategoryInPeriod categoryId
                   (getUnixTimestampFromDate minDate)
                   (getUnixTimestampFromDate maxDate)
                   includeTransfers db))
             0)
    | _, _ => OfInvalidDate
    end.
Proof.
  intros Hm Hy Hdec.
  unfold getAmountForCategoryInMonth, performDatabaseRequest, followingMonth.
  rewrite (newDate_first_of_month year month Hm Hy).
  destruct (month <? 12) eqn:Hlt.
  - apply Z.ltb_lt in Hlt.
    assert (H12 : (month =? 12) = false) by (apply Z.eqb_neq; lia).
    rewrite H12. cbn [fst snd].
    rewrite (newDate_first_of_month year (month + 1)) by (lia || exact Hy).
    reflexivity.
  - apply Z.ltb_ge in Hlt.
    assert (H12 : (month =? 12) = true) by (apply Z.eqb_eq; lia).
    rewrite H12. cbn [fst snd].
    rewrite (newDate_first_of_month (year + 1) 1) by lia.
    reflexivity.
Qed.

(** The window of a month whose two dates are valid. *)
Lemma getAmountForCategoryInMonth_window (categoryId month year : Z)
    (includeTransfers : bool) (db : Database) :
  1 <= month <= 12 ->
  ~ (0 <= year <= 99) ->
  ~ (month = 12 /\ year = -1) ->
  validMonth year month ->
  validMonth (fst (followingMonth year month)) (snd (followingMonth year month)) ->
  getAmountForCategoryInMonth categoryId month year includeTransfers db
  = Answered (monthByClaim categoryId month year includeTransfers db).
Proof.
  intros Hm Hy Hdec Hmin Hmax.
  rewrite getAmountForCategoryInMonth_dates by assumption.
  rewrite (TimeClip_valid _ Hmax), (TimeClip_valid _ Hmin).
  reflexivity.
Qed.

(** The days of a year that come before one of its months. *)
Lemma daysBefore_bounds (y m : Z) :
  1 <= m <= 12 ->
  0 <= Js.daysBefore y (Z.to_nat (m - 1)) <= 335
  /\ (m <= 9 -> Js.daysBefore y (Z.to_nat (m - 1)) <= 244).
Proof.
  intros Hm.
  assert (Hcases : m = 1 \/ m = 2 \/ m = 3 \/ m = 4 \/ m = 5 \/ m = 6 \/ m = 7
                   \/ m = 8 \/ m = 9 \/ m = 10 \/ m = 11 \/ m = 12) by lia.
  repeat (destruct Hcases as [-> | Hcases]); try subst m;
    match goal with
    | |- context [Z.to_nat ?e] =>
        let n := eval vm_compute in (Z.to_nat e) in
        change (Z.to_nat e) with n
    end;
    cbn; destruct (Js.isLeapYear y); lia.
Qed.

(** Where local time is within a day of UTC, the first day of every month
    from the year -271820 to September of the year 275760 is a valid
    date. *)
Lemma validMonth_years (y m : Z) :
  (forall t, Z.abs (UTC t - t) <= Js.msPerDay) ->
  1 <= m <= 12 ->
  -271820 <= y ->
  y < 275760 \/ (y = 275760 /\ m <= 9) ->
  validMonth y m.
Proof.
  intros Hzone Hm Hlow Hhigh.
  unfold validMonth, validDay.
  destruct (daysBefore_bounds y m Hm) as [Hdays Hsept].
  assert (Hday : -99999744 <= firstDayOfMonth y m <= 99999999 - 11).
  { unfold firstDayOfMonth.
    assert (Hyear : -99999744 <= Js.DayFromYear y
                    /\ (y < 275760 -> Js.DayFromYear y <= 99999744 - 365)
                    /\ (y = 275760 -> Js.DayFromYear y = 99999744)).
    { unfold Js.DayFromYear. repeat split; intros; Z.div_mod_to_equations; lia. }
    destruct Hyear as (Hfrom & Hbelow & Hlast).
    destruct Hhigh as [Hlt | [Heq Hm9]].
    - specialize (Hbelow Hlt). lia.
    - specialize (Hlast Heq). specialize (Hsept Hm9). lia. }
  specialize (Hzone (firstDayOfMonth y m * Js.msPerDay)).
  unfold Js.msPerDay, Js.maxTime in *. lia.
Qed.

(** C2, amended.  For a month [m] in 1..12 and a year that the Date
    constructor takes as it is written (one outside 0..99, and not -1 when
    [m] is 12, whose following year is 0): when the first day of the month
    and the first day of the following month are valid dates,
    [getAmountForCategoryInMonth] answers the first row of
    [getAmountForCategoryInPeriod] over the range from the first instant of
    month [m] of year [y] to the first instant of the following month,
    January of [y + 1] after December; when one of them is not, it is
    handed an Invalid Date and computes no range.  Both are valid for every
    year from -271820 to 275759 where local time is within a day of UTC.
    The two first days lie as many days apart as the month has. *)
Theorem getAmountForCategoryInMonth_range
    (categoryId month year : Z) (includeTransfers : bool) (db : Database) :
  1 <= month <= 12 ->
  ~ (0 <= year <= 99) ->
  ~ (month = 12 /\ year = -1) ->
  let next := followingMonth year month in
  (validMonth year month -> validMonth (fst next) (snd next) ->
   getAmountForCategoryInMonth categoryId month year includeTransfers db
   = Answered (monthByClaim categoryId month year includeTransfers db))
  /\ (~ (validMonth year month /\ validMonth (fst next) (snd next)) ->
      getAmountForCategoryInMonth categoryId month year includeTransfers db
      = OfInvalidDate)
  /\ ((forall t, Z.abs (UTC t - t) <= Js.msPerDay) ->
      -271820 <= year <= 275759 ->
      validMonth year month /\ validMonth (fst next) (snd next))
  /\ firstDayOfMonth (fst next) (snd next)
     = firstDayOfMonth year month + Js.DaysInMonth year (month - 1).
Proof.
  intros Hm Hy Hdec next.
  split; [now apply getAmountForCategoryInMonth_window |].
  split; [| split; [| now apply firstDayOfMonth_following]].
  - intros Hinvalid.
    rewrite getAmountForCategoryInMonth_dates by assumption.
    fold next.
    destruct (Z_le_dec
                (Z.abs (UTC (firstDayOfMonth (fst next) (snd next) * Js.msPerDay)))
                Js.maxTime) as [Hmax | Hmax].
    + destruct (Z_le_dec
                  (Z.abs (UTC (firstDayOfMonth year month * Js.msPerDay)))
                  Js.maxTime) as [Hmin | Hmin].
      * exfalso. apply Hinvalid. split; assumption.
      * rewrite (TimeClip_valid _ Hmax), (TimeClip_invalid _ Hmin).
        reflexivity.
    + now rewrite (TimeClip_invalid _ Hmax).
  - intros Hzone Hyears. split.
    + apply validMonth_years; [exact Hzone | exact Hm | lia | lia].
    + subst next. unfold followingMonth.
      destruct (month =? 12) eqn:H12; cbn [fst snd].
      * apply validMonth_years; [exact Hzone | lia | lia | lia].
      * apply Z.eqb_neq in H12.
        apply validMonth_years; [exact Hzone | lia | lia | lia].
Qed.

(** The two dates [getAmountForCategoryInYear] builds, and what it makes of
    them. *)
Lemma getAmountForCategoryInYear_dates (categoryId year : Z)
    (includeTransfers : bool) (db : Database) :
  ~ (0 <= year <= 99) ->
  getAmountForCategoryInYear categoryId year includeTransfers db
  = match
      Js.TimeClip (UTC ((firstDayOfMonth year 12 + 30) * Js.msPerDay)),
      Js.TimeClip (UTC (firstDayOfMonth year 1 * Js.msPerDay))
    with
    | Js.TimeValue maxDate, Js.TimeValue minDate =>
        Answered
          (nth_error
             (answer
                (getAmountForCategoryInPeriod categoryId
                   (getUnixTimestampFromDate minDate)
                   (getUnixTimestampFromDate maxDate)
                   includeTransfers db))
             0)
    | _, _ => OfInvalidDate
    end.
Proof.
  intros Hy.
  unfold getAmountForCategoryInYear, Js.newDate.
  rewrite (fullYear_outside_two_digits year Hy).
  rewrite MakeDay_december_31.
  change 0 with (1 - 1) at 1.
  rewrite (MakeDay_first_of_month year 1) by lia.
  reflexivity.
Qed.

(** X3.  For a year outside 0..99 whose January 1 and December 31 are valid
    dates, [getAmountForCategoryInYear] answers the first row of
    [getAmountForCategoryInPeriod] over the range from the first instant of
    January 1 to the first instant of December 31 of that year; when one of
    the two is not a valid date, it is handed an Invalid Date and computes
    no range. *)
Lemma getAmountForCategoryInYear_range
    (categoryId year : Z) (includeTransfers : bool) (db : Database) :
  ~ (0 <= year <= 99) ->
  (validMonth year 1 -> validDay (firstDayOfMonth year 12 + 30) ->
   getAmountForCategoryInYear categoryId year includeTransfers db
   = Answered
       (nth_error
          (answer
             (getAmountForCategoryInPeriod categoryId
                (firstInstantOfMonth year 1) (firstInstantOfDecember31 year)
                includeTransfers db))
          0))
  /\ (~ (validMonth year 1 /\ validDay (firstDayOfMonth year 12 + 30)) ->
      getAmountForCategoryInYear categoryId year includeTransfers db
      = OfInvalidDate).
Proof.
  intros Hy.
  rewrite (getAmountForCategoryInYear_dates categoryId year includeTransfers db Hy).
  unfold validMonth, validDay.
  split.
  - intros Hmin Hmax.
    rewrite (TimeClip_valid _ Hmax), (TimeClip_valid _ Hmin).
    reflexivity.
  - intros Hinvalid.
    destruct (Z_le_dec
                (Z.abs (UTC ((firstDayOfMonth year 12 + 30) * Js.msPerDay)))
                Js.maxTime) as [Hmax | Hmax].
    + destruct (Z_le_dec
                  (Z.abs (UTC (firstDayOfMonth year 1 * Js.msPerDay)))
                  Js.maxTime) as [Hmin | Hmin].
      * exfalso. apply Hinvalid. split; assumption.
      * rewrite (TimeClip_valid _ Hmax), (TimeClip_invalid _ Hmin).
        reflexivity.
    + now rewrite (TimeClip_invalid _ Hmax).
Qed.

End AmountInMonth.

Section AmountExamples.
Import MySql Prisma CategoryService.

(** C1, where the code departs from it.  Account 5 is excluded from budgets
    and category 1 holds one transfer of 100 to it: the claim's credit over
    the window is 0, the one [getAmountForCategoryInPeriod] answers is
    100.  The list of excluded accounts is bound as one string, which the
    comparison reads as the number 0. *)
Theorem getAmountForCategoryInPeriod_counts_excluded_account :
  excludedAccountIds transferToExcluded = [5]
  /\ values (sent (getAmountForCategoryInPeriod 1 0 20 true transferToExcluded))
     = [ SqlStr " '5' "; SqlStr " '5' "; SqlInt 0; SqlInt 20; SqlInt 1 ]
  /\ answer (getAmountForCategoryInPeriod 1 0 20 true transferToExcluded)
     = [ mkAmounts (SqlInt 100) (SqlInt 100) ]
  /\ sumAmounts (claimedAsCredit (excludedAccountIds transferToExcluded))
       (filter (inWindow 1 0 20) (transactions_rows transferToExcluded))
     = 0
  /\ sumAmounts (claimedAsDebit (excludedAccountIds transferToExcluded))
       (filter (inWindow 1 0 20) (transactions_rows transferToExcluded))
     = 100.
Proof.
  repeat split.
Qed.

(** C2 at December 2023, in UTC: the hypotheses of the amended claim hold
    there, the two dates being valid. *)
Lemma getAmountForCategoryInMonth_range_december_2023 :
  (1 <= 12 <= 12 /\ ~ (0 <= 2023 <= 99) /\ ~ (12 = 12 /\ 2023 = -1)
   /\ @validMonth utcHost 2023 12 /\ @validMonth utcHost 2024 1)
  /\ @getAmountForCategoryInMonth utcHost 1 12 2023 true (oneIncomeAt 1701388800)
     = Answered (@monthByClaim utcHost 1 12 2023 true (oneIncomeAt 1701388800))
  /\ @monthByClaim utcHost 1 12 2023 true (oneIncomeAt 1701388800)
     = Some (mkAmounts (SqlInt 100) (SqlInt 0)).
Proof.
  assert (Hdec : @validMonth utcHost 2023 12) by (vm_compute; discriminate).
  assert (Hjan : @validMonth utcHost 2024 1) by (vm_compute; discriminate).
  split; [| split].
  - repeat split; try lia; assumption.
  - apply (@getAmountForCategoryInMonth_range utcHost 1 12 2023 true
             (oneIncomeAt 1701388800)); try lia; assumption.
  - vm_compute. reflexivity.
Defined.

(** C2 as stated fails for a year in 0..99.  Asked for January of year 99,
    the service answers the sums of January 1999: an income dated January
    1, 1999 is counted, which no range starting at January of year 99
    and ending at its February holds. *)
Lemma getAmountForCategoryInMonth_two_digit_year :
  @getAmountForCategoryInMonth utcHost 1 1 99 true (oneIncomeAt 915148800)
  = Answered (Some (mkAmounts (SqlInt 100) (SqlInt 0)))
  /\ @monthByClaim utcHost 1 1 99 true (oneIncomeAt 915148800)
     = Some (mkAmounts SqlNull SqlNull)
  /\ @getAmountForCategoryInMonth utcHost 1 1 99 true (oneIncomeAt 915148800)
     <> Answered (@monthByClaim utcHost 1 1 99 true (oneIncomeAt 915148800)).
Proof.
  split; [vm_compute; reflexivity |].
  split; [vm_compute; reflexivity |].
  vm_compute. discriminate.
Qed.

(** The last valid date is September 13, 275760.  Asked for September of
    that year, the service builds October 1, 275760, an Invalid Date; asked
    for August, it answers the month's sums. *)
Lemma getAmountForCategoryInMonth_last_months :
  Js.newDate (@UTC utcHost) 275760 8 13 = Js.TimeValue Js.maxTime
  /\ Js.newDate (@UTC utcHost) 275760 8 14 = Js.InvalidDate
  /\ Js.newDate (@UTC utcHost) 275760 9 1 = Js.InvalidDate
  /\ @getAmountForCategoryInMonth utcHost 1 9 275760 true (oneIncomeAt 0)
     = OfInvalidDate
  /\ @getAmountForCategoryInMonth utcHost 1 8 275760 true (oneIncomeAt 0)
     = Answered (Some (mkAmounts SqlNull SqlNull)).
Proof.
  repeat split.
Qed.

(** X3 at the year 2023, in UTC. *)
Lemma getAmountForCategoryInYear_range_2023 :
  (~ (0 <= 2023 <= 99)
   /\ @validMonth utcHost 2023 1
   /\ @validDay utcHost (firstDayOfMonth 2023 12 + 30))
  /\ @getAmountForCategoryInYear utcHost 1 2023 true (oneIncomeAt 1703980800)
     = Answered
         (nth_error
            (answer
               (getAmountForCategoryInPeriod 1
                  (@firstInstantOfMonth utcHost 2023 1)
                  (@firstInstantOfDecember31 utcHost 2023)
                  true (oneIncomeAt 1703980800)))
            0)
  /\ @getAmountForCategoryInYear utcHost 1 2023 true (oneIncomeAt 1703980800)
     = Answered (Some (mkAmounts (SqlInt 100) (SqlInt 0))).
Proof.
  assert (Hjan : @validMonth utcHost 2023 1) by (vm_compute; discriminate).
  assert (Hdec : @validDay utcHost (firstDayOfMonth 2023 12 + 30))
    by (vm_compute; discriminate).
  split; [| split].
  - repeat split; try lia; assumption.
  - apply (proj1 (@getAmountForCategoryInYear_range utcHost 1 2023 true
                    (oneIncomeAt 1703980800) ltac:(lia)));
      assumption.
  - vm_compute. reflexivity.
Defined.

(** C3, where the code departs from it.  The year's window ends at the
    first instant of December 31: an income dated noon of December 31, 2023
    is left out of the sums of 2023, which the period through the last
    second of that day holds. *)
Theorem getAmountForCategoryInYear_misses_december_31 :
  Js.newDate (@UTC utcHost) 2023 11 31 = Js.TimeValue 1703980800000
  /\ @getUnixTimestampFromDate utcHost 1703980800000 = 1703980800
  /\ @getAmountForCategoryInYear utcHost 1 2023 true (oneIncomeAt 1704024000)
     = Answered (Some (mkAmounts SqlNull SqlNull))
  /\ nth_error
       (answer
          (getAmountForCategoryInPeriod 1
             (@firstInstantOfMonth utcHost 2023 1)
             (@firstInstantOfMonth utcHost 2024 1 - 1)
             true (oneIncomeAt 1704024000)))
       0
     = Some (mkAmounts (SqlInt 100) (SqlInt 0)).
Proof.
  split; [vm_compute; reflexivity |].
  split; [vm_compute; reflexivity |].
  split; vm_compute; reflexivity.
Qed.

End AmountExamples.

(* ================================================================== *)
(** * Lemmas: [getAllCategoriesForBudget]                               *)
(* ================================================================== *)

Section CategoriesForBudget.
Import MySql Prisma CategoryService.
Context {imports : Imports}.

Lemma roundedQuot_exact (x : Z) : roundedQuot (x * 10 ^ 4) 100 = x * 100.
Proof.
  unfold roundedQuot.
  change (10 ^ 4) with (100 * 100).
  replace (x * (100 * 100)) with (x * 100 * 100) by lia.
  rewrite Z.quot_mul by lia.
  rewrite Z.rem_mul by lia.
  reflexivity.
Qed.

Lemma amountColumn_value (column : budgets_has_categories.row -> option Z)
    (b : option budgets_has_categories.row) :
  amountColumn (bCol column b)
  = Some (mkDecimal
            (match storedAmount column b with Some z => z | None => 0 end) 2).
Proof.
  unfold amountColumn.
  assert (H : sqlCoalesce (bCol column b) (SqlInt 0)
              = SqlInt (match storedAmount column b with
                        | Some z => z
                        | None => 0
                        end)).
  { destruct b as [r|]; cbn [bCol storedAmount]; [| reflexivity].
    destruct (column r); reflexivity. }
  rewrite H. unfold sqlDiv. cbn [toNumber Z.eqb].
  rewrite roundedQuot_exact.
  unfold sqlTruncate. cbn [scale unscaled Nat.leb Nat.sub].
  change (10 ^ Z.of_nat 2) with 100.
  rewrite Z.quot_mul by lia. reflexivity.
Qed.

Lemma truncate2_hundredths (x : Z) :
  (decimalValue (mkDecimal x 2) == truncate2 (inject_Z x / 100))%Q.
Proof.
  unfold truncate2, decimalValue. cbn [unscaled scale].
  unfold Qeq, Qdiv, Qmult, Qinv, inject_Z. simpl.
  rewrite Z.mul_1_r, Z.quot_mul by lia. lia.
Qed.

Lemma amountColumn_monetary (column : budgets_has_categories.row -> option Z)
    (b : option budgets_has_categories.row) :
  monetary (amountColumn (bCol column b)) (storedAmount column b).
Proof.
  rewrite amountColumn_value.
  eexists. split; [reflexivity |]. split; [reflexivity |].
  apply truncate2_hundredths.
Qed.

Lemma holds_and (a b : SqlValue) :
  holds (sqlAnd a b) = true -> holds a = true /\ holds b = true.
Proof.
  unfold holds, sqlAnd.
  destruct (truth a) as [[|]|]; destruct (truth b) as [[|]|];
    cbn; intros H; try discriminate; split; reflexivity.
Qed.

Lemma holds_eq_int (x y : Z) :
  holds (sqlEq (intCol x) (SqlInt y)) = true -> x = y.
Proof.
  unfold holds, intCol. cbn [sqlEq].
  destruct (x =? y) eqn:E; cbn; [intros _; now apply Z.eqb_eq | discriminate].
Qed.

Lemma holds_eq_str (x y : string) :
  holds (sqlEq (strCol x) (SqlStr y)) = true -> x = y.
Proof.
  unfold holds, strCol. cbn [sqlEq].
  destruct (String.eqb x y) eqn:E; cbn;
    [intros _; now apply String.eqb_eq | discriminate].
Qed.

(** A row of the join pairs a category of the table with a row of [b] that
    refers to it, or with none when no row of [b] does. *)
Lemma in_rightJoinCategories (b : list budgets_has_categories.row)
    (cats : list categories.row)
    (o : option budgets_has_categories.row) (c : categories.row) :
  In (o, c) (rightJoinCategories b cats) ->
  In c cats
  /\ match o with
     | Some r =>
         In r b
         /\ budgets_has_categories.categories_category_id r
            = categories.category_id c
     | None =>
         forall r, In r b ->
           budgets_has_categories.categories_category_id r
           <> categories.category_id c
     end.
Proof.
  unfold rightJoinCategories. intros Hin.
  apply in_flat_map in Hin. destruct Hin as (c' & Hc' & Hin).
  remember (filter _ b) as matches eqn:Hm.
  destruct matches as [|r0 rest].
  - destruct Hin as [Heq | []]. inversion Heq; subst o c'.
    split; [exact Hc' |].
    intros r Hr Hrefers.
    assert (Hmatch : In r []).
    { rewrite Hm. apply filter_In. split; [exact Hr |].
      unfold holds, intCol. cbn [sqlEq]. rewrite Hrefers, Z.eqb_refl.
      reflexivity. }
    contradiction.
  - apply in_map_iff in Hin. destruct Hin as (r & Heq & Hr).
    inversion Heq; subst o c'.
    split; [exact Hc' |].
    rewrite Hm in Hr. apply filter_In in Hr.
    destruct Hr as [Hr Hrefers]. split; [exact Hr |].
    symmetry. now apply holds_eq_int in Hrefers.
Qed.

(** C7.  Every row [getAllCategoriesForBudget] answers belongs to the user
    and has the ACTIVE status.  It is a category of the table, with the
    category's own attributes, joined with a [budgets_has_categories] row of
    that user, budget and category, whose budget id it carries, or with
    none when the table holds no such row; and each of its three monetary
    fields is the stored amount of the row it is joined with, 0 when it is
    null or there is no row, divided by 100 and cut to two decimal
    places. *)
Theorem getAllCategoriesForBudget_rows (userId budgetId : Z) (db : Database)
    (row : BudgetCategory) :
  In row (answer (getAllCategoriesForBudget userId budgetId db)) ->
  bc_users_user_id row = userId
  /\ bc_status row = CATEGORY_STATUS_ACTIVE
  /\ exists (c : categories.row) (b : option budgets_has_categories.row),
       In c (categories_rows db)
       /\ categories.users_user_id c = userId
       /\ categories.status c = CATEGORY_STATUS_ACTIVE
       /\ bc_category_id row = categories.category_id c
       /\ bc_name row = categories.name c
       /\ bc_type row = categories.type c
       /\ bc_description row = categories.description c
       /\ bc_color_gradient row = categories.color_gradient c
       /\ bc_exclude_from_budgets row = categories.exclude_from_budgets c
       /\ joinedWith userId budgetId db c b
       /\ bc_budgets_budget_id row
          = option_map budgets_has_categories.budgets_budget_id b
       /\ monetary (bc_planned_amount_credit row)
            (storedAmount budgets_has_categories.planned_amount_credit b)
       /\ monetary (bc_planned_amount_debit row)
            (storedAmount budgets_has_categories.planned_amount_debit b)
       /\ monetary (bc_current_amount row)
            (storedAmount budgets_has_categories.current_amount b).
Proof.
  unfold getAllCategoriesForBudget, queryRaw. cbn [answer budgetCategories].
  intros Hin.
  apply in_map_iff in Hin. destruct Hin as ([o c] & Hrow & Hkept).
  apply filter_In in Hkept. destruct Hkept as [Hjoined Hwhere].
  cbn [fst snd] in *.
  apply holds_and in Hwhere. destruct Hwhere as [Huser Hstatus].
  apply holds_eq_int in Huser. apply holds_eq_str in Hstatus.
  apply in_rightJoinCategories in Hjoined. destruct Hjoined as [Hc Hb].
  subst row. cbn [bc_users_user_id bc_status bc_category_id bc_name bc_type
                  bc_description bc_color_gradient bc_exclude_from_budgets
                  bc_budgets_budget_id
                  bc_planned_amount_credit bc_planned_amount_debit
                  bc_current_amount].
  split; [exact Huser |]. split; [exact Hstatus |].
  exists c, o.
  split; [exact Hc |]. split; [exact Huser |]. split; [exact Hstatus |].
  do 6 (split; [reflexivity |]).
  split.
  - unfold joinedWith, plansFor. destruct o as [r|].
    + destruct Hb as [Hrb Hcat].
      apply filter_In in Hrb. destruct Hrb as [Hrdb Hsel].
      apply holds_and in Hsel. destruct Hsel as [Hu Hbud].
      apply holds_eq_int in Hu. apply holds_eq_int in Hbud.
      repeat split; assumption.
    + intros r Hr (Hu & Hbud & Hcat).
      apply (Hb r); [| exact Hcat].
      apply filter_In. split; [exact Hr |].
      unfold holds, intCol. cbn [sqlEq sqlAnd truth].
      rewrite Hu, Hbud, !Z.eqb_refl. reflexivity.
  - split; [reflexivity |].
    repeat split; apply amountColumn_monetary.
Qed.

End CategoriesForBudget.

Section CategoriesForBudgetSample.
Import MySql Prisma CategoryService.

(** C7 at a row of a budget: 12345 is answered as 123.45, a null amount as
    0.00 and -250 as -2.50. *)
Lemma getAllCategoriesForBudget_rows_sample :
  In foodOfBudget1 (answer (@getAllCategoriesForBudget utcHost 1 1 budgetOfUser1))
  /\ bc_users_user_id foodOfBudget1 = 1
  /\ bc_status foodOfBudget1 = @CATEGORY_STATUS_ACTIVE utcHost
  /\ exists (c : categories.row) (b : option budgets_has_categories.row),
       In c (categories_rows budgetOfUser1)
       /\ categories.users_user_id c = 1
       /\ categories.status c = @CATEGORY_STATUS_ACTIVE utcHost
       /\ bc_category_id foodOfBudget1 = categories.category_id c
       /\ bc_name foodOfBudget1 = categories.name c
       /\ bc_type foodOfBudget1 = categories.type c
       /\ bc_description foodOfBudget1 = categories.description c
       /\ bc_color_gradient foodOfBudget1 = categories.color_gradient c
       /\ bc_exclude_from_budgets foodOfBudget1
          = categories.exclude_from_budgets c
       /\ joinedWith 1 1 budgetOfUser1 c b
       /\ bc_budgets_budget_id foodOfBudget1
          = option_map budgets_has_categories.budgets_budget_id b
       /\ monetary (bc_planned_amount_credit foodOfBudget1)
            (storedAmount budgets_has_categories.planned_amount_credit b)
       /\ monetary (bc_planned_amount_debit foodOfBudget1)
            (storedAmount budgets_has_categories.planned_amount_debit b)
       /\ monetary (bc_current_amount foodOfBudget1)
            (storedAmount budgets_has_categories.current_amount b).
Proof.
  assert (Hin : In foodOfBudget1
                  (answer (@getAllCategoriesForBudget utcHost 1 1 budgetOfUser1))).
  { vm_compute. left. reflexivity. }
  split; [exact Hin |].
  exact (@getAllCategoriesForBudget_rows utcHost 1 1 budgetOfUser1
           foodOfBudget1 Hin).
Defined.

End CategoriesForBudgetSample.

(* ================================================================== *)
(** * Lemmas: [deleteCategory]                                          *)
(* ================================================================== *)

Section DeleteCategory.
Import MySql Prisma CategoryService.

(** A transaction commits every write or leaves the database as it was. *)
Lemma transaction_all_or_nothing (ws : list PendingWrite) (db : Database) :
  (exists rs db', runWrites ws db = Ok (rs, db')
                  /\ transaction ws db = (Ok rs, db'))
  \/ (exists e, transaction ws db = (Err e, db)).
Proof.
  unfold transaction.
  destruct (runWrites ws db) as [[rs db'] | e].
  - left. exists rs, db'. split; reflexivity.
  - right. exists e. reflexivity.
Qed.

Lemma filter_negb_none {A : Type} (p : A -> bool) (l : list A) (x : A) :
  In x (filter (fun y => negb (p y)) l) -> p x = false.
Proof.
  intros Hin. apply filter_In in Hin. destruct Hin as [_ Hneg].
  now apply negb_true_iff in Hneg.
Qed.

(** C10.  [deleteCategory] runs its two deletions as one transaction.  When
    the user has the category, both are committed: the category's row is
    gone, the [budgets_has_categories] rows of that user that refer to it
    are gone, and the other tables are as they were.  When the user has no
    such category, the call throws and the database is as it was, the
    references included. *)
Theorem deleteCategory_atomic (userId categoryId : Z) (db : Database) :
  (exists (c : categories.row) (n : nat) (db' : Database),
      find (isCategoryOf userId categoryId) (categories_rows db) = Some c
      /\ deleteCategory userId categoryId db
         = (Ok [Count n; DeletedCategory c], db')
      /\ categories_rows db'
         = filter (fun c => negb (isCategoryOf userId categoryId c))
             (categories_rows db)
      /\ budgets_has_categories_rows db'
         = filter (fun r => negb (refersToCategory userId categoryId r))
             (budgets_has_categories_rows db)
      /\ (forall c', In c' (categories_rows db') ->
            isCategoryOf userId categoryId c' = false)
      /\ (forall r, In r (budgets_has_categories_rows db') ->
            refersToCategory userId categoryId r = false)
      /\ users_rows db' = users_rows db
      /\ accounts_rows db' = accounts_rows db
      /\ transactions_rows db' = transactions_rows db)
  \/ (find (isCategoryOf userId categoryId) (categories_rows db) = None
      /\ deleteCategory userId categoryId db = (Err RecordNotFound, db)).
Proof.
  unfold deleteCategory.
  fold (refersToCategory userId categoryId).
  fold (isCategoryOf userId categoryId).
  unfold transaction, runWrites, budgets_has_categories_deleteMany,
    categories_delete.
  cbn [categories_rows].
  destruct (find (isCategoryOf userId categoryId) (categories_rows db))
    as [c|] eqn:Hfind.
  - left.
    eexists c, _, _.
    split; [reflexivity |]. split; [reflexivity |].
    cbn [categories_rows budgets_has_categories_rows users_rows accounts_rows
         transactions_rows].
    split; [reflexivity |]. split; [reflexivity |].
    split; [intros c' Hc'; now apply filter_negb_none in Hc' |].
    split; [intros r Hr; now apply filter_negb_none in Hr |].
    repeat split.
  - right. split; reflexivity.
Qed.

End DeleteCategory.

(* ================================================================== *)
(** * Lemmas: the user service                                          *)
(* ================================================================== *)

(** Opens a call of the service up to its first database access. *)
Ltac run_call :=
  unfold UserService.bind, UserService.catch,
    UserService.users_findUniqueOrThrow, UserService.truthy.

Section UserServiceFacts.
Import MySql Prisma UserService.
Context {imports : Imports}.

Lemma SessionManager_call (username : string) (mobile : bool) (w : World) :
  SessionManager_generateNewSessionKeyForUser username mobile w
  = (Ok (fst (generateNewSessionKeyForUser username mobile (database w))),
     afterNewSessionKey username mobile w).
Proof.
  unfold SessionManager_generateNewSessionKeyForUser, afterNewSessionKey.
  destruct (generateNewSessionKeyForUser username mobile (database w));
    reflexivity.
Qed.

(** ** The table after an update *)

Lemma updateFirst_found (where_ : users.row -> bool)
    (data : users.row -> users.row) (us : list users.row) (u : users.row) :
  find where_ us = Some u ->
  exists us', updateFirst where_ data us = Some us'
              /\ List.length us' = List.length us
              /\ (forall v, In v us' -> In v us \/ v = data u)
              /\ In (data u) us'.
Proof.
  induction us as [|x rest IH]; cbn [find updateFirst]; [discriminate |].
  destruct (where_ x) eqn:Hx.
  - intros Hu. inversion Hu; subst x.
    exists (data u :: rest).
    split; [reflexivity |]. split; [reflexivity |].
    split; [| now left].
    intros v [Hv | Hv]; [right; now symmetry | left; now right].
  - intros Hu. destruct (IH Hu) as (us' & Hup & Hlen & Hin & Hnew).
    exists (x :: us'). rewrite Hup. cbn [option_map List.length].
    split; [reflexivity |]. split; [now rewrite Hlen |].
    split; [| now right].
    intros v [Hv | Hv]; [left; now left |].
    destruct (Hin v Hv) as [H | H]; [left; now right | now right].
Qed.

(** After the update the user found under the same filter is the updated
    row, when the update keeps the row under the filter. *)
Lemma find_updateFirst (where_ : users.row -> bool)
    (data : users.row -> users.row) (us us' : list users.row) (u : users.row) :
  (forall v, where_ (data v) = where_ v) ->
  find where_ us = Some u ->
  updateFirst where_ data us = Some us' ->
  find where_ us' = Some (data u).
Proof.
  intros Hkeep. revert us'.
  induction us as [|x rest IH]; intros us'; cbn [find updateFirst];
    [discriminate |].
  destruct (where_ x) eqn:Hx.
  - intros Hu Hup. inversion Hu; subst x. inversion Hup; subst us'.
    cbn [find]. now rewrite Hkeep, Hx.
  - intros Hu Hup.
    destruct (updateFirst where_ data rest) as [rest'|]; [| discriminate].
    inversion Hup; subst us'. cbn [find]. rewrite Hx.
    now apply IH.
Qed.

(** ** [createUser] *)

Lemma existsb_false_of_find_none {A : Type} (p : A -> bool) (l : list A) :
  find p l = None -> existsb p l = false.
Proof.
  induction l as [|x l IH]; cbn [existsb find]; [reflexivity |].
  destruct (p x); [discriminate | exact IH].
Qed.

Lemma find_none_of_existsb {A : Type} (p : A -> bool) (l : list A) :
  existsb p l = false -> find p l = None.
Proof.
  induction l as [|x l IH]; cbn [existsb find]; [reflexivity |].
  destruct (p x); [discriminate | exact IH].
Qed.

Lemma find_app_last {A : Type} (p : A -> bool) (l : list A) (a : A) :
  find p l = None -> p a = true -> find p (l ++ [a]) = Some a.
Proof.
  induction l as [|x l IH]; cbn [find app].
  - intros _ ->. reflexivity.
  - destruct (p x); [discriminate | exact IH].
Qed.

Lemma createUser_outcome (AUTO_INCREMENT : Z) (user : usersCreateInput)
    (w : World) :
  match createUser AUTO_INCREMENT user w with
  | (Ok row, w') =>
      users.password row = hashPassword (new_password user)
      /\ users.user_id row = AUTO_INCREMENT
      /\ users.username row = new_username user
      /\ users.email row = new_email user
      /\ users_rows (database w') = (users_rows (database w) ++ [row])%list
      /\ sessionKeyRequests w' = sessionKeyRequests w
      /\ userByName (new_username user) w' = Some row
  | (Err _, w') => w' = w
  end.
Proof.
  unfold createUser, users_create.
  cbn [new_username new_password new_email].
  destruct (existsb _ (users_rows (database w))); [reflexivity |].
  destruct (existsb _ (users_rows (database w))) eqn:Htaken; [reflexivity |].
  cbn [users.password users.username users.email users.user_id database
       users_rows withUsers sessionKeyRequests].
  repeat split.
  unfold userByName, findUnique, withUsers. cbn [database users_rows].
  apply find_app_last.
  - now apply find_none_of_existsb.
  - cbn [users.username]. apply String.eqb_refl.
Qed.

(** [createUser] succeeds when the id it is handed and the username are
    new to the table. *)
Lemma createUser_succeeds (AUTO_INCREMENT : Z) (user : usersCreateInput)
    (w : World) :
  userById AUTO_INCREMENT w = None ->
  userByName (new_username user) w = None ->
  exists row w', createUser AUTO_INCREMENT user w = (Ok row, w').
Proof.
  unfold userById, userByName, findUnique. intros Hid Hname.
  unfold createUser, users_create.
  cbn [new_username new_password new_email].
  rewrite (existsb_false_of_find_none _ _ Hid).
  rewrite (existsb_false_of_find_none _ _ Hname).
  eexists. eexists. reflexivity.
Qed.

Lemma createUser_through_hash (AUTO_INCREMENT : Z)
    (user1 user2 : usersCreateInput) (w : World) :
  new_username user1 = new_username user2 ->
  new_email user1 = new_email user2 ->
  hashPassword (new_password user1) = hashPassword (new_password user2) ->
  createUser AUTO_INCREMENT user1 w = createUser AUTO_INCREMENT user2 w.
Proof.
  intros Hname Hmail Hhash. unfold createUser.
  now rewrite Hname, Hmail, Hhash.
Qed.

(** ** [changeUserPassword] *)

Lemma changeUserPassword_success (userId : Z)
    (currentPassword newPassword : string) (mobile : bool) (w : World)
    (data : users.row) :
  userById userId w = Some data ->
  verifyPassword currentPassword (users.password data) = true ->
  exists us',
    updateFirst (fun u => users.user_id u =? userId)
      (setPassword (hashPassword newPassword)) (users_rows (database w))
    = Some us'
    /\ changeUserPassword userId currentPassword newPassword mobile w
       = (Ok tt,
          afterNewSessionKey (users.username data) mobile
            (mkWorld (withUsers (database w) us') (sessionKeyRequests w)))
    /\ find (fun u => users.user_id u =? userId) us'
       = Some (setPassword (hashPassword newPassword) data)
    /\ (forall v, In v us' ->
          In v (users_rows (database w))
          \/ v = setPassword (hashPassword newPassword) data).
Proof.
  unfold userById, findUnique. intros Hfound Hvalid.
  destruct (updateFirst_found _ (setPassword (hashPassword newPassword)) _ _
              Hfound)
    as (us' & Hup & _ & Hin & _).
  exists us'. split; [exact Hup |].
  split; [| split; [| exact Hin]].
  - unfold changeUserPassword. run_call. unfold users_update, findUnique.
    rewrite Hfound, Hvalid. cbn [negb].
    rewrite Hfound, Hup.
    rewrite SessionManager_call. reflexivity.
  - apply (find_updateFirst (fun u => users.user_id u =? userId)
             (setPassword (hashPassword newPassword))
             (users_rows (database w)) us' data);
      [intros v; reflexivity | exact Hfound | exact Hup].
Qed.

Lemma changeUserPassword_through_hash (userId : Z)
    (currentPassword newPassword1 newPassword2 : string) (mobile : bool)
    (w : World) :
  hashPassword newPassword1 = hashPassword newPassword2 ->
  changeUserPassword userId currentPassword newPassword1 mobile w
  = changeUserPassword userId currentPassword newPassword2 mobile w.
Proof.
  intros Hhash. unfold changeUserPassword. now rewrite Hhash.
Qed.

Lemma changeUserPassword_no_user (userId : Z)
    (currentPassword newPassword : string) (mobile : bool) (w : World) :
  userById userId w = None ->
  changeUserPassword userId currentPassword newPassword mobile w
  = (Err (NotAuthorized "User Not Found"), w).
Proof.
  unfold userById. intros Hnone.
  unfold changeUserPassword. run_call.
  now rewrite Hnone.
Qed.

Lemma changeUserPassword_wrong_password (userId : Z)
    (currentPassword newPassword : string) (mobile : bool) (w : World)
    (data : users.row) :
  userById userId w = Some data ->
  verifyPassword currentPassword (users.password data) = false ->
  changeUserPassword userId currentPassword newPassword mobile w
  = (Err (NotAuthorized "Wrong credentials"), w).
Proof.
  unfold userById. intros Hfound Hinvalid.
  unfold changeUserPassword. run_call.
  now rewrite Hfound, Hinvalid.
Qed.

(** Two tables of the same credentials answer an id alike. *)
Lemma find_by_id_credentials (userId : Z) (us1 us2 : list users.row) :
  map credentials us1 = map credentials us2 ->
  match find (fun u => users.user_id u =? userId) us1,
        find (fun u => users.user_id u =? userId) us2 with
  | Some u1, Some u2 => credentials u1 = credentials u2
  | None, None => True
  | _, _ => False
  end.
Proof.
  revert us2.
  induction us1 as [|x us1 IH]; intros [|y us2]; cbn [map find];
    try discriminate; [trivial |].
  intros Heq. inversion Heq as [[Hid Hname Hpass Hrest]].
  rewrite Hid.
  destruct (users.user_id y =? userId).
  - unfold credentials. congruence.
  - now apply IH.
Qed.

End UserServiceFacts.

Section UserServiceClaims.
Import MySql Prisma UserService.
Context {imports : Imports}.

(** C5.  [createUser] succeeds when the id the table hands out and the
    username are new; whenever it succeeds, the password field of the row
    it stores is [hashPassword] of the supplied password, and when it
    throws nothing is stored.  [changeUserPassword], when the user exists
    and the current password verifies, succeeds and writes one row, the
    user's, whose password field is [hashPassword] of the new password and
    whose other fields are as they were; where the session manager, which
    runs next, writes no credentials, that is the password of the user when
    the call is over.  Either call depends on the plaintext through
    [hashPassword] alone: two plaintexts of one hash leave the same result
    and the same world, so the plaintext is not stored. *)
Theorem passwords_stored_as_hash :
  (forall (AUTO_INCREMENT : Z) (user : usersCreateInput) (w : World),
     userById AUTO_INCREMENT w = None ->
     userByName (new_username user) w = None ->
     exists row w', createUser AUTO_INCREMENT user w = (Ok row, w'))
  /\ (forall (AUTO_INCREMENT : Z) (user : usersCreateInput) (w w' : World)
             (row : users.row),
        createUser AUTO_INCREMENT user w = (Ok row, w') ->
        users.password row = hashPassword (new_password user)
        /\ users.user_id row = AUTO_INCREMENT
        /\ users.username row = new_username user
        /\ users.email row = new_email user
        /\ users_rows (database w') = (users_rows (database w) ++ [row])%list
        /\ sessionKeyRequests w' = sessionKeyRequests w
        /\ userByName (new_username user) w' = Some row)
  /\ (forall (AUTO_INCREMENT : Z) (user : usersCreateInput) (w w' : World)
             (e : Error),
        createUser AUTO_INCREMENT user w = (Err e, w') -> w' = w)
  /\ (forall (AUTO_INCREMENT : Z) (user1 user2 : usersCreateInput) (w : World),
        new_username user1 = new_username user2 ->
        new_email user1 = new_email user2 ->
        hashPassword (new_password user1) = hashPassword (new_password user2) ->
        createUser AUTO_INCREMENT user1 w = createUser AUTO_INCREMENT user2 w)
  /\ (forall (userId : Z) (currentPassword newPassword : string)
             (mobile : bool) (w : World) (data : users.row),
        userById userId w = Some data ->
        verifyPassword currentPassword (users.password data) = true ->
        exists (us' : list users.row) (written : users.row),
          changeUserPassword userId currentPassword newPassword mobile w
          = (Ok tt,
             afterNewSessionKey (users.username data) mobile
               (mkWorld (withUsers (database w) us') (sessionKeyRequests w)))
          /\ find (fun u => users.user_id u =? userId) us' = Some written
          /\ users.password written = hashPassword newPassword
          /\ users.user_id written = users.user_id data
          /\ users.username written = users.username data
          /\ users.email written = users.email data
          /\ users.sessionkey written = users.sessionkey data
          /\ users.sessionkey_mobile written = users.sessionkey_mobile data
          /\ users.trustlimit written = users.trustlimit data
          /\ users.trustlimit_mobile written = users.trustlimit_mobile data
          /\ users.last_update_timestamp written
             = users.last_update_timestamp data
          /\ List.length us' = List.length (users_rows (database w))
          /\ (forall v, In v us' ->
                In v (users_rows (database w)) \/ v = written))
  /\ (keepsCredentials ->
      forall (userId : Z) (currentPassword newPassword : string)
             (mobile : bool) (w w' : World),
        changeUserPassword userId currentPassword newPassword mobile w
        = (Ok tt, w') ->
        exists written : users.row,
          userById userId w' = Some written
          /\ users.password written = hashPassword newPassword)
  /\ (forall (userId : Z) (currentPassword newPassword1 newPassword2 : string)
             (mobile : bool) (w : World),
        hashPassword newPassword1 = hashPassword newPassword2 ->
        changeUserPassword userId currentPassword newPassword1 mobile w
        = changeUserPassword userId currentPassword newPassword2 mobile w).
Proof.
  split; [exact createUser_succeeds |].
  split.
  { intros AUTO_INCREMENT user w w' row Hrun.
    pose proof (createUser_outcome AUTO_INCREMENT user w) as Hout.
    rewrite Hrun in Hout. exact Hout. }
  split.
  { intros AUTO_INCREMENT user w w' e Hrun.
    pose proof (createUser_outcome AUTO_INCREMENT user w) as Hout.
    rewrite Hrun in Hout. exact Hout. }
  split; [exact createUser_through_hash |].
  split.
  { intros userId currentPassword newPassword mobile w data Hbyid Hvalid.
    destruct (changeUserPassword_success userId currentPassword newPassword
                mobile w data Hbyid Hvalid)
      as (us' & Hup & Hrun & Hfound & Hin).
    destruct (updateFirst_found _ (setPassword (hashPassword newPassword)) _ _
                Hbyid) as (us'' & Hup' & Hlen & _ & _).
    rewrite Hup in Hup'. injection Hup' as <-.
    exists us', (setPassword (hashPassword newPassword) data).
    split; [exact Hrun |]. split; [exact Hfound |].
    split; [reflexivity |].
    repeat (split; [reflexivity |]).
    split; [exact Hlen | exact Hin]. }
  split; [| exact changeUserPassword_through_hash].
  intros Hkeeps userId currentPassword newPassword mobile w w' Hrun.
  destruct (userById userId w) as [data|] eqn:Hbyid.
  2: { rewrite (changeUserPassword_no_user userId currentPassword newPassword
                  mobile w Hbyid) in Hrun. discriminate. }
  destruct (verifyPassword currentPassword (users.password data)) eqn:Hvalid.
  2: { rewrite (changeUserPassword_wrong_password userId currentPassword
                  newPassword mobile w data Hbyid Hvalid) in Hrun.
       discriminate. }
  destruct (changeUserPassword_success userId currentPassword newPassword
              mobile w data Hbyid Hvalid) as (us' & _ & Hrun' & Hfound & _).
  rewrite Hrun' in Hrun. injection Hrun as <-. clear Hrun'.
  pose proof (find_by_id_credentials userId
                (users_rows
                   (snd (generateNewSessionKeyForUser (users.username data)
                           mobile (withUsers (database w) us'))))
                us'
                (Hkeeps (users.username data) mobile
                   (withUsers (database w) us'))) as Hsame.
  rewrite Hfound in Hsame.
  unfold userById, findUnique, afterNewSessionKey.
  cbn [database sessionKeyRequests].
  destruct (find _ (users_rows (snd _))) as [u|]; [| contradiction].
  exists u. split; [reflexivity |].
  unfold credentials in Hsame. cbn in Hsame.
  inversion Hsame. congruence.
Qed.

(** C9.  When no user has the id, or the supplied current password does not
    verify against the stored hash, [changeUserPassword] throws a
    not-authorized error and the world is as it was: the users table, the
    password field with it, is unchanged and no session key was asked for.
    Whenever the call throws, the error is a not-authorized one and the
    world is as it was. *)
Theorem changeUserPassword_atomic_on_error (userId : Z)
    (currentPassword newPassword : string) (mobile : bool) (w : World) :
  (userById userId w = None ->
   changeUserPassword userId currentPassword newPassword mobile w
   = (Err (NotAuthorized "User Not Found"), w))
  /\ (forall data : users.row,
        userById userId w = Some data ->
        verifyPassword currentPassword (users.password data) = false ->
        changeUserPassword userId currentPassword newPassword mobile w
        = (Err (NotAuthorized "Wrong credentials"), w))
  /\ (forall e : Error,
        fst (changeUserPassword userId currentPassword newPassword mobile w)
        = Err e ->
        snd (changeUserPassword userId currentPassword newPassword mobile w) = w
        /\ exists message, e = NotAuthorized message).
Proof.
  split; [apply changeUserPassword_no_user |].
  split; [apply changeUserPassword_wrong_password |].
  intros e Herr.
  destruct (userById userId w) as [data|] eqn:Hfound.
  - destruct (verifyPassword currentPassword (users.password data)) eqn:Hvalid.
    + destruct (changeUserPassword_success userId currentPassword newPassword
                  mobile w data Hfound Hvalid) as (us' & _ & Hrun & _).
      rewrite Hrun in Herr. discriminate.
    + rewrite (changeUserPassword_wrong_password userId currentPassword
                 newPassword mobile w data Hfound Hvalid) in *.
      cbn [fst snd] in *. inversion Herr; subst e.
      split; [reflexivity | eexists; reflexivity].
  - rewrite (changeUserPassword_no_user userId currentPassword newPassword
               mobile w Hfound) in *.
    cbn [fst snd] in *. inversion Herr; subst e.
    split; [reflexivity | eexists; reflexivity].
Qed.

(** ** [attemptLogin] *)

Lemma attemptLogin_no_user (username password : string) (mobile : bool)
    (w : World) :
  userByName username w = None ->
  attemptLogin username password mobile w
  = (Err (NotAuthorized "User Not Found"), w).
Proof.
  unfold userByName. intros Hnone.
  unfold attemptLogin. run_call.
  now rewrite Hnone.
Qed.

Lemma attemptLogin_wrong_password (username password : string) (mobile : bool)
    (w : World) (data : users.row) :
  userByName username w = Some data ->
  verifyPassword password (users.password data) = false ->
  attemptLogin username password mobile w
  = (Err (NotAuthorized "Wrong Credentials"), w).
Proof.
  unfold userByName. intros Hfound Hinvalid.
  unfold attemptLogin. run_call.
  now rewrite Hfound, Hinvalid.
Qed.

Lemma attemptLogin_success (username password : string) (mobile : bool)
    (w : World) (data : users.row) :
  userByName username w = Some data ->
  verifyPassword password (users.password data) = true ->
  attemptLogin username password mobile w
  = (Ok (mkLoginResponse
           (users.user_id data) (users.username data) (users.email data)
           (if mobile then users.sessionkey data
            else Some (newSessionKey username mobile w))
           (if mobile then Some (newSessionKey username mobile w)
            else users.sessionkey_mobile data)
           (users.last_update_timestamp data)
           (accountsWithBalance
              (getAccountsForUser (users.user_id data)
                 (database (afterNewSessionKey username mobile w))))),
     afterNewSessionKey username mobile w).
Proof.
  unfold userByName. intros Hfound Hvalid.
  unfold attemptLogin. run_call.
  rewrite Hfound, Hvalid.
  rewrite SessionManager_call.
  unfold AccountService_getAccountsForUser, ret, newSessionKey,
    accountsWithBalance.
  destruct mobile; reflexivity.
Qed.

(** C6.  [attemptLogin] throws a not-authorized error exactly when no user
    has the username or the password does not verify against the stored
    hash: User Not Found in the first case, Wrong Credentials in the second,
    the world left as it was.  Otherwise it asks for one new session key and
    answers the user's id, username and email, the new key in the mobile or
    the desktop slot as [mobile] says (the other slot holding the stored
    key), the last update timestamp and the user's accounts with their
    balances. *)
Theorem attemptLogin_outcomes (username password : string) (mobile : bool)
    (w : World) :
  ((exists message,
       fst (attemptLogin username password mobile w)
       = Err (NotAuthorized message))
   <-> (userByName username w = None
        \/ exists data, userByName username w = Some data
                        /\ verifyPassword password (users.password data) = false))
  /\ (userByName username w = None ->
      attemptLogin username password mobile w
      = (Err (NotAuthorized "User Not Found"), w))
  /\ (forall data : users.row,
        userByName username w = Some data ->
        verifyPassword password (users.password data) = false ->
        attemptLogin username password mobile w
        = (Err (NotAuthorized "Wrong Credentials"), w))
  /\ (forall data : users.row,
        userByName username w = Some data ->
        verifyPassword password (users.password data) = true ->
        exists response : LoginResponse,
          attemptLogin username password mobile w
          = (Ok response, afterNewSessionKey username mobile w)
          /\ res_user_id response = users.user_id data
          /\ res_username response = users.username data
          /\ res_email response = users.email data
          /\ (if mobile
              then res_sessionkey_mobile response
                   = Some (newSessionKey username mobile w)
                   /\ res_sessionkey response = users.sessionkey data
              else res_sessionkey response
                   = Some (newSessionKey username mobile w)
                   /\ res_sessionkey_mobile response
                      = users.sessionkey_mobile data)
          /\ res_last_update_timestamp response
             = users.last_update_timestamp data
          /\ res_accounts response
             = accountsWithBalance
                 (getAccountsForUser (users.user_id data)
                    (database (afterNewSessionKey username mobile w)))
          /\ sessionKeyRequests (afterNewSessionKey username mobile w)
             = (username, mobile) :: sessionKeyRequests w).
Proof.
  split; [| split; [apply attemptLogin_no_user |
                    split; [apply attemptLogin_wrong_password |]]].
  - destruct (userByName username w) as [data|] eqn:Hfound.
    + destruct (verifyPassword password (users.password data)) eqn:Hvalid.
      * rewrite (attemptLogin_success username password mobile w data
                   Hfound Hvalid).
        split.
        -- intros [message Herr]. discriminate.
        -- intros [Hnone | (data' & Hsome & Hinvalid)]; [discriminate |].
           inversion Hsome; subst data'. congruence.
      * rewrite (attemptLogin_wrong_password username password mobile w data
                   Hfound Hvalid).
        split.
        -- intros _. right. exists data. split; [reflexivity | exact Hvalid].
        -- intros _. eexists. reflexivity.
    + rewrite (attemptLogin_no_user username password mobile w Hfound).
      split.
      * intros _. now left.
      * intros _. eexists. reflexivity.
  - intros data Hfound Hvalid.
    eexists. split.
    + apply (attemptLogin_success username password mobile w data Hfound Hvalid).
    + cbn [res_user_id res_username res_email res_sessionkey
           res_sessionkey_mobile res_last_update_timestamp res_accounts].
      destruct mobile; repeat split.
Qed.

End UserServiceClaims.

Section UserServiceSamples.
Import MySql Prisma UserService.

(** C5 at the creation of bob, handed the id 2, and at a change of alice's
    password: the rows stored hold the hashes, here the plaintext behind a
    tag. *)
Lemma passwords_stored_as_hash_sample :
  (userById 2 aliceWorld = None
   /\ userByName (new_username bob) aliceWorld = None
   /\ userById 1 aliceWorld = Some alice
   /\ @verifyPassword sampleServices "secret" (users.password alice) = true)
  /\ (exists row w',
        @createUser sampleServices 2 bob aliceWorld = (Ok row, w')
        /\ users.password row = "hash:hunter2"
        /\ userByName "bob" w' = Some row)
  /\ (exists (us' : list users.row) (written : users.row),
        @changeUserPassword sampleServices 1 "secret" "better" false aliceWorld
        = (Ok tt,
           @afterNewSessionKey sampleServices "alice" false
             (mkWorld (withUsers (database aliceWorld) us')
                (sessionKeyRequests aliceWorld)))
        /\ find (fun u => users.user_id u =? 1) us' = Some written
        /\ users.password written = "hash:better").
Proof.
  destruct (@passwords_stored_as_hash sampleServices)
    as (Hsucceeds & Hcreated & _ & _ & Hchanged & _).
  split; [repeat split |].
  split.
  - destruct (Hsucceeds 2 bob aliceWorld eq_refl eq_refl) as (row & w' & Hrun).
    destruct (Hcreated 2 bob aliceWorld w' row Hrun)
      as (Hhash & _ & _ & _ & _ & _ & Hfound).
    exists row, w'. split; [exact Hrun |]. split; [exact Hhash | exact Hfound].
  - destruct (Hchanged 1 "secret" "better" false aliceWorld alice
                eq_refl eq_refl)
      as (us' & written & Hrun & Hfound & Hhash & _).
    exists us', written.
    split; [exact Hrun |]. split; [exact Hfound | exact Hhash].
Defined.

(** C9 at a wrong current password. *)
Lemma changeUserPassword_atomic_on_error_sample :
  (userById 1 aliceWorld = Some alice
   /\ @verifyPassword sampleServices "guess" (users.password alice) = false)
  /\ @changeUserPassword sampleServices 1 "guess" "better" false aliceWorld
     = (Err (NotAuthorized "Wrong credentials"), aliceWorld).
Proof.
  split; [split; reflexivity |].
  apply (proj1 (proj2 (@changeUserPassword_atomic_on_error sampleServices
                         1 "guess" "better" false aliceWorld)) alice);
    reflexivity.
Defined.

(** C6 at a login that succeeds, from a desktop. *)
Lemma attemptLogin_outcomes_sample :
  (userByName "alice" aliceWorld = Some alice
   /\ @verifyPassword sampleServices "secret" (users.password alice) = true)
  /\ exists response : @LoginResponse sampleServices,
       @attemptLogin sampleServices "alice" "secret" false aliceWorld
       = (Ok response, @afterNewSessionKey sampleServices "alice" false aliceWorld)
       /\ res_user_id response = 1
       /\ res_username response = "alice"
       /\ res_email response = "alice@example.org"
       /\ res_sessionkey response = Some "key-of-alice"
       /\ res_sessionkey_mobile response = None
       /\ res_accounts response
          = [(accounts.mk 3 "current" false (Some 1500) 1, 1500)].
Proof.
  split; [split; reflexivity |].
  destruct (proj2 (proj2 (proj2 (@attemptLogin_outcomes sampleServices
                                   "alice" "secret" false aliceWorld)))
              alice eq_refl eq_refl)
    as (response & Hrun & Hid & Hname & Hmail & [Hkey Hmobile] & _ & Haccounts & _).
  exists response.
  split; [exact Hrun |].
  split; [exact Hid |]. split; [exact Hname |]. split; [exact Hmail |].
  split; [exact Hkey |]. split; [exact Hmobile |]. exact Haccounts.
Defined.

End UserServiceSamples.

(* ================================================================== *)
(** * Lemmas: creating, updating and deleting categories                *)
(* ================================================================== *)

Section CategoryWrites.
Import MySql Prisma MySqlGroups PrismaCategories CategoryService
  CategoryServiceRest.
Context {schema : Schema}.

Lemma getAllCategoriesForUser_categoriesOf (userId : Z)
    (select : option categoriesSelect) (db : Database) :
  getAllCategoriesForUser userId select db
  = map (selectFrom select) (categoriesOf userId db).
Proof. reflexivity. Qed.

Lemma getCountOfUserCategories_categoriesOf (userId : Z) (db : Database) :
  getCountOfUserCategories userId db = List.length (categoriesOf userId db).
Proof. reflexivity. Qed.

Lemma existsb_hasCategoryId (categoryId : Z) (cs : list categories.row) :
  existsb (hasCategoryId categoryId) cs = false <->
  forall c, In c cs -> categories.category_id c <> categoryId.
Proof.
  unfold hasCategoryId. split.
  - intros Hnone c Hc Heq.
    assert (Hsome : existsb (fun c => categories.category_id c =? categoryId) cs
                    = true).
    { apply existsb_exists. exists c. split; [exact Hc | now apply Z.eqb_eq]. }
    congruence.
  - intros Hall.
    destruct (existsb _ cs) eqn:Hsome; [| reflexivity].
    apply existsb_exists in Hsome. destruct Hsome as (c & Hc & Heq).
    apply Z.eqb_eq in Heq. now destruct (Hall c Hc).
Qed.

(** X4.  When [createCategory] succeeds, the new row holds the attributes it
    was given, under the id the data names or else the one the table hands
    out, which no category had; the table holds it beside the rows it had;
    for any attributes selected, [getAllCategoriesForUser] answers for its
    owner what it answered and the new row; [getCountOfUserCategories]
    counts one more for the owner; and the categories of every other user
    are as they were.  When it throws, the database is as it was.  It
    succeeds when no category has the id and the unique constraints admit
    the row. *)
Theorem createCategory_listed (AUTO_INCREMENT : Z)
    (category : categoriesCreateInput) (db : Database) :
  match createCategory AUTO_INCREMENT category db with
  | (Ok row, db') =>
      setOrKept (new_category_id category) AUTO_INCREMENT
        (categories.category_id row)
      /\ categories.name row = new_name category
      /\ categories.type row = new_type category
      /\ categories.description row = new_description category
      /\ categories.color_gradient row = new_color_gradient category
      /\ categories.status row = new_status category
      /\ categories.exclude_from_budgets row = new_exclude_from_budgets category
      /\ categories.users_user_id row = new_users_user_id category
      /\ (forall c, In c (categories_rows db) ->
            categories.category_id c <> categories.category_id row)
      /\ (forall c, In c (categories_rows db') <->
            In c (categories_rows db) \/ c = row)
      /\ (forall select s,
            namesAnAttribute select = true ->
            (In s (getAllCategoriesForUser (new_users_user_id category) select
                     db')
             <-> In s (getAllCategoriesForUser (new_users_user_id category)
                         select db)
                 \/ s = selectFrom select row))
      /\ getCountOfUserCategories (new_users_user_id category) db'
         = S (getCountOfUserCategories (new_users_user_id category) db)
      /\ (forall userId select,
            userId <> new_users_user_id category ->
            getAllCategoriesForUser userId select db'
            = getAllCategoriesForUser userId select db
            /\ getCountOfUserCategories userId db'
               = getCountOfUserCategories userId db)
  | (Err _, db') => db' = db
  end
  /\ ((forall c, In c (categories_rows db) ->
         categories.category_id c
         <> categories.category_id (createdCategory AUTO_INCREMENT category)) ->
      categoriesAdmit (categories_rows db)
        (createdCategory AUTO_INCREMENT category) = true ->
      exists db',
        createCategory AUTO_INCREMENT category db
        = (Ok (createdCategory AUTO_INCREMENT category), db')).
Proof.
  unfold createCategory, categories_create.
  assert (Hrow : categories.mk (orKeep (new_category_id category) AUTO_INCREMENT)
                   (new_name category) (new_type category)
                   (new_description category) (new_color_gradient category)
                   (new_status category) (new_exclude_from_budgets category)
                   (new_users_user_id category)
                 = createdCategory AUTO_INCREMENT category)
    by (unfold createdCategory, orKeep; reflexivity).
  rewrite Hrow.
  set (row := createdCategory AUTO_INCREMENT category).
  split.
  2: { intros Hfresh Hadmits.
       apply existsb_hasCategoryId in Hfresh.
       rewrite Hfresh, Hadmits. eexists. reflexivity. }
  destruct (existsb _ (categories_rows db)) eqn:Hpk; [reflexivity |].
  destruct (categoriesAdmit (categories_rows db) row); [| reflexivity].
  assert (Hown : forall userId,
             categoriesOf userId
               (withCategories db (categories_rows db ++ [row]))
             = (categoriesOf userId db
                ++ if new_users_user_id category =? userId
                   then [row] else [])%list).
  { intros userId. unfold categoriesOf, withCategories.
    cbn [categories_rows]. rewrite filter_app. cbn [filter].
    reflexivity. }
  split.
  { unfold setOrKept, row, createdCategory. cbn [categories.category_id].
    destruct (new_category_id category); reflexivity. }
  do 7 (split; [reflexivity |]).
  split; [now apply existsb_hasCategoryId |].
  split.
  { intros c. unfold withCategories. cbn [categories_rows].
    rewrite in_app_iff. cbn [In].
    split; (intros [H | H]; [now left | right]).
    - destruct H as [H | []]. now symmetry.
    - left. now symmetry. }
  split.
  { intros select s _. rewrite !getAllCategoriesForUser_categoriesOf, Hown.
    rewrite Z.eqb_refl, map_app, in_app_iff. cbn [map In].
    split; (intros [H | H]; [now left | right]).
    - destruct H as [H | []]. now symmetry.
    - left. now symmetry. }
  split.
  { rewrite !getCountOfUserCategories_categoriesOf, Hown.
    rewrite Z.eqb_refl, length_app. cbn [List.length]. lia. }
  intros userId select Hother.
  rewrite !getAllCategoriesForUser_categoriesOf,
    !getCountOfUserCategories_categoriesOf, Hown.
  assert (Hneq : (new_users_user_id category =? userId) = false)
    by (apply Z.eqb_neq; congruence).
  rewrite Hneq, app_nil_r. split; reflexivity.
Qed.

End CategoryWrites.

Section CategoryUpdates.
Import MySql Prisma MySqlGroups PrismaCategories CategoryService
  CategoryServiceRest.
Context {schema : Schema}.

(** ** The table after a replacement *)

Lemma replaceFirst_length {A : Type} (p : A -> bool) (f : A -> A) (l : list A) :
  List.length (replaceFirst p f l) = List.length l.
Proof.
  induction l as [|x l IH]; cbn [replaceFirst]; [reflexivity |].
  destruct (p x); cbn [List.length]; [reflexivity | now rewrite IH].
Qed.

(** What a filter counts after a replacement: the replaced row no more, its
    image instead. *)
Lemma replaceFirst_filter_count {A : Type} (p q : A -> bool) (f : A -> A)
    (l : list A) (c : A) :
  find p l = Some c ->
  (List.length (filter q (replaceFirst p f l)) + (if q c then 1 else 0)
   = List.length (filter q l) + (if q (f c) then 1 else 0))%nat.
Proof.
  induction l as [|x l IH]; cbn [find replaceFirst filter]; [discriminate |].
  destruct (p x).
  - intros Heq. inversion Heq; subst x. cbn [filter].
    destruct (q c); destruct (q (f c)); cbn [List.length]; lia.
  - intros Hfind. specialize (IH Hfind). cbn [filter].
    destruct (q x); cbn [List.length]; lia.
Qed.

Lemma replaceFirst_filter_other {A : Type} (p q : A -> bool) (f : A -> A)
    (l : list A) (c : A) :
  find p l = Some c ->
  q c = false ->
  q (f c) = false ->
  filter q (replaceFirst p f l) = filter q l.
Proof.
  intros Hfind Hc Hfc. revert Hfind.
  induction l as [|x l IH]; cbn [find replaceFirst filter]; [discriminate |].
  destruct (p x).
  - intros Heq. inversion Heq; subst x. cbn [filter].
    now rewrite Hc, Hfc.
  - intros Hfind. cbn [filter]. now rewrite (IH Hfind).
Qed.

Lemma replaceFirst_found {A : Type} (p : A -> bool) (f : A -> A) (l : list A)
    (c : A) :
  find p l = Some c -> In (f c) (replaceFirst p f l).
Proof.
  induction l as [|x l IH]; cbn [find replaceFirst]; [discriminate |].
  destruct (p x).
  - intros Heq. inversion Heq; subst. now left.
  - intros Hfind. right. now apply IH.
Qed.

Lemma replaceFirst_In {A : Type} (p : A -> bool) (f : A -> A) (l : list A)
    (c v : A) :
  find p l = Some c ->
  (In v (replaceFirst p f l) -> In v l \/ v = f c)
  /\ (In v l -> v = c \/ In v (replaceFirst p f l)).
Proof.
  induction l as [|x l IH]; cbn [find replaceFirst]; [discriminate |].
  destruct (p x).
  - intros Heq. inversion Heq; subst x. split.
    + intros [H | H]; [right; now symmetry | left; now right].
    + intros [H | H]; [left; now symmetry | right; now right].
  - intros Hfind. destruct (IH Hfind) as [Hafter Hbefore]. split.
    + intros [H | H]; [left; now left |].
      destruct (Hafter H) as [H' | H']; [left; now right | now right].
    + intros [H | H]; [right; now left |].
      destruct (Hbefore H) as [H' | H']; [now left | right; now right].
Qed.

Lemma find_none_when {A : Type} (p : A -> bool) (l : list A) :
  (forall x, In x l -> p x = false) -> find p l = None.
Proof.
  induction l as [|x l IH]; cbn [find]; [reflexivity |].
  intros Hall. rewrite (Hall x (or_introl eq_refl)).
  apply IH. intros y Hy. apply Hall. now right.
Qed.

Lemma setOrKept_orKeep {A : Type} (named : option A) (before : A) :
  setOrKept named before (orKeep named before).
Proof.
  destruct named; reflexivity.
Qed.

(** X5.  When [updateCategory] succeeds, the row it answers is the image of
    a category that belonged to the user and had the id it was given: each
    attribute the data names, the id and the owner among them, has the
    value named, and each other attribute is as it was.  The table holds
    that row in the place of the category and every other row as it was.
    The category counts no more for the user and its image counts for the
    owner it now has, so that every count is as it was when the data names
    no owner; the categories of a user who is neither are as they were.
    When it throws, the database is as it was; and it throws, nothing being
    found, whenever the user has no category of that id, whoever else has
    one. *)
Theorem updateCategory_own_category (userId categoryId : Z)
    (category : categoriesUpdateInput) (db : Database) :
  match updateCategory userId categoryId category db with
  | (Ok row, db') =>
      exists c,
        In c (categories_rows db)
        /\ categories.users_user_id c = userId
        /\ categories.category_id c = categoryId
        /\ setOrKept (set_category_id category) (categories.category_id c)
             (categories.category_id row)
        /\ setOrKept (set_name category) (categories.name c)
             (categories.name row)
        /\ setOrKept (set_type category) (categories.type c)
             (categories.type row)
        /\ setOrKept (set_description category) (categories.description c)
             (categories.description row)
        /\ setOrKept (set_color_gradient category) (categories.color_gradient c)
             (categories.color_gradient row)
        /\ setOrKept (set_status category) (categories.status c)
             (categories.status row)
        /\ setOrKept (set_exclude_from_budgets category)
             (categories.exclude_from_budgets c)
             (categories.exclude_from_budgets row)
        /\ setOrKept (set_users_user_id category) (categories.users_user_id c)
             (categories.users_user_id row)
        /\ In row (categories_rows db')
        /\ List.length (categories_rows db') = List.length (categories_rows db)
        /\ (forall v, In v (categories_rows db') ->
              In v (categories_rows db) \/ v = row)
        /\ (forall v, In v (categories_rows db) ->
              v = c \/ In v (categories_rows db'))
        /\ (forall u,
              (getCountOfUserCategories u db' + oneIfOwner c u
               = getCountOfUserCategories u db + oneIfOwner row u)%nat)
        /\ (set_users_user_id category = None ->
            forall u,
              getCountOfUserCategories u db' = getCountOfUserCategories u db)
        /\ (forall u select,
              u <> userId ->
              u <> categories.users_user_id row ->
              getAllCategoriesForUser u select db'
              = getAllCategoriesForUser u select db)
  | (Err _, db') => db' = db
  end
  /\ ((forall c, In c (categories_rows db) ->
         categories.users_user_id c = userId ->
         categories.category_id c <> categoryId) ->
      updateCategory userId categoryId category db = (Err RecordNotFound, db)).
Proof.
  unfold updateCategory, categories_update.
  set (own := fun c : categories.row =>
                (categories.users_user_id c =? userId)
                && (categories.category_id c =? categoryId)).
  split.
  - destruct (find own (categories_rows db)) as [c|] eqn:Hfind;
      [| reflexivity].
    destruct (existsb _ (removeFirst own (categories_rows db)));
      [reflexivity |].
    destruct (categoriesAdmit (removeFirst own (categories_rows db))
                (applyUpdate category c)); [| reflexivity].
    destruct (find_some _ _ Hfind) as [Hin Hown].
    unfold own in Hown. apply andb_true_iff in Hown.
    destruct Hown as [Huser Hid].
    apply Z.eqb_eq in Huser. apply Z.eqb_eq in Hid.
    assert (Hcount : forall u,
              (getCountOfUserCategories u
                 (withCategories db
                    (replaceFirst own (applyUpdate category)
                       (categories_rows db)))
               + oneIfOwner c u
               = getCountOfUserCategories u db
                 + oneIfOwner (applyUpdate category c) u)%nat).
    { intros u. rewrite !getCountOfUserCategories_categoriesOf.
      unfold categoriesOf, withCategories, oneIfOwner. cbn [categories_rows].
      apply (replaceFirst_filter_count own
               (fun x => categories.users_user_id x =? u)
               (applyUpdate category) (categories_rows db) c Hfind). }
    exists c.
    split; [exact Hin |]. split; [exact Huser |]. split; [exact Hid |].
    do 8 (split; [apply setOrKept_orKeep |]).
    split.
    { unfold withCategories. cbn [categories_rows].
      apply (replaceFirst_found own (applyUpdate category) _ c Hfind). }
    split.
    { unfold withCategories. cbn [categories_rows].
      apply replaceFirst_length. }
    split.
    { intros v. unfold withCategories. cbn [categories_rows].
      apply (replaceFirst_In own (applyUpdate category) _ c v Hfind). }
    split.
    { intros v. unfold withCategories. cbn [categories_rows].
      apply (replaceFirst_In own (applyUpdate category) _ c v Hfind). }
    split; [exact Hcount |].
    split.
    { intros Hkept u. specialize (Hcount u).
      assert (Howner : categories.users_user_id (applyUpdate category c)
                       = categories.users_user_id c).
      { unfold applyUpdate. cbn [categories.users_user_id].
        now rewrite Hkept. }
      unfold oneIfOwner in Hcount. rewrite Howner in Hcount.
      destruct (categories.users_user_id c =? u); lia. }
    intros u select Hother Hother'.
    rewrite !getAllCategoriesForUser_categoriesOf.
    unfold categoriesOf, withCategories. cbn [categories_rows].
    f_equal.
    apply (replaceFirst_filter_other own
             (fun x => categories.users_user_id x =? u)
             (applyUpdate category) (categories_rows db) c Hfind).
    + apply Z.eqb_neq. congruence.
    + apply Z.eqb_neq. congruence.
  - intros Hnone.
    rewrite (find_none_when own); [reflexivity |].
    intros x Hx. unfold own.
    destruct (categories.users_user_id x =? userId) eqn:Hu; [| reflexivity].
    apply Z.eqb_eq in Hu. cbn [andb].
    apply Z.eqb_neq. now apply Hnone.
Qed.

End CategoryUpdates.

Section CategoryDeletes.
Import MySql Prisma MySqlGroups PrismaCategories CategoryService
  CategoryServiceRest.
Context {imports : Imports}.

(** What [deleteCategory] comes to, by whether the user has the category. *)
Lemma deleteCategory_result (userId categoryId : Z) (db : Database) :
  deleteCategory userId categoryId db
  = match find (isCategoryOf userId categoryId) (categories_rows db) with
    | Some c =>
        (Ok [ Count (List.length
                       (filter (refersToCategory userId categoryId)
                          (budgets_has_categories_rows db)));
              DeletedCategory c ],
         mkDatabase (users_rows db) (accounts_rows db)
           (filter (fun c => negb (isCategoryOf userId categoryId c))
              (categories_rows db))
           (filter (fun r => negb (refersToCategory userId categoryId r))
              (budgets_has_categories_rows db))
           (transactions_rows db))
    | None => (Err RecordNotFound, db)
    end.
Proof.
  unfold deleteCategory.
  fold (refersToCategory userId categoryId).
  fold (isCategoryOf userId categoryId).
  unfold transaction, runWrites, budgets_has_categories_deleteMany,
    categories_delete.
  cbn [categories_rows].
  destruct (find (isCategoryOf userId categoryId) (categories_rows db));
    reflexivity.
Qed.

(** A row [getAllCategoriesForBudget] answers comes from a category of the
    table that belongs to the user. *)
Lemma budgetCategory_of_table (userId budgetId : Z) (db : Database)
    (row : BudgetCategory) :
  In row (answer (getAllCategoriesForBudget userId budgetId db)) ->
  exists c, In c (categories_rows db)
            /\ categories.users_user_id c = userId
            /\ bc_category_id row = categories.category_id c.
Proof.
  unfold getAllCategoriesForBudget, queryRaw. cbn [answer budgetCategories].
  intros Hin.
  apply in_map_iff in Hin. destruct Hin as ([o c] & Hrow & Hkept).
  apply filter_In in Hkept. destruct Hkept as [Hjoined Hwhere].
  cbn [fst snd] in *.
  apply holds_and in Hwhere. destruct Hwhere as [Huser _].
  apply holds_eq_int in Huser.
  apply in_rightJoinCategories in Hjoined. destruct Hjoined as [Hc _].
  exists c. subst row. cbn [bc_category_id]. repeat split; assumption.
Qed.

Lemma isCategoryOf_spec (userId categoryId : Z) (c : categories.row) :
  isCategoryOf userId categoryId c = true
  <-> categories.users_user_id c = userId
      /\ categories.category_id c = categoryId.
Proof.
  unfold isCategoryOf. rewrite andb_true_iff, !Z.eqb_eq. reflexivity.
Qed.

(** X6.  After [deleteCategory] has succeeded, the user has fewer categories
    and none of the id: neither [getAllCategoriesForUser] nor
    [getAllCategoriesForBudget], for any budget, answers one; the categories
    of the other users are as they were; and deleting the category once
    more throws, nothing being found, and leaves the database as it is. *)
Theorem deleteCategory_then_gone (userId categoryId : Z) (db db' : Database)
    (results : list WriteResult) :
  deleteCategory userId categoryId db = (Ok results, db') ->
  (forall s, In s (getAllCategoriesForUser userId None db') ->
     the_category_id s <> Some categoryId)
  /\ (forall budgetId row,
        In row (answer (getAllCategoriesForBudget userId budgetId db')) ->
        bc_category_id row <> categoryId)
  /\ (getCountOfUserCategories userId db' < getCountOfUserCategories userId db)%nat
  /\ (forall u select,
        u <> userId ->
        getAllCategoriesForUser u select db'
        = getAllCategoriesForUser u select db)
  /\ deleteCategory userId categoryId db' = (Err RecordNotFound, db').
Proof.
  rewrite deleteCategory_result.
  destruct (find (isCategoryOf userId categoryId) (categories_rows db))
    as [c|] eqn:Hfind; [| discriminate].
  intros Hok. injection Hok as _ <-.
  match goal with
  | |- context [getAllCategoriesForUser userId None ?d] => set (db' := d)
  end.
  assert (Hrows : categories_rows db'
                  = filter (fun c => negb (isCategoryOf userId categoryId c))
                      (categories_rows db)) by reflexivity.
  assert (Hgone : forall x, In x (categories_rows db') ->
                    isCategoryOf userId categoryId x = false).
  { intros x Hx. rewrite Hrows in Hx. now apply filter_negb_none in Hx. }
  clearbody db'.
  split.
  { intros s Hs Hid.
    rewrite getAllCategoriesForUser_categoriesOf in Hs.
    apply in_map_iff in Hs. destruct Hs as (x & Hsx & Hx).
    unfold categoriesOf in Hx. apply filter_In in Hx.
    destruct Hx as [Hx Hu]. apply Z.eqb_eq in Hu.
    subst s. cbn in Hid. inversion Hid as [Hid'].
    specialize (Hgone x Hx).
    assert (Hyes : isCategoryOf userId categoryId x = true)
      by (apply isCategoryOf_spec; split; assumption).
    congruence. }
  split.
  { intros budgetId row Hrow Hid.
    destruct (budgetCategory_of_table userId budgetId db' row Hrow)
      as (x & Hx & Hu & Hrx).
    specialize (Hgone x Hx).
    assert (Hyes : isCategoryOf userId categoryId x = true)
      by (apply isCategoryOf_spec; split; congruence).
    congruence. }
  split.
  { rewrite !getCountOfUserCategories_categoriesOf. unfold categoriesOf.
    rewrite Hrows. clear Hrows Hgone.
    induction (categories_rows db) as [|x l IH]; cbn [find] in Hfind;
      [discriminate |].
    cbn [filter].
    destruct (isCategoryOf userId categoryId x) eqn:Hx.
    - apply isCategoryOf_spec in Hx. destruct Hx as [Hu _].
      apply Z.eqb_eq in Hu. rewrite Hu. cbn [negb List.length].
      apply Nat.lt_succ_r.
      clear. induction l as [|y l IH]; cbn [filter List.length]; [lia |].
      destruct (negb (isCategoryOf userId categoryId y)); cbn [filter];
        destruct (categories.users_user_id y =? userId);
        cbn [List.length]; lia.
    - cbn [negb filter].
      specialize (IH Hfind).
      destruct (categories.users_user_id x =? userId); cbn [List.length]; lia. }
  split.
  { intros u select Hother.
    rewrite !getAllCategoriesForUser_categoriesOf. unfold categoriesOf.
    rewrite Hrows. f_equal. clear - Hother.
    induction (categories_rows db) as [|x l IH]; [reflexivity |].
    cbn [filter].
    destruct (isCategoryOf userId categoryId x) eqn:Hx; cbn [negb filter].
    - apply isCategoryOf_spec in Hx. destruct Hx as [Hu _].
      assert (Hneq : (categories.users_user_id x =? u) = false)
        by (apply Z.eqb_neq; congruence).
      now rewrite Hneq.
    - now rewrite IH. }
  rewrite deleteCategory_result.
  rewrite (find_none_when (isCategoryOf userId categoryId)); [reflexivity |].
  exact Hgone.
Qed.

(** X7.  Where no two categories share an id, a [deleteCategory] that
    succeeds takes exactly one category from the user. *)
Theorem deleteCategory_takes_one (userId categoryId : Z) (db db' : Database)
    (results : list WriteResult) :
  NoDup (map categories.category_id (categories_rows db)) ->
  deleteCategory userId categoryId db = (Ok results, db') ->
  S (getCountOfUserCategories userId db') = getCountOfUserCategories userId db
  /\ S (List.length (categories_rows db')) = List.length (categories_rows db).
Proof.
  intros Hnodup. rewrite deleteCategory_result.
  destruct (find (isCategoryOf userId categoryId) (categories_rows db))
    as [c|] eqn:Hfind; [| discriminate].
  intros Hok. injection Hok as _ <-.
  rewrite !getCountOfUserCategories_categoriesOf. unfold categoriesOf.
  cbn [categories_rows].
  induction (categories_rows db) as [|x l IH]; cbn [find] in Hfind;
    [discriminate |].
  cbn [map] in Hnodup. inversion Hnodup as [|? ? Hfresh Hrest]; subst.
  cbn [filter].
  destruct (isCategoryOf userId categoryId x) eqn:Hx.
  - apply isCategoryOf_spec in Hx. destruct Hx as [Hu Hid].
    assert (Hkeep : filter (fun c => negb (isCategoryOf userId categoryId c)) l
                    = l).
    { clear IH Hfind Hrest Hnodup.
      induction l as [|y l IHl]; [reflexivity |].
      cbn [filter].
      assert (Hy : isCategoryOf userId categoryId y = false).
      { destruct (isCategoryOf userId categoryId y) eqn:Hy; [| reflexivity].
        apply isCategoryOf_spec in Hy. destruct Hy as [_ Hyid].
        exfalso. apply Hfresh. cbn [map]. left. congruence. }
      rewrite Hy. cbn [negb]. f_equal. apply IHl.
      intros Hin. apply Hfresh. cbn [map]. now right. }
    cbn [negb]. rewrite Hkeep.
    apply Z.eqb_eq in Hu. rewrite Hu. cbn [List.length]. split; reflexivity.
  - cbn [negb filter]. destruct (IH Hrest Hfind) as [IH1 IH2].
    destruct (categories.users_user_id x =? userId); cbn [List.length];
      split; lia.
Qed.

End CategoryDeletes.

Section CategoriesForBudgetComplete.
Import MySql Prisma CategoryService.
Context {imports : Imports}.

Lemma holds_user_and_status (c : categories.row) (userId : Z) :
  categories.users_user_id c = userId ->
  categories.status c = CATEGORY_STATUS_ACTIVE ->
  holds (sqlAnd (sqlEq (intCol (categories.users_user_id c)) (SqlInt userId))
                (sqlEq (strCol (categories.status c))
                       (SqlStr CATEGORY_STATUS_ACTIVE)))
  = true.
Proof.
  intros -> ->. unfold holds, sqlAnd, intCol, strCol. cbn [sqlEq].
  rewrite Z.eqb_refl, String.eqb_refl. reflexivity.
Qed.

(** X8.  [getAllCategoriesForBudget] leaves out no ACTIVE category of the
    user: each has a row in the answer, under its own id and name.  A
    category for which the budget holds no [budgets_has_categories] row of
    the user is answered all the same, with no budget id and 0.00 for its
    three amounts. *)
Theorem getAllCategoriesForBudget_complete (userId budgetId : Z)
    (db : Database) (c : categories.row) :
  In c (categories_rows db) ->
  categories.users_user_id c = userId ->
  categories.status c = CATEGORY_STATUS_ACTIVE ->
  (exists row,
      In row (answer (getAllCategoriesForBudget userId budgetId db))
      /\ bc_category_id row = categories.category_id c
      /\ bc_name row = categories.name c)
  /\ ((forall r, In r (budgets_has_categories_rows db) ->
         ~ (budgets_has_categories.budgets_users_user_id r = userId
            /\ budgets_has_categories.budgets_budget_id r = budgetId
            /\ budgets_has_categories.categories_category_id r
               = categories.category_id c)) ->
      In (mkBudgetCategory userId (categories.category_id c)
            (categories.name c) (categories.status c) (categories.type c)
            (categories.description c) (categories.color_gradient c) None
            (categories.exclude_from_budgets c)
            (Some (mkDecimal 0 2)) (Some (mkDecimal 0 2))
            (Some (mkDecimal 0 2)))
         (answer (getAllCategoriesForBudget userId budgetId db))).
Proof.
  intros Hc Huser Hstatus.
  unfold getAllCategoriesForBudget, queryRaw. cbn [answer budgetCategories].
  set (b := filter _ (budgets_has_categories_rows db)).
  assert (Hjoin : forall o,
             In (o, c)
                (match
                   filter (fun r =>
                     holds (sqlEq (intCol (categories.category_id c))
                              (intCol (budgets_has_categories.categories_category_id r))))
                     b
                 with
                 | [] => [(None, c)]
                 | matches => map (fun r => (Some r, c)) matches
                 end) ->
             In (o, c)
                (filter (fun bc =>
                   holds (sqlAnd
                            (sqlEq (intCol (categories.users_user_id (snd bc)))
                                   (SqlInt userId))
                            (sqlEq (strCol (categories.status (snd bc)))
                                   (SqlStr CATEGORY_STATUS_ACTIVE))))
                   (rightJoinCategories b (categories_rows db)))).
  { intros o Ho. apply filter_In. split.
    - unfold rightJoinCategories. apply in_flat_map. exists c.
      split; assumption.
    - cbn [snd]. now apply holds_user_and_status. }
  split.
  - destruct (filter (fun r =>
                holds (sqlEq (intCol (categories.category_id c))
                         (intCol (budgets_has_categories.categories_category_id r))))
                b) as [|r0 rest] eqn:Hmatches.
    + eexists. split.
      * apply in_map_iff. exists (None, c). split; [reflexivity |].
        apply Hjoin. now left.
      * split; reflexivity.
    + eexists. split.
      * apply in_map_iff. exists (Some r0, c). split; [reflexivity |].
        apply Hjoin. cbn [map]. now left.
      * split; reflexivity.
  - intros Hnone.
    assert (Hmatches :
              filter (fun r =>
                holds (sqlEq (intCol (categories.category_id c))
                         (intCol (budgets_has_categories.categories_category_id r))))
                b = []).
    { destruct (filter _ b) as [|r0 rest] eqn:Hmatches; [reflexivity |].
      exfalso.
      assert (Hr0 : In r0 (r0 :: rest)) by now left.
      rewrite <- Hmatches in Hr0. apply filter_In in Hr0.
      destruct Hr0 as [Hrb Hcat]. apply holds_eq_int in Hcat.
      unfold b in Hrb. apply filter_In in Hrb. destruct Hrb as [Hrdb Hsel].
      apply holds_and in Hsel. destruct Hsel as [Hu Hbud].
      apply holds_eq_int in Hu. apply holds_eq_int in Hbud.
      apply (Hnone r0 Hrdb). repeat split; congruence. }
    apply in_map_iff. exists (None, c). split.
    + cbn [fst snd option_map]. rewrite !amountColumn_value.
      cbn [storedAmount]. now rewrite Huser.
    + apply Hjoin. rewrite Hmatches. now left.
Qed.

End CategoriesForBudgetComplete.

(* ================================================================== *)
(** * Lemmas: the averages                                              *)
(* ================================================================== *)

Section Averages.
Import MySql Prisma MySqlGroups PrismaCategories CategoryService
  CategoryServiceRest.
Context {server : Server}.

(** ** Groups *)

Lemma in_distinct {K : Type} (eqb : K -> K -> bool) (keys : list K) (k : K) :
  In k (distinct eqb keys) -> In k keys.
Proof.
  induction keys as [|x keys IH]; cbn [distinct In]; [intros [] |].
  intros [-> | Hin]; [now left |].
  apply filter_In in Hin. right. apply IH. apply Hin.
Qed.

(** A group holds a row. *)
Lemma groupBy_nonempty {A K : Type} (eqb : K -> K -> bool) (key : A -> K)
    (rows group : list A) :
  (forall k, eqb k k = true) ->
  In group (groupBy eqb key rows) -> group <> [].
Proof.
  intros Hrefl Hin. unfold groupBy in Hin.
  apply in_map_iff in Hin. destruct Hin as (k & <- & Hk).
  apply in_distinct in Hk. apply in_map_iff in Hk.
  destruct Hk as (r & <- & Hr).
  assert (Hin : In r (filter (fun r' => eqb (key r') (key r)) rows)).
  { apply filter_In. split; [exact Hr | apply Hrefl]. }
  intros Hempty. rewrite Hempty in Hin. exact Hin.
Qed.

Lemma sameMonth_refl (k : Z * Z) : sameMonth k k = true.
Proof. unfold sameMonth. now rewrite !Z.eqb_refl. Qed.

(** ** Sums and averages of integers *)

Lemma fold_sqlAdd_map {A : Type} (f : A -> Z) (l : list A) (acc : Z) :
  fold_left sqlAdd (map (fun a => SqlInt (f a)) l) (Some acc)
  = Some (acc + fold_right (fun a total => f a + total) 0 l).
Proof.
  revert acc.
  induction l as [|a l IH]; intros acc; cbn [map fold_left fold_right].
  - f_equal. lia.
  - cbn [sqlAdd toNumber]. rewrite IH. f_equal. lia.
Qed.

Lemma sqlAvg_ints {A : Type} (f : A -> Z) (a : A) (l : list A) :
  sqlAvg (map (fun x => SqlInt (f x)) (a :: l))
  = Some (mkDecimal
            (roundedQuot
               (fold_right (fun x total => f x + total) 0 (a :: l) * 10 ^ 4)
               (Z.of_nat (List.length (a :: l))))
            4).
Proof.
  unfold sqlAvg, sqlSum.
  cbn [map fold_left sqlAdd toNumber].
  rewrite fold_sqlAdd_map.
  assert (Hall : forall l' : list A,
             filter notNull (map (fun x => SqlInt (f x)) l')
             = map (fun x => SqlInt (f x)) l').
  { induction l' as [|x l' IHl]; cbn [map filter notNull toNumber];
      [reflexivity | now rewrite IHl]. }
  change (SqlInt (f a) :: map (fun x => SqlInt (f x)) l)
    with (map (fun x => SqlInt (f x)) (a :: l)).
  rewrite Hall, length_map.
  unfold sqlDiv. cbn [toNumber fold_right].
  assert (Hpos : (Z.of_nat (List.length (a :: l)) =? 0) = false).
  { apply Z.eqb_neq. cbn [List.length]. lia. }
  rewrite Hpos. reflexivity.
Qed.

(** ** A bound string as a condition *)

(** Whether a string holds as a condition: whether it reads as a number
    other than 0. *)
Lemma holds_string (s : string) :
  holds (SqlStr s) = negb (stringToNumber s =? 0).
Proof.
  unfold holds. cbn [truth]. destruct (stringToNumber s =? 0); reflexivity.
Qed.

Lemma counted_with_condition (s : string) (credit : bool)
    (t : transactions.row) :
  holds (sqlOr (typeIs t (if credit then "I" else "E"))
               (sqlAnd (typeIs t "T") (SqlStr s)))
  = countedInAverage (negb (stringToNumber s =? 0)) credit t.
Proof.
  unfold countedInAverage, typeIs.
  destruct (transactions.type t); destruct credit;
    cbn [trxTypeCode strCol sqlEq String.eqb negb];
    try reflexivity;
    try reflexivity;
    rewrite holds_or_false_and_true; apply holds_string.
Qed.

(** The statement's outer query over any rows, the two conditions bound as
    strings. *)
Lemma averageOfMonths_bound (toCondition fromCondition : string)
    (rows : list transactions.row) :
  averageOfMonths
    (monthlySums (SqlStr toCondition) (SqlStr fromCondition) rows)
  = [ averages.mk
        (averageOver
           (countedInAverage (negb (stringToNumber toCondition =? 0)) true)
           (monthsOf rows))
        (averageOver
           (countedInAverage (negb (stringToNumber fromCondition =? 0)) false)
           (monthsOf rows)) ].
Proof.
  unfold averageOfMonths, monthlySums. fold (monthsOf rows).
  rewrite !map_map. cbn [fst snd].
  assert (Hsum : forall (s : string) (credit : bool) (m : list transactions.row),
             In m (monthsOf rows) ->
             sqlSum (map (fun t =>
                       sqlIf (sqlOr (typeIs t (if credit then "I" else "E"))
                                    (sqlAnd (typeIs t "T") (SqlStr s)))
                             (intCol (transactions.amount t)) (SqlInt 0)) m)
             = SqlInt (sumAmounts
                         (countedInAverage (negb (stringToNumber s =? 0)) credit)
                         m)).
  { intros s credit m Hm. rewrite sqlSum_if.
    rewrite (sqlTotal_ext _ _ m (counted_with_condition s credit)).
    apply (groupBy_nonempty sameMonth) in Hm; [| exact sameMonth_refl].
    destruct m; [congruence | reflexivity]. }
  rewrite (map_ext_in _ _ _ (Hsum toCondition true)).
  rewrite (map_ext_in _ _ _ (Hsum fromCondition false)).
  destruct (monthsOf rows) as [|m months]; [reflexivity |].
  rewrite !sqlAvg_ints. reflexivity.
Qed.

Lemma ofCategory_holds (categoryId : Z) (t : transactions.row) :
  holds (sqlEq (nullableIntCol (transactions.categories_category_id t))
               (SqlInt categoryId))
  = ofCategory categoryId t.
Proof.
  unfold ofCategory.
  destruct (transactions.categories_category_id t) as [c|];
    cbn [nullableIntCol sqlEq]; [| reflexivity].
  destruct (c =? categoryId); reflexivity.
Qed.

(** X9.  [getAverageAmountForCategoryInLifetime] answers one row: over the
    months in which the category has transactions, the average per month of
    the income (credit) and of the expense (debit), to which every transfer
    of the category is added on both sides when no account is marked
    [exclude_from_budgets], and no transfer at all as soon as one account
    is; both averages are [NULL] when the category has no transaction.  The
    condition on the excluded accounts is bound as a string, which holds or
    not whatever the transfer's accounts. *)
Theorem getAverageAmountForCategoryInLifetime_answer (categoryId : Z)
    (db : Database) :
  answer (getAverageAmountForCategoryInLifetime categoryId db)
  = let months :=
      monthsOf (filter (ofCategory categoryId) (transactions_rows db)) in
    [ averages.mk
        (averageOver (countedInAverage (noneExcluded db) true) months)
        (averageOver (countedInAverage (noneExcluded db) false) months) ].
Proof.
  unfold getAverageAmountForCategoryInLifetime, noneExcluded.
  fold (excludedAccounts db).
  rewrite <- (filter_ext _ _ (ofCategory_holds categoryId)).
  destruct (excludedAccounts db) as [|a l];
    cbn [List.length Nat.ltb Nat.leb queryRaw answer lifetimeAverages];
    rewrite averageOfMonths_bound; reflexivity.
Qed.

(** X10.  The rows [getAverageAmountForCategoryInLast12Months] is answered
    are those of the lifetime over the transactions of the category dated
    after the first day of the month twelve months back, that day's
    timestamp left out: transfers count on both sides when no account is
    excluded and not at all otherwise. *)
Theorem getAverageAmountForCategoryInLast12Months_answer (categoryId : Z)
    (db : Database) :
  answerOfLast12Months categoryId db
  = let months :=
      monthsOf
        (filter (fun t =>
                   ofCategory categoryId t
                   && (twelveMonthsBeforeThisMonth
                       <? transactions.date_timestamp t))
                (transactions_rows db)) in
    [ averages.mk
        (averageOver (countedInAverage (noneExcluded db) true) months)
        (averageOver (countedInAverage (noneExcluded db) false) months) ].
Proof.
  unfold answerOfLast12Months, getAverageAmountForCategoryInLast12Months,
    noneExcluded.
  fold (excludedAccounts db).
  assert (Hwhere : forall t,
             holds (sqlAnd
                      (sqlEq (nullableIntCol
                                (transactions.categories_category_id t))
                             (SqlInt categoryId))
                      (sqlGt (intCol (transactions.date_timestamp t))
                             (SqlInt twelveMonthsBeforeThisMonth)))
             = ofCategory categoryId t
               && (twelveMonthsBeforeThisMonth
                   <? transactions.date_timestamp t)).
  { intros t. unfold ofCategory, sqlGt, intCol. cbn [sqlLe].
    rewrite Z.ltb_antisym.
    destruct (transactions.categories_category_id t) as [c|];
      cbn [nullableIntCol sqlEq];
      [destruct (c =? categoryId) |];
      destruct (transactions.date_timestamp t <=? twelveMonthsBeforeThisMonth);
      reflexivity. }
  rewrite <- (filter_ext _ _ Hwhere).
  destruct (excludedAccounts db) as [|a l];
    cbn [List.length Nat.ltb Nat.leb values last12MonthsAverages];
    rewrite averageOfMonths_bound; reflexivity.
Qed.

End Averages.

(* ================================================================== *)
(** * Lemmas: the user service, call after call                         *)
(* ================================================================== *)

Section UserCalls.
Import MySql Prisma UserService UserServiceRest.
Context {imports : Imports}.

(** ** Looking a user up in a table that was written *)

(** Where two filters first meet the same row, the update of that row under
    one filter is what the other finds afterwards. *)
Lemma find_updateFirst_under (p q : users.row -> bool)
    (f : users.row -> users.row) (us us' : list users.row) (d : users.row) :
  (forall v, q (f v) = q v) ->
  find p us = Some d ->
  find q us = Some d ->
  updateFirst p f us = Some us' ->
  find q us' = Some (f d).
Proof.
  intros Hq. revert us'.
  induction us as [|x rest IH]; intros us'; cbn [find updateFirst];
    [discriminate |].
  destruct (p x) eqn:Hpx; destruct (q x) eqn:Hqx.
  - intros Hp _ Hup. inversion Hp; subst x. inversion Hup; subst us'.
    cbn [find]. now rewrite Hq, Hqx.
  - intros Hp Hfq _. inversion Hp; subst x.
    apply find_some in Hfq. destruct Hfq as [_ Hqd]. congruence.
  - intros Hfp Hfq _. inversion Hfq; subst x.
    apply find_some in Hfp. destruct Hfp as [_ Hpd]. congruence.
  - intros Hfp Hfq Hup.
    destruct (updateFirst p f rest) as [rest'|]; [| discriminate].
    inversion Hup; subst us'. cbn [find]. rewrite Hqx.
    now apply IH.
Qed.

(** Two tables of the same credentials answer a username alike. *)
Lemma find_by_name_credentials (name : string) (us1 us2 : list users.row) :
  map credentials us1 = map credentials us2 ->
  match find (fun u => String.eqb (users.username u) name) us1,
        find (fun u => String.eqb (users.username u) name) us2 with
  | Some u1, Some u2 => credentials u1 = credentials u2
  | None, None => True
  | _, _ => False
  end.
Proof.
  revert us2.
  induction us1 as [|x us1 IH]; intros [|y us2]; cbn [map find];
    try discriminate; [trivial |].
  intros Heq. inversion Heq as [[Hid Hname Hpass Hrest]].
  rewrite Hname.
  destruct (String.eqb (users.username y) name).
  - unfold credentials. congruence.
  - now apply IH.
Qed.

(** ** [getUserIdFromUsername] *)

(** X11.  [getUserIdFromUsername] throws a TypeError exactly for the
    usernames no user has, those [attemptLogin] refuses as User Not Found;
    for any other it returns the id [attemptLogin] answers when it lets the
    user in. *)
Theorem getUserIdFromUsername_agrees_with_login (username password : string)
    (mobile : bool) (w : World) :
  (getUserIdFromUsername username w = TypeError
   <-> userByName username w = None)
  /\ (getUserIdFromUsername username w = TypeError
      <-> attemptLogin username password mobile w
          = (Err (NotAuthorized "User Not Found"), w))
  /\ (forall (response : LoginResponse) (w' : World),
        attemptLogin username password mobile w = (Ok response, w') ->
        getUserIdFromUsername username w = Returned (res_user_id response)).
Proof.
  unfold getUserIdFromUsername. fold (userByName username w).
  destruct (userByName username w) as [data|] eqn:Hfound.
  - split; [split; discriminate |].
    destruct (verifyPassword password (users.password data)) eqn:Hvalid.
    + rewrite (attemptLogin_success username password mobile w data
                 Hfound Hvalid).
      split; [split; discriminate |].
      intros response w' Hrun. inversion Hrun. reflexivity.
    + rewrite (attemptLogin_wrong_password username password mobile w data
                 Hfound Hvalid).
      split; [split; discriminate |].
      intros response w' Hrun. discriminate.
  - rewrite (attemptLogin_no_user username password mobile w Hfound).
    split; [split; reflexivity |].
    split; [split; reflexivity |].
    intros response w' Hrun. discriminate.
Qed.

(** ** [createUser], then a lookup or a login *)

Lemma createUser_found (AUTO_INCREMENT : Z) (user : usersCreateInput)
    (w w' : World) (row : users.row) :
  createUser AUTO_INCREMENT user w = (Ok row, w') ->
  userByName (new_username user) w' = Some row
  /\ users.password row = hashPassword (new_password user).
Proof.
  intros Hrun.
  pose proof (createUser_outcome AUTO_INCREMENT user w) as Hout.
  rewrite Hrun in Hout.
  destruct Hout as (Hhash & _ & _ & _ & _ & _ & Hfound).
  split; assumption.
Qed.

(** X12.  After [createUser] has succeeded, [getUserIdFromUsername] returns
    the new user's id for the username given, and [attemptLogin] under that
    username lets in, as the new user, exactly the passwords that verify
    against the hash of the one given; any other is refused as Wrong
    Credentials, the world left as it was. *)
Theorem createUser_then_login (AUTO_INCREMENT : Z) (user : usersCreateInput)
    (w w' : World) (row : users.row) :
  createUser AUTO_INCREMENT user w = (Ok row, w') ->
  getUserIdFromUsername (new_username user) w' = Returned (users.user_id row)
  /\ (forall (password : string) (mobile : bool),
        verifyPassword password (hashPassword (new_password user)) = true ->
        exists response,
          attemptLogin (new_username user) password mobile w'
          = (Ok response, afterNewSessionKey (new_username user) mobile w')
          /\ res_user_id response = users.user_id row
          /\ res_username response = new_username user)
  /\ (forall (password : string) (mobile : bool),
        verifyPassword password (hashPassword (new_password user)) = false ->
        attemptLogin (new_username user) password mobile w'
        = (Err (NotAuthorized "Wrong Credentials"), w')).
Proof.
  intros Hcreated.
  destruct (createUser_found AUTO_INCREMENT user w w' row Hcreated)
    as [Hfound Hhash].
  assert (Hname : users.username row = new_username user).
  { unfold userByName, findUnique in Hfound. apply find_some in Hfound.
    destruct Hfound as [_ Heq]. now apply String.eqb_eq in Heq. }
  split.
  - unfold getUserIdFromUsername. fold (userByName (new_username user) w').
    now rewrite Hfound.
  - split.
    + intros password mobile Hvalid. rewrite <- Hhash in Hvalid.
      eexists. split.
      * apply (attemptLogin_success _ password mobile w' row Hfound Hvalid).
      * cbn [res_user_id res_username]. split; [reflexivity | exact Hname].
    + intros password mobile Hinvalid. rewrite <- Hhash in Hinvalid.
      apply (attemptLogin_wrong_password _ password mobile w' row Hfound
               Hinvalid).
Qed.

End UserCalls.

Section UserWrites.
Import MySql Prisma UserService UserServiceRest.
Context {imports : Imports}.

(** X13.  Where the session manager writes no credentials and the user of
    the id is the one their username finds, a [changeUserPassword] that has
    succeeded makes [attemptLogin] under that username let in exactly
    the passwords that verify against the hash of the new password, as the
    user of that id; any other password, the former one too unless it
    verifies, is refused as Wrong Credentials. *)
Theorem changeUserPassword_then_login (userId : Z)
    (currentPassword newPassword : string) (mobile : bool) (w w' : World)
    (data : users.row) :
  keepsCredentials ->
  userById userId w = Some data ->
  userByName (users.username data) w = Some data ->
  changeUserPassword userId currentPassword newPassword mobile w = (Ok tt, w') ->
  forall (password : string) (mobile' : bool),
    (verifyPassword password (hashPassword newPassword) = true ->
     exists response,
       attemptLogin (users.username data) password mobile' w'
       = (Ok response, afterNewSessionKey (users.username data) mobile' w')
       /\ res_user_id response = userId)
    /\ (verifyPassword password (hashPassword newPassword) = false ->
        attemptLogin (users.username data) password mobile' w'
        = (Err (NotAuthorized "Wrong Credentials"), w')).
Proof.
  intros Hkeeps Hbyid Hbyname Hrun password mobile'.
  destruct (verifyPassword currentPassword (users.password data)) eqn:Hvalid.
  2: { rewrite (changeUserPassword_wrong_password userId currentPassword
                  newPassword mobile w data Hbyid Hvalid) in Hrun.
       discriminate. }
  destruct (changeUserPassword_success userId currentPassword newPassword
              mobile w data Hbyid Hvalid) as (us' & Hup & Hrun' & _ & _).
  rewrite Hrun' in Hrun. injection Hrun as <-. clear Hrun'.
  assert (Hid : users.user_id data = userId).
  { unfold userById, findUnique in Hbyid. apply find_some in Hbyid.
    destruct Hbyid as [_ Heq]. now apply Z.eqb_eq in Heq. }
  assert (Hwritten :
            find (fun u => String.eqb (users.username u) (users.username data))
              us'
            = Some (setPassword (hashPassword newPassword) data)).
  { apply (find_updateFirst_under (fun u => users.user_id u =? userId)
             (fun u => String.eqb (users.username u) (users.username data))
             (setPassword (hashPassword newPassword))
             (users_rows (database w)) us' data);
      [intros v; reflexivity | exact Hbyid | exact Hbyname | exact Hup]. }
  pose proof (find_by_name_credentials (users.username data)
                (users_rows
                   (snd (generateNewSessionKeyForUser (users.username data)
                           mobile
                           (withUsers (database w) us'))))
                us'
                (Hkeeps (users.username data) mobile
                   (withUsers (database w) us'))) as Hsame.
  cbn [withUsers users_rows] in Hsame.
  rewrite Hwritten in Hsame.
  set (w' := afterNewSessionKey (users.username data) mobile
               (mkWorld (withUsers (database w) us') (sessionKeyRequests w))).
  assert (Hfound : exists u,
             userByName (users.username data) w' = Some u
             /\ users.user_id u = userId
             /\ users.password u = hashPassword newPassword).
  { unfold w', userByName, findUnique, afterNewSessionKey.
    cbn [database sessionKeyRequests].
    destruct (find _ (users_rows (snd _))) as [u|]; [| contradiction].
    exists u. split; [reflexivity |].
    unfold credentials in Hsame. cbn in Hsame.
    inversion Hsame. split; congruence. }
  destruct Hfound as (u & Hu & Huid & Hupass).
  clearbody w'.
  split.
  - intros Hok. rewrite <- Hupass in Hok.
    eexists. split.
    + apply (attemptLogin_success _ password mobile' w' u Hu Hok).
    + cbn [res_user_id]. exact Huid.
  - intros Hno. rewrite <- Hupass in Hno.
    apply (attemptLogin_wrong_password _ password mobile' w' u Hu Hno).
Qed.

(** ** [setupLastUpdateTimestamp] *)

(** X14.  When [setupLastUpdateTimestamp] succeeds, the row it answers is
    the user of the id with the timestamp given and the credentials it had;
    that row is what the id finds afterwards, every other row of the table
    is one it had, no session key is asked for, and a login of that user
    then answers the timestamp.  It throws, nothing being found and the
    world left as it was, exactly when no user has the id. *)
Theorem setupLastUpdateTimestamp_effect (userId timestamp : Z) (w : World) :
  match setupLastUpdateTimestamp userId timestamp w with
  | (Ok row, w') =>
      exists data,
        userById userId w = Some data
        /\ row = setLastUpdateTimestamp timestamp data
        /\ users.last_update_timestamp row = timestamp
        /\ credentials row = credentials data
        /\ userById userId w' = Some row
        /\ List.length (users_rows (database w'))
           = List.length (users_rows (database w))
        /\ (forall v, In v (users_rows (database w')) ->
              In v (users_rows (database w)) \/ v = row)
        /\ sessionKeyRequests w' = sessionKeyRequests w
        /\ (forall (password : string) (mobile : bool),
              userByName (users.username data) w = Some data ->
              verifyPassword password (users.password data) = true ->
              exists response,
                attemptLogin (users.username data) password mobile w'
                = (Ok response,
                   afterNewSessionKey (users.username data) mobile w')
                /\ res_last_update_timestamp response = timestamp)
  | (Err e, w') =>
      e = RecordNotFound /\ w' = w /\ userById userId w = None
  end.
Proof.
  unfold setupLastUpdateTimestamp, users_update.
  fold (userById userId w).
  destruct (userById userId w) as [data|] eqn:Hbyid;
    [| repeat split].
  destruct (updateFirst_found _ (setLastUpdateTimestamp timestamp) _ _ Hbyid)
    as (us' & Hup & Hlen & Hin & _).
  rewrite Hup.
  exists data.
  split; [reflexivity |]. split; [reflexivity |]. split; [reflexivity |].
  split; [reflexivity |].
  split.
  { unfold userById, findUnique. cbn [database withUsers users_rows].
    apply (find_updateFirst (fun u => users.user_id u =? userId)
             (setLastUpdateTimestamp timestamp)
             (users_rows (database w)) us' data);
      [intros v; reflexivity | exact Hbyid | exact Hup]. }
  split; [exact Hlen |].
  split; [exact Hin |].
  split; [reflexivity |].
  intros password mobile Hbyname Hvalid.
  assert (Hfound :
            userByName (users.username data)
              (mkWorld (withUsers (database w) us') (sessionKeyRequests w))
            = Some (setLastUpdateTimestamp timestamp data)).
  { unfold userByName, findUnique. cbn [database withUsers users_rows].
    apply (find_updateFirst_under (fun u => users.user_id u =? userId)
             (fun u => String.eqb (users.username u) (users.username data))
             (setLastUpdateTimestamp timestamp)
             (users_rows (database w)) us' data);
      [intros v; reflexivity | exact Hbyid | exact Hbyname | exact Hup]. }
  eexists. split.
  - apply (attemptLogin_success (users.username data) password mobile _
             (setLastUpdateTimestamp timestamp data) Hfound Hvalid).
  - reflexivity.
Qed.

End UserWrites.

(* ================================================================== *)
(** * Lemmas: [getFirstUserTransactionDate]                             *)
(* ================================================================== *)

Section FirstTransaction.
Import MySql Prisma MySqlGroups UserService UserServiceRest.
Context {server : Server}.

(** ** The order *)

Lemma insertByDate_In {B : Type} (x y : transactions.row * B)
    (l : list (transactions.row * B)) :
  In y (insertByDate x l) <-> y = x \/ In y l.
Proof.
  induction l as [|z l IH]; cbn [insertByDate In].
  - intuition.
  - destruct (transactions.date_timestamp (fst x)
              <=? transactions.date_timestamp (fst z)); cbn [In].
    + intuition.
    + rewrite IH. intuition.
Qed.

Lemma insertByDate_sorted {B : Type} (x : transactions.row * B)
    (l : list (transactions.row * B)) :
  StronglySorted notAfter l -> StronglySorted notAfter (insertByDate x l).
Proof.
  induction 1 as [|z l Hsorted IH Hall]; cbn [insertByDate].
  - constructor; constructor.
  - destruct (transactions.date_timestamp (fst x)
              <=? transactions.date_timestamp (fst z)) eqn:Hle.
    + apply Z.leb_le in Hle.
      constructor; [constructor; assumption |].
      constructor; [exact Hle |].
      rewrite Forall_forall in *. intros y Hy.
      unfold notAfter in *. specialize (Hall y Hy). lia.
    + apply Z.leb_gt in Hle.
      constructor; [exact IH |].
      rewrite Forall_forall in *. intros y Hy.
      apply insertByDate_In in Hy. destruct Hy as [-> | Hy].
      * unfold notAfter. lia.
      * now apply Hall.
Qed.

Lemma orderByDate_In {B : Type} (y : transactions.row * B)
    (l : list (transactions.row * B)) :
  In y (orderByDate l) <-> In y l.
Proof.
  unfold orderByDate.
  induction l as [|x l IH]; cbn [fold_right In]; [reflexivity |].
  rewrite insertByDate_In, IH. intuition.
Qed.

Lemma orderByDate_sorted {B : Type} (l : list (transactions.row * B)) :
  StronglySorted notAfter (orderByDate l).
Proof.
  unfold orderByDate.
  induction l as [|x l IH]; cbn [fold_right];
    [constructor | now apply insertByDate_sorted].
Qed.

(** The first row of the order is a row of the list that none precedes. *)
Lemma orderByDate_first {B : Type} (l : list (transactions.row * B)) :
  match orderByDate l with
  | [] => l = []
  | x :: _ => In x l /\ forall y, In y l -> notAfter x y
  end.
Proof.
  pose proof (orderByDate_sorted l) as Hsorted.
  pose proof (fun y => orderByDate_In y l) as Hin.
  destruct (orderByDate l) as [|x rest].
  - destruct l as [|y l]; [reflexivity |].
    exfalso. apply (Hin y). now left.
  - split; [apply Hin; now left |].
    intros y Hy. apply Hin in Hy.
    inversion Hsorted as [|? ? _ Hall]; subst.
    destruct Hy as [<- | Hy]; [unfold notAfter; lia |].
    rewrite Forall_forall in Hall. now apply Hall.
Qed.

(** ** The rows of the join that the [WHERE] clause keeps *)

Lemma holds_entity (entity : option Z) (e : entities.row) :
  holds (sqlEq (nullableIntCol entity) (intCol (entities.entity_id e))) = true
  <-> entity = Some (entities.entity_id e).
Proof.
  destruct entity as [id|]; cbn [nullableIntCol intCol sqlEq].
  - unfold holds. cbn [sqlBool truth].
    destruct (id =? entities.entity_id e) eqn:Heq; cbn.
    + apply Z.eqb_eq in Heq. subst. intuition.
    + apply Z.eqb_neq in Heq. split; [discriminate |].
      intros Hsome. inversion Hsome. contradiction.
  - split; discriminate.
Qed.

Lemma holds_owner (joined : option entities.row) (userId : Z) :
  holds (sqlEq (match joined with
                | Some e => intCol (entities.users_user_id e)
                | None => SqlNull
                end) (SqlInt userId)) = true
  <-> exists e, joined = Some e /\ entities.users_user_id e = userId.
Proof.
  destruct joined as [e|]; cbn [intCol sqlEq].
  - unfold holds. cbn [sqlBool truth].
    destruct (entities.users_user_id e =? userId) eqn:Heq; cbn.
    + apply Z.eqb_eq in Heq. split; [intros _; now exists e | reflexivity].
    + apply Z.eqb_neq in Heq. split; [discriminate |].
      intros (e' & Hsome & Hu). inversion Hsome; subst. contradiction.
  - split; [discriminate | intros (e & Hsome & _); discriminate].
Qed.

Lemma in_leftJoinEntities (ledger : Ledger) (t : transactions.row)
    (e : entities.row) :
  In (t, Some e) (leftJoinEntities ledger)
  <-> exists te, In te (transactions_with_entity ledger)
                 /\ fst te = t
                 /\ In e (entities_rows ledger)
                 /\ snd te = Some (entities.entity_id e).
Proof.
  unfold leftJoinEntities. rewrite in_flat_map.
  split.
  - intros (te & Hte & Hin). exists te. split; [exact Hte |].
    destruct (filter _ (entities_rows ledger)) as [|e0 rest] eqn:Hmatches.
    + destruct Hin as [Heq | []]. discriminate.
    + rewrite <- Hmatches in Hin. apply in_map_iff in Hin.
      destruct Hin as (e' & Heq & He'). inversion Heq; subst.
      apply filter_In in He'. destruct He' as [He Hon].
      apply holds_entity in Hon. repeat split; assumption.
  - intros (te & Hte & Hfst & He & Hsnd). exists te. split; [exact Hte |].
    assert (Hin : In e (filter (fun e' =>
                     holds (sqlEq (nullableIntCol (snd te))
                              (intCol (entities.entity_id e'))))
                     (entities_rows ledger))).
    { apply filter_In. split; [exact He | now apply holds_entity]. }
    destruct (filter _ (entities_rows ledger)) as [|e0 rest] eqn:Hmatches;
      [contradiction |].
    apply in_map_iff. exists e. subst t.
    split; [reflexivity | exact Hin].
Qed.

(** X15.  [getFirstUserTransactionDate] answers the date of a transaction of
    the user that no transaction of the user precedes, with the month and
    the year the server gives that date, and nothing ([undefined]) exactly
    when the user has no transaction; a transaction counts as the user's
    through the entity it names, so one that names no entity never
    counts. *)
Theorem getFirstUserTransactionDate_earliest (userId : Z) (ledger : Ledger) :
  match getFirstUserTransactionDate userId ledger with
  | Some first =>
      (exists te, In te (transactions_with_entity ledger)
                  /\ belongsTo ledger userId te
                  /\ transactions.date_timestamp (fst te)
                     = date_timestamp first)
      /\ (forall te, In te (transactions_with_entity ledger) ->
            belongsTo ledger userId te ->
            date_timestamp first <= transactions.date_timestamp (fst te))
      /\ (month first, year first) = monthAndYearOf (date_timestamp first)
      /\ users_user_id first = Some userId
  | None =>
      forall te, In te (transactions_with_entity ledger) ->
        ~ belongsTo ledger userId te
  end.
Proof.
  unfold getFirstUserTransactionDate, firstTransactionDates.
  set (kept := filter _ (leftJoinEntities ledger)).
  assert (Hkept : forall t joined,
             In (t, joined) kept
             <-> exists e te,
                   joined = Some e
                   /\ In te (transactions_with_entity ledger)
                   /\ fst te = t
                   /\ In e (entities_rows ledger)
                   /\ snd te = Some (entities.entity_id e)
                   /\ entities.users_user_id e = userId).
  { intros t joined. unfold kept. rewrite filter_In. cbn [snd].
    rewrite holds_owner. split.
    - intros [Hin (e & -> & Hu)].
      apply in_leftJoinEntities in Hin.
      destruct Hin as (te & Hte & Hfst & He & Hsnd).
      exists e, te. repeat split; assumption.
    - intros (e & te & -> & Hte & Hfst & He & Hsnd & Hu).
      split; [| now exists e].
      apply in_leftJoinEntities. exists te. repeat split; assumption. }
  pose proof (orderByDate_first kept) as Hfirst.
  destruct (orderByDate kept) as [|[t joined] rest].
  - cbn [firstn map nth_error].
    intros te Hte (e & He & Hsnd & Hu).
    assert (Hin : In (fst te, Some e) kept).
    { apply Hkept. exists e, te. repeat split; assumption. }
    rewrite Hfirst in Hin. exact Hin.
  - cbn [firstn map nth_error fst snd date_timestamp month year users_user_id].
    destruct Hfirst as [Hin Hmin].
    apply Hkept in Hin.
    destruct Hin as (e & te & -> & Hte & Hfst & He & Hsnd & Hu).
    split.
    { exists te. split; [exact Hte |].
      split; [exists e; repeat split; assumption | now rewrite Hfst]. }
    split.
    { intros te' Hte' (e' & He' & Hsnd' & Hu').
      assert (Hin' : In (fst te', Some e') kept).
      { apply Hkept. exists e', te'. repeat split; assumption. }
      apply (Hmin _ Hin'). }
    split; [symmetry; apply surjective_pairing |].
    cbn [option_map]. now rewrite Hu.
Qed.

End FirstTransaction.

(* ================================================================== *)
(** * Lemmas: windows and their edges                                   *)
(* ================================================================== *)

Section Windows.
Import MySql Prisma CategoryService.

(** The row either statement answers. *)
Lemma getAmountForCategoryInPeriod_rows (categoryId fromDate toDate : Z)
    (includeTransfers : bool) (db : Database) :
  answer (getAmountForCategoryInPeriod categoryId fromDate toDate
            includeTransfers db)
  = [ mkAmounts
        (sqlTotal (creditOf includeTransfers db)
           (filter (inWindow categoryId fromDate toDate)
              (transactions_rows db)))
        (sqlTotal (debitOf includeTransfers db)
           (filter (inWindow categoryId fromDate toDate)
              (transactions_rows db))) ].
Proof.
  unfold getAmountForCategoryInPeriod, performDatabaseRequest, queryRaw.
  destruct includeTransfers;
    cbn [answer periodWithTransfers periodWithoutTransfers creditOf debitOf];
    fold (excludedAccounts db); fold (boundExclusionList db);
    rewrite (filter_ext _ _
               (inPeriodOfCategory_inWindow categoryId fromDate toDate));
    cbv zeta; rewrite !sqlSum_if;
    f_equal; f_equal; apply sqlTotal_ext; intros t;
    unfold creditOf, debitOf.
  - unfold countedAsCredit, typeIs.
    destruct (transactions.type t); cbn [trxTypeCode strCol sqlEq String.eqb];
      try reflexivity.
    rewrite holds_or_false_and_true. apply notIn_boundExclusionList.
  - unfold countedAsDebit, typeIs.
    destruct (transactions.type t); cbn [trxTypeCode strCol sqlEq String.eqb];
      try reflexivity.
    rewrite holds_or_false_and_true. apply notIn_boundExclusionList.
  - unfold isIncome, typeIs. destruct (transactions.type t); reflexivity.
  - unfold isExpense, typeIs. destruct (transactions.type t); reflexivity.
Qed.

Lemma sqlTotal_null (counts : transactions.row -> bool)
    (rows : list transactions.row) :
  sqlTotal counts rows = SqlNull <-> rows = [].
Proof.
  destruct rows; cbn [sqlTotal]; split; intros H;
    try reflexivity; discriminate.
Qed.

Lemma filter_nil_iff {A : Type} (p : A -> bool) (l : list A) :
  filter p l = [] <-> forall x, In x l -> p x = false.
Proof.
  induction l as [|x l IH]; cbn [filter In].
  - split; [intros _ y [] | reflexivity].
  - destruct (p x) eqn:Hp.
    + split; [discriminate |].
      intros Hall. specialize (Hall x (or_introl eq_refl)). congruence.
    + rewrite IH. split.
      * intros Hall y [<- | Hy]; [exact Hp | now apply Hall].
      * intros Hall y Hy. apply Hall. now right.
Qed.

(** X16.  [getAmountForCategoryInPeriod] always answers one row.  Both its
    sums are [NULL], not 0, exactly when no transaction of the category is
    dated in the window, as is the case of every window whose end precedes
    its start; and both are integers otherwise, whatever the types of the
    transactions. *)
Theorem getAmountForCategoryInPeriod_null (categoryId fromDate toDate : Z)
    (includeTransfers : bool) (db : Database) :
  (answer (getAmountForCategoryInPeriod categoryId fromDate toDate
             includeTransfers db)
   = [ mkAmounts SqlNull SqlNull ]
   <-> forall t, In t (transactions_rows db) ->
         inWindow categoryId fromDate toDate t = false)
  /\ (toDate < fromDate ->
      answer (getAmountForCategoryInPeriod categoryId fromDate toDate
                includeTransfers db)
      = [ mkAmounts SqlNull SqlNull ])
  /\ ((exists t, In t (transactions_rows db)
                 /\ inWindow categoryId fromDate toDate t = true) ->
      exists credit debit : Z,
        answer (getAmountForCategoryInPeriod categoryId fromDate toDate
                  includeTransfers db)
        = [ mkAmounts (SqlInt credit) (SqlInt debit) ]).
Proof.
  rewrite getAmountForCategoryInPeriod_rows.
  rewrite <- filter_nil_iff.
  assert (Hnull : filter (inWindow categoryId fromDate toDate)
                    (transactions_rows db) = [] ->
                  [ mkAmounts
                      (sqlTotal (creditOf includeTransfers db)
                         (filter (inWindow categoryId fromDate toDate)
                            (transactions_rows db)))
                      (sqlTotal (debitOf includeTransfers db)
                         (filter (inWindow categoryId fromDate toDate)
                            (transactions_rows db))) ]
                  = [ mkAmounts SqlNull SqlNull ]).
  { intros ->. reflexivity. }
  split; [split; [| exact Hnull] |].
  - intros Heq. injection Heq as Hcredit _.
    now apply sqlTotal_null in Hcredit.
  - split.
    + intros Hinverted. apply Hnull. apply filter_nil_iff.
      intros t _. unfold inWindow.
      destruct (fromDate <=? transactions.date_timestamp t) eqn:Hfrom;
        [| reflexivity].
      destruct (transactions.date_timestamp t <=? toDate) eqn:Hto;
        [| reflexivity].
      apply Z.leb_le in Hfrom. apply Z.leb_le in Hto. lia.
    + intros (t & Ht & Hin).
      assert (Hrow : In t (filter (inWindow categoryId fromDate toDate)
                             (transactions_rows db)))
        by (apply filter_In; split; assumption).
      destruct (filter (inWindow categoryId fromDate toDate)
                  (transactions_rows db)) as [|r rows]; [contradiction |].
      cbn [sqlTotal]. eexists; eexists; reflexivity.
Qed.

End Windows.

Section MonthEdges.
Import MySql Prisma CategoryService.
Context {imports : Imports}.

Lemma followingMonth_range (year month : Z) :
  1 <= month <= 12 ->
  1 <= snd (followingMonth year month) <= 12
  /\ year <= fst (followingMonth year month).
Proof.
  intros Hm. unfold followingMonth.
  destruct (month =? 12) eqn:H12; cbn [fst snd].
  - lia.
  - apply Z.eqb_neq in H12. lia.
Qed.

Lemma DaysInMonth_positive (year monthIndex : Z) :
  0 < Js.DaysInMonth year monthIndex.
Proof.
  unfold Js.DaysInMonth.
  destruct monthIndex as [|p|p]; try lia.
  repeat (destruct p as [p|p|]; try lia);
    destruct (Js.isLeapYear year); lia.
Qed.

Lemma sumAmounts_app (counts : transactions.row -> bool)
    (rows : list transactions.row) (t : transactions.row) :
  sumAmounts counts (rows ++ [t])
  = sumAmounts counts rows + (if counts t then transactions.amount t else 0).
Proof.
  unfold sumAmounts.
  induction rows as [|r rows IH]; cbn [app fold_right]; [lia |].
  rewrite IH. lia.
Qed.

(** One more row of the window, counted or not. *)
Lemma sqlTotal_app (counts : transactions.row -> bool)
    (rows : list transactions.row) (t : transactions.row) :
  sqlTotal counts (rows ++ [t])
  = plusAmount (sqlTotal counts rows)
      (if counts t then transactions.amount t else 0).
Proof.
  destruct rows as [|r rows].
  - cbn [app sqlTotal plusAmount]. unfold sumAmounts. cbn [fold_right].
    f_equal. lia.
  - change ((r :: rows) ++ [t])%list with (r :: (rows ++ [t]))%list.
    cbn [sqlTotal plusAmount].
    change (r :: (rows ++ [t]))%list with ((r :: rows) ++ [t])%list.
    now rewrite sumAmounts_app.
Qed.

(** What one more income in the window adds to the row of a period. *)
Lemma income_in_window (categoryId fromDate toDate timestamp amount : Z)
    (includeTransfers : bool) (db : Database) (t : transactions.row) :
  incomeOf categoryId timestamp amount t ->
  fromDate <= timestamp <= toDate ->
  forall credit debit,
    nth_error
      (answer (getAmountForCategoryInPeriod categoryId fromDate toDate
                 includeTransfers db)) 0
    = Some (mkAmounts credit debit) ->
    nth_error
      (answer (getAmountForCategoryInPeriod categoryId fromDate toDate
                 includeTransfers (withTransaction db t))) 0
    = Some (mkAmounts (plusAmount credit amount) (plusAmount debit 0)).
Proof.
  intros (Htype & Hcat & Hdate & Hamount) Hin credit debit.
  rewrite !getAmountForCategoryInPeriod_rows. cbn [nth_error].
  intros Hbefore. injection Hbefore as Hcredit Hdebit.
  unfold withTransaction. cbn [transactions_rows].
  rewrite filter_app. cbn [filter].
  assert (Hwin : inWindow categoryId fromDate toDate t = true).
  { unfold inWindow. rewrite Hcat, Hdate, Z.eqb_refl.
    apply andb_true_iff. split; [| reflexivity].
    apply andb_true_iff. split; apply Z.leb_le; lia. }
  rewrite Hwin, !sqlTotal_app.
  assert (Hc : creditOf includeTransfers
                 (mkDatabase (users_rows db) (accounts_rows db)
                    (categories_rows db) (budgets_has_categories_rows db)
                    (transactions_rows db ++ [t])) t = true).
  { unfold creditOf, countedAsCredit, isIncome. rewrite Htype.
    destruct includeTransfers; reflexivity. }
  assert (Hd : debitOf includeTransfers
                 (mkDatabase (users_rows db) (accounts_rows db)
                    (categories_rows db) (budgets_has_categories_rows db)
                    (transactions_rows db ++ [t])) t = false).
  { unfold debitOf, countedAsDebit, isExpense. rewrite Htype.
    destruct includeTransfers; reflexivity. }
  rewrite Hc, Hd, Hamount.
  subst credit debit. reflexivity.
Qed.

(** X17.  The windows of two months that follow each other share an
    instant: both ends of a window count.  Where timestamps grow with the
    date and the dates are valid, an income dated at the first instant of a
    month is added to the credit of that month and to the credit of the
    month before. *)
Theorem month_boundary_counted_twice (categoryId month year amount : Z)
    (includeTransfers : bool) (db : Database) (t : transactions.row) :
  (forall a b, a <= b ->
     getUnixTimestampFromDate (UTC a) <= getUnixTimestampFromDate (UTC b)) ->
  1 <= month <= 12 ->
  100 <= year ->
  let next := followingMonth year month in
  let second := followingMonth (fst next) (snd next) in
  validMonth year month ->
  validMonth (fst next) (snd next) ->
  validMonth (fst second) (snd second) ->
  incomeOf categoryId (firstInstantOfMonth (fst next) (snd next)) amount t ->
  (forall credit debit,
     getAmountForCategoryInMonth categoryId month year includeTransfers db
     = Answered (Some (mkAmounts credit debit)) ->
     getAmountForCategoryInMonth categoryId month year includeTransfers
       (withTransaction db t)
     = Answered (Some (mkAmounts (plusAmount credit amount)
                         (plusAmount debit 0))))
  /\ (forall credit debit,
        getAmountForCategoryInMonth categoryId (snd next) (fst next)
          includeTransfers db
        = Answered (Some (mkAmounts credit debit)) ->
        getAmountForCategoryInMonth categoryId (snd next) (fst next)
          includeTransfers (withTransaction db t)
        = Answered (Some (mkAmounts (plusAmount credit amount)
                            (plusAmount debit 0)))).
Proof.
  intros Hmono Hm Hy next second Hvalid Hvalid' Hvalid'' Hincome.
  destruct (followingMonth_range year month Hm) as [Hm' Hy'].
  fold next in Hm', Hy'.
  assert (Hstep : forall y m, 1 <= m <= 12 ->
             firstInstantOfMonth y m
             <= firstInstantOfMonth (fst (followingMonth y m))
                                    (snd (followingMonth y m))).
  { intros y m Hrange. unfold firstInstantOfMonth. apply Hmono.
    rewrite (firstDayOfMonth_following y m Hrange).
    pose proof (DaysInMonth_positive y (m - 1)). unfold Js.msPerDay. lia. }
  split; intros credit debit.
  - rewrite !getAmountForCategoryInMonth_window by (assumption || lia).
    unfold monthByClaim. fold next.
    intros Hbefore. injection Hbefore as Hbefore. f_equal.
    apply (income_in_window categoryId _ _ _ amount includeTransfers db t
             Hincome); [| exact Hbefore].
    split; [apply (Hstep year month Hm) | lia].
  - rewrite !getAmountForCategoryInMonth_window by (assumption || lia).
    unfold monthByClaim. fold second.
    intros Hbefore. injection Hbefore as Hbefore. f_equal.
    apply (income_in_window categoryId _ _ _ amount includeTransfers db t
             Hincome); [| exact Hbefore].
    split; [lia | apply (Hstep (fst next) (snd next) Hm')].
Qed.

(** X18.  For a year of three digits or more and dates that are valid,
    month 0 is taken as December of the year before, and month 13 as the
    one first instant of January of the year after: the window then starts
    and ends at that instant. *)
Theorem getAmountForCategoryInMonth_beyond_the_year (categoryId year : Z)
    (includeTransfers : bool) (db : Database) :
  100 <= year ->
  (validMonth (year - 1) 12 -> validMonth year 1 ->
   getAmountForCategoryInMonth categoryId 0 year includeTransfers db
   = Answered
       (nth_error
          (answer
             (getAmountForCategoryInPeriod categoryId
                (firstInstantOfMonth (year - 1) 12) (firstInstantOfMonth year 1)
                includeTransfers db))
          0))
  /\ (validMonth (year + 1) 1 ->
      getAmountForCategoryInMonth categoryId 13 year includeTransfers db
      = Answered
          (nth_error
             (answer
                (getAmountForCategoryInPeriod categoryId
                   (firstInstantOfMonth (year + 1) 1)
                   (firstInstantOfMonth (year + 1) 1)
                   includeTransfers db))
             0)).
Proof.
  intros Hy.
  unfold getAmountForCategoryInMonth, performDatabaseRequest,
    firstInstantOfMonth, Js.newDate, validMonth, validDay.
  cbn [Z.ltb Z.compare].
  change (0 <? 12) with true. change (13 <? 12) with false. cbv iota.
  rewrite (fullYear_outside_two_digits year) by lia.
  rewrite (fullYear_outside_two_digits (year + 1)) by lia.
  assert (Hdec : Js.MakeDay year (0 - 1) 1 = firstDayOfMonth (year - 1) 12).
  { unfold Js.MakeDay, firstDayOfMonth.
    change ((0 - 1) / 12) with (-1). change ((0 - 1) mod 12) with 11.
    change (Z.to_nat (12 - 1)) with (Z.to_nat 11).
    replace (year + -1) with (year - 1) by lia. lia. }
  assert (Hjan : forall y, Js.MakeDay y (0 + 1 - 1) 1 = firstDayOfMonth y 1).
  { intros y. apply (MakeDay_first_of_month y 1). lia. }
  assert (Hthirteen : Js.MakeDay year (13 - 1) 1 = firstDayOfMonth (year + 1) 1).
  { unfold Js.MakeDay, firstDayOfMonth.
    change ((13 - 1) / 12) with 1. change ((13 - 1) mod 12) with 0.
    change (Z.to_nat (1 - 1)) with (Z.to_nat 0). lia. }
  rewrite Hdec, Hthirteen.
  change (1 - 1) with (0 + 1 - 1). rewrite !Hjan.
  split.
  - intros Hmin Hmax.
    now rewrite (TimeClip_valid _ Hmax), (TimeClip_valid _ Hmin).
  - intros Hvalid. now rewrite (TimeClip_valid _ Hvalid).
Qed.

End MonthEdges.

(* ================================================================== *)
(** * Lemmas: [getUserCategoriesEntitiesTags]                           *)
(* ================================================================== *)

Section CategoriesEntitiesTags.
Import MySql Prisma PrismaCategories CategoryServiceRest UserService
  UserServiceRest.
Context {directory : Directory}.

(** X19.  The categories [getUserCategoriesEntitiesTags] answers are the
    categories of the user, in the order of the table and none of another
    user, each with its id, its name and its type, none of them undefined;
    they are as many as [getCountOfUserCategories] counts; the entities and
    the tags are those the two other services answered. *)
Theorem getUserCategoriesEntitiesTags_categories (userId : Z) (db : Database) :
  out_categories (getUserCategoriesEntitiesTags userId db)
  = map (fun c =>
           mkCategoryEntry (Some (categories.category_id c))
             (Some (categories.name c)) (Some (categories.type c)))
        (categoriesOf userId db)
  /\ (forall entry,
        In entry (out_categories (getUserCategoriesEntitiesTags userId db)) ->
        exists c, In c (categories_rows db)
                  /\ categories.users_user_id c = userId
                  /\ entry_category_id entry = Some (categories.category_id c)
                  /\ entry_name entry = Some (categories.name c)
                  /\ entry_type entry = Some (categories.type c))
  /\ List.length (out_categories (getUserCategoriesEntitiesTags userId db))
     = getCountOfUserCategories userId db
  /\ out_entities (getUserCategoriesEntitiesTags userId db)
     = getAllEntitiesForUser userId db
  /\ out_tags (getUserCategoriesEntitiesTags userId db)
     = getAllTagsForUser userId db.
Proof.
  assert (Hcats :
            out_categories (getUserCategoriesEntitiesTags userId db)
            = map (fun c =>
                     mkCategoryEntry (Some (categories.category_id c))
                       (Some (categories.name c)) (Some (categories.type c)))
                  (categoriesOf userId db)).
  { unfold getUserCategoriesEntitiesTags. cbn [out_categories].
    unfold getAllCategoriesForUser, findMany. fold (categoriesOf userId db).
    rewrite map_map. reflexivity. }
  split; [exact Hcats |].
  split.
  { intros entry Hentry. rewrite Hcats in Hentry.
    apply in_map_iff in Hentry. destruct Hentry as (c & <- & Hc).
    unfold categoriesOf in Hc. apply filter_In in Hc.
    destruct Hc as [Hc Hu]. apply Z.eqb_eq in Hu.
    exists c. repeat split; assumption. }
  split.
  { rewrite Hcats, length_map. reflexivity. }
  unfold getUserCategoriesEntitiesTags. cbn [out_entities out_tags].
  split.
  - induction (getAllEntitiesForUser userId db) as [|[id name] l IH];
      cbn [map entity_id entity_name]; [reflexivity | now rewrite IH].
  - induction (getAllTagsForUser userId db) as [|[id name description] l IH];
      cbn [map tag_id tag_name tag_description];
      [reflexivity | now rewrite IH].
Qed.

End CategoriesEntitiesTags.

(* ================================================================== *)
(** * The lemmas at sample data                                         *)
(* ================================================================== *)

Section RestSamplesFacts.
Import MySql Prisma PrismaCategories CategoryService CategoryServiceRest
  UserService UserServiceRest.

(** X6 at the Food category of user 1. *)
Lemma deleteCategory_then_gone_sample :
  (exists results db',
      deleteCategory 1 10 budgetOfUser1 = (Ok results, db')
      /\ (getCountOfUserCategories 1 db'
          < getCountOfUserCategories 1 budgetOfUser1)%nat
      /\ deleteCategory 1 10 db' = (Err RecordNotFound, db')).
Proof.
  eexists. eexists.
  assert (Hrun : deleteCategory 1 10 budgetOfUser1
                 = (Ok [ Count 1;
                         DeletedCategory
                           (categories.mk 10 "Food" "D" None None "Ativa"
                              false 1) ],
                    mkDatabase [] []
                      [ rentOfUser1;
                        categories.mk 12 "Wages" "C" None None "Ativa" false 2 ]
                      [] []))
    by reflexivity.
  split; [exact Hrun |].
  destruct (@deleteCategory_then_gone utcHost 1 10 budgetOfUser1 _ _ Hrun)
    as (_ & _ & Hfewer & _ & Hagain).
  split; [exact Hfewer | exact Hagain].
Defined.

(** X7 at the Food category of user 1, the ids of the table being 10, 11
    and 12. *)
Lemma deleteCategory_takes_one_sample :
  NoDup (map categories.category_id (categories_rows budgetOfUser1))
  /\ exists results db',
       deleteCategory 1 10 budgetOfUser1 = (Ok results, db')
       /\ S (getCountOfUserCategories 1 db')
          = getCountOfUserCategories 1 budgetOfUser1.
Proof.
  assert (Hnodup : NoDup (map categories.category_id
                            (categories_rows budgetOfUser1))).
  { cbn. repeat constructor; cbn; intuition discriminate. }
  split; [exact Hnodup |].
  eexists. eexists.
  assert (Hrun : deleteCategory 1 10 budgetOfUser1
                 = (Ok [ Count 1;
                         DeletedCategory
                           (categories.mk 10 "Food" "D" None None "Ativa"
                              false 1) ],
                    mkDatabase [] []
                      [ rentOfUser1;
                        categories.mk 12 "Wages" "C" None None "Ativa" false 2 ]
                      [] []))
    by reflexivity.
  split; [exact Hrun |].
  exact (proj1 (deleteCategory_takes_one 1 10 budgetOfUser1 _ _ Hnodup Hrun)).
Defined.

(** X8 at the Rent category of user 1, for which budget 1 holds no row. *)
Lemma getAllCategoriesForBudget_complete_sample :
  (In rentOfUser1 (categories_rows budgetOfUser1)
   /\ categories.users_user_id rentOfUser1 = 1
   /\ categories.status rentOfUser1 = @CATEGORY_STATUS_ACTIVE utcHost)
  /\ exists row,
       In row (answer (@getAllCategoriesForBudget utcHost 1 1 budgetOfUser1))
       /\ bc_category_id row = 11
       /\ bc_name row = "Rent".
Proof.
  assert (Hin : In rentOfUser1 (categories_rows budgetOfUser1))
    by (right; left; reflexivity).
  split; [repeat split; exact Hin |].
  exact (proj1 (@getAllCategoriesForBudget_complete utcHost 1 1 budgetOfUser1
                  rentOfUser1 Hin eq_refl eq_refl)).
Defined.

(** X12 at a new user, bob, beside alice, the table handing out the id
    2. *)
Lemma createUser_then_login_sample :
  exists row w',
    @createUser sampleServices 2 bob aliceWorld = (Ok row, w')
    /\ getUserIdFromUsername "bob" w' = Returned 2
    /\ @attemptLogin sampleServices "bob" "guess" false w'
       = (Err (NotAuthorized "Wrong Credentials"), w').
Proof.
  eexists. eexists.
  assert (Hrun : @createUser sampleServices 2 bob aliceWorld
                 = (Ok (users.mk 2 "bob" "hash:hunter2" "bob@example.org"
                          None None None None 0),
                    mkWorld
                      (mkDatabase
                         [ alice;
                           users.mk 2 "bob" "hash:hunter2" "bob@example.org"
                             None None None None 0 ]
                         [accounts.mk 3 "current" false (Some 1500) 1]
                         [] [] [])
                      []))
    by reflexivity.
  split; [exact Hrun |].
  destruct (@createUser_then_login sampleServices 2 bob aliceWorld _ _ Hrun)
    as (Hid & _ & Hrefused).
  split; [exact Hid |].
  apply (Hrefused "guess" false). reflexivity.
Defined.

(** X13 at alice changing her password from a desktop. *)
Lemma changeUserPassword_then_login_sample :
  (@keepsCredentials sampleServices
   /\ userById 1 aliceWorld = Some alice
   /\ userByName (users.username alice) aliceWorld = Some alice)
  /\ exists w',
       @changeUserPassword sampleServices 1 "secret" "better" false aliceWorld
       = (Ok tt, w')
       /\ @attemptLogin sampleServices "alice" "secret" false w'
          = (Err (NotAuthorized "Wrong Credentials"), w').
Proof.
  assert (Hkeeps : @keepsCredentials sampleServices)
    by (intros username mobile db; reflexivity).
  split; [repeat split; exact Hkeeps |].
  eexists.
  assert (Hrun : @changeUserPassword sampleServices 1 "secret" "better" false
                   aliceWorld
                 = (Ok tt,
                    mkWorld
                      (mkDatabase
                         [ users.mk 1 "alice" "hash:better" "alice@example.org"
                             (Some "old-key") None None None 0 ]
                         [accounts.mk 3 "current" false (Some 1500) 1]
                         [] [] [])
                      [("alice", false)]))
    by reflexivity.
  split; [exact Hrun |].
  apply (proj2 (@changeUserPassword_then_login sampleServices 1 "secret"
                  "better" false aliceWorld _ alice Hkeeps eq_refl eq_refl
                  Hrun "secret" false)).
  reflexivity.
Defined.

(** X4 at a third category of user 1, the table handing out the id 14
    (its categories being 10, 11 and 12, and 13 one it had). *)
Lemma createCategory_listed_sample :
  exists row db',
    @createCategory nameTypePerUser 14 savingsOfUser1 budgetOfUser1
    = (Ok row, db')
    /\ categories.category_id row = 14
    /\ categories.name row = "Savings"
    /\ categories.users_user_id row = 1
    /\ getCountOfUserCategories 1 budgetOfUser1 = 2%nat
    /\ getCountOfUserCategories 1 db' = 3%nat
    /\ getCountOfUserCategories 2 db' = 1%nat.
Proof.
  destruct (@createCategory_listed nameTypePerUser 14 savingsOfUser1
              budgetOfUser1) as [Hrows Hsucceeds].
  assert (Hfresh : forall c, In c (categories_rows budgetOfUser1) ->
            categories.category_id c
            <> categories.category_id (createdCategory 14 savingsOfUser1)).
  { intros c [<- | [<- | [<- | []]]]; discriminate. }
  destruct (Hsucceeds Hfresh eq_refl) as [db' Hrun].
  rewrite Hrun in Hrows.
  destruct Hrows as (_ & _ & _ & _ & _ & _ & _ & _ & _ & _ & _ & Hcount & Hothers).
  exists (createdCategory 14 savingsOfUser1), db'.
  split; [exact Hrun |].
  do 4 (split; [reflexivity |]).
  split; [exact Hcount |].
  apply (Hothers 2 None). discriminate.
Defined.

(** X5 at two updates of the categories of user 1: a new name for Food,
    and Rent handed over to user 2; and at an update user 2 asks of
    Food. *)
Lemma updateCategory_own_category_sample :
  (exists row db',
     @updateCategory nameTypePerUser 1 10 renamedGroceries budgetOfUser1
     = (Ok row, db')
     /\ categories.name row = "Groceries"
     /\ categories.users_user_id row = 1
     /\ getCountOfUserCategories 1 db' = 2%nat)
  /\ (exists row db',
        @updateCategory nameTypePerUser 1 11 handedToUser2 budgetOfUser1
        = (Ok row, db')
        /\ categories.name row = "Rent"
        /\ categories.users_user_id row = 2
        /\ getCountOfUserCategories 1 db' = 1%nat
        /\ getCountOfUserCategories 2 db' = 2%nat)
  /\ @updateCategory nameTypePerUser 2 10 renamedGroceries budgetOfUser1
     = (Err RecordNotFound, budgetOfUser1).
Proof.
  split; [| split].
  - destruct (@updateCategory_own_category nameTypePerUser 1 10
                renamedGroceries budgetOfUser1) as [Hrows _].
    destruct (@updateCategory nameTypePerUser 1 10 renamedGroceries
                budgetOfUser1) as [[row | e] db'] eqn:Hrun;
      [| vm_compute in Hrun; discriminate].
    destruct Hrows
      as (c & _ & Howner & _ & _ & Hname & _ & _ & _ & _ & _ & Hkept & _ & _
          & _ & _ & _ & Hcounts & _).
    exists row, db'. split; [reflexivity |].
    split; [exact Hname |].
    split; [cbn in Hkept; congruence |].
    rewrite (Hcounts eq_refl 1). reflexivity.
  - destruct (@updateCategory_own_category nameTypePerUser 1 11
                handedToUser2 budgetOfUser1) as [Hrows _].
    destruct (@updateCategory nameTypePerUser 1 11 handedToUser2
                budgetOfUser1) as [[row | e] db'] eqn:Hrun;
      [| vm_compute in Hrun; discriminate].
    assert (Hname : categories.name row = "Rent").
    { vm_compute in Hrun. injection Hrun as <- _. reflexivity. }
    destruct Hrows
      as (c & _ & Howner & _ & _ & _ & _ & _ & _ & _ & _ & Hnew & _ & _
          & _ & _ & Hcount & _ & _).
    cbn in Hnew.
    exists row, db'. split; [reflexivity |].
    split; [exact Hname |].
    split; [exact Hnew |].
    pose proof (Hcount 1) as Hone. pose proof (Hcount 2) as Htwo.
    unfold oneIfOwner in Hone, Htwo. rewrite Howner, Hnew in Hone, Htwo.
    cbn in Hone, Htwo. split; lia.
  - apply (proj2 (@updateCategory_own_category nameTypePerUser 2 10
                    renamedGroceries budgetOfUser1)).
    intros c [<- | [<- | [<- | []]]]; cbn; intros Howner; discriminate.
Defined.

(** X17 at the first instant of 2024, between December 2023 and January
    2024, on a host in UTC. *)
Lemma month_boundary_counted_twice_sample :
  ((forall a b, a <= b ->
      @getUnixTimestampFromDate utcHost (@UTC utcHost a)
      <= @getUnixTimestampFromDate utcHost (@UTC utcHost b))
   /\ 1 <= 12 <= 12 /\ 100 <= 2023
   /\ @validMonth utcHost 2023 12 /\ @validMonth utcHost 2024 1
   /\ @validMonth utcHost 2024 2
   /\ incomeOf 1 (@firstInstantOfMonth utcHost 2024 1) 250 newYearIncome)
  /\ @getAmountForCategoryInMonth utcHost 1 12 2023 true
       (withTransaction (oneIncomeAt 1701388800) newYearIncome)
     = Answered (Some (mkAmounts (SqlInt 350) (SqlInt 0)))
  /\ @getAmountForCategoryInMonth utcHost 1 1 2024 true
       (withTransaction (oneIncomeAt 1701388800) newYearIncome)
     = Answered (Some (mkAmounts (SqlInt 250) (SqlInt 0))).
Proof.
  assert (Hmono : forall a b, a <= b ->
             @getUnixTimestampFromDate utcHost (@UTC utcHost a)
             <= @getUnixTimestampFromDate utcHost (@UTC utcHost b)).
  { intros a b Hab. cbn. apply Z.div_le_mono; lia. }
  assert (Hincome : incomeOf 1 (@firstInstantOfMonth utcHost 2024 1) 250
                      newYearIncome)
    by (repeat split).
  assert (Hdec : @validMonth utcHost 2023 12) by (vm_compute; discriminate).
  assert (Hjan : @validMonth utcHost 2024 1) by (vm_compute; discriminate).
  assert (Hfeb : @validMonth utcHost 2024 2) by (vm_compute; discriminate).
  split; [repeat split; try lia; assumption |].
  destruct (@month_boundary_counted_twice utcHost 1 12 2023 250 true
              (oneIncomeAt 1701388800) newYearIncome Hmono
              ltac:(lia) ltac:(lia) Hdec Hjan Hfeb Hincome)
    as [Hdecember Hjanuary].
  split.
  - apply (Hdecember (SqlInt 100) (SqlInt 0)). vm_compute. reflexivity.
  - apply (Hjanuary SqlNull SqlNull). vm_compute. reflexivity.
Defined.

(** X18 at the year 2023, on a host in UTC. *)
Lemma getAmountForCategoryInMonth_beyond_the_year_sample :
  (100 <= 2023 /\ @validMonth utcHost 2022 12 /\ @validMonth utcHost 2023 1
   /\ @validMonth utcHost 2024 1)
  /\ @getAmountForCategoryInMonth utcHost 1 0 2023 true (oneIncomeAt 1671000000)
     = Answered (Some (mkAmounts (SqlInt 100) (SqlInt 0)))
  /\ @getAmountForCategoryInMonth utcHost 1 13 2023 true
       (withTransaction (oneIncomeAt 1701388800) newYearIncome)
     = Answered (Some (mkAmounts (SqlInt 250) (SqlInt 0))).
Proof.
  assert (Hdec : @validMonth utcHost (2023 - 1) 12) by (vm_compute; discriminate).
  assert (Hjan : @validMonth utcHost 2023 1) by (vm_compute; discriminate).
  assert (Hnext : @validMonth utcHost (2023 + 1) 1) by (vm_compute; discriminate).
  split; [repeat split; try lia; assumption |].
  destruct (@getAmountForCategoryInMonth_beyond_the_year utcHost 1 2023 true
              (oneIncomeAt 1671000000) ltac:(lia)) as [Hzero _].
  destruct (@getAmountForCategoryInMonth_beyond_the_year utcHost 1 2023 true
              (withTransaction (oneIncomeAt 1701388800) newYearIncome)
              ltac:(lia)) as [_ Hthirteen].
  split.
  - rewrite (Hzero Hdec Hjan). vm_compute. reflexivity.
  - rewrite (Hthirteen Hnext). vm_compute. reflexivity.
Defined.

End RestSamplesFacts.
